(** * TinyPlanvas: the client-side project store and its realtime reconciler

    A shallow embedding of
    - the zustand/immer project store (its [set] callbacks, one pure function
      from state to state per callback),
    - the aggregation helpers [computeTaskAggregation] and
      [buildAllocationMap],
    - the closure state of [subscribeToProjectChanges] (membership sets and
      the two pending queues),
    - the store and its subscription put together as [subscribeToProject]
      wires them, and the grid's edit path,
    - the helpers [generateNextDisplayId], [hexToRgb] and [getPresenceColor],
    followed by the properties of the optimistic-mutation / realtime-merge
    engine.  JavaScript arrays are lists, [Set<string>] is [gset string],
    [Map<string, Allocation>] is [gmap string Allocation.t].  Sort orders
    and millisecond clocks are integers; percentages are JavaScript numbers
    that need not be integral, so they are binary64 floating-point numbers
    ([float]) and [+] on them is IEEE 754 addition. *)

From Stdlib Require Import PrimFloat FloatOps SpecFloat.
From Stdlib Require Import ZArith Ascii String List Lia Permutation Sorted DecimalString.
From Stdlib Require Import OrderedTypeEx.
From Stdlib Require DecimalPos.
From stdpp Require Import base option list gmap sets strings.

Import ListNotations.
Local Open Scope string_scope.
Local Open Scope Z_scope.
Local Open Scope list_scope.

(** ** Records of [types.ts] *)

(** [BaseRecord]: [id] is mandatory, the other PocketBase fields are
    optional ([collectionId?], [collectionName?], [created?], [updated?]);
    an absent property is [None]. *)

Module Project.
Record t := mk {
  id : string;
  collectionId : option string;
  collectionName : option string;
  created : option string;
  updated : option string;
  user_id : string;
  name : string;
  resolution : string;
  start_date : string;
  end_date : string }.
End Project.

Module Task.
Record t := mk {
  id : string;
  collectionId : option string;
  collectionName : option string;
  created : option string;
  updated : option string;
  project_id : string;
  display_id : string;
  name : string;
  sort_order : Z }.
End Task.

Module Resource.
Record t := mk {
  id : string;
  collectionId : option string;
  collectionName : option string;
  created : option string;
  updated : option string;
  task_id : string;
  name : string;
  sort_order : Z }.
End Resource.

Module Allocation.
Record t := mk {
  id : string;
  collectionId : option string;
  collectionName : option string;
  created : option string;
  updated : option string;
  resource_id : string;
  date : string;
  percentage : float;
  color_hex : string }.
End Allocation.

Module Presence.
Record t := mk {
  id : string;
  collectionId : option string;
  collectionName : option string;
  created : option string;
  updated : option string;
  project_id : string;
  session_id : string;
  user_name : string;
  user_color : string;
  last_seen : string }.
End Presence.

(** [Partial<Task>] and [Partial<Resource>]: every property may be absent. *)

Module PartialTask.
Record t := mk {
  id : option string;
  collectionId : option string;
  collectionName : option string;
  created : option string;
  updated : option string;
  project_id : option string;
  display_id : option string;
  name : option string;
  sort_order : option Z }.
End PartialTask.

Module PartialResource.
Record t := mk {
  id : option string;
  collectionId : option string;
  collectionName : option string;
  created : option string;
  updated : option string;
  task_id : option string;
  name : option string;
  sort_order : option Z }.
End PartialResource.

(** [RecordSubscription<T>]: the action and the full record. *)

Inductive Action := create | update | delete.

Record RecordSubscription (T : Type) := mkEvent { action : Action; record : T }.
Arguments mkEvent {T} _ _.
Arguments action {T} _.
Arguments record {T} _.

(** ** JavaScript array and string primitives used by the store *)

Section ArrayPrimitives.
Context {A : Type}.

(** [arr.findIndex(p)]; [None] stands for [-1]. *)
Fixpoint findIndex (p : A -> bool) (l : list A) : option nat :=
  match l with
  | [] => None
  | x :: r => if p x then Some 0%nat else S <$> findIndex p r
  end.

(** [arr.find(p)]; [None] stands for [undefined]. *)
Fixpoint find (p : A -> bool) (l : list A) : option A :=
  match l with
  | [] => None
  | x :: r => if p x then Some x else find p r
  end.

(** [arr.push(x)]. *)
Definition push (l : list A) (x : A) : list A := l ++ [x].

(** [arr\[i\] = x] for an index returned by [findIndex]. *)
Definition setAt (i : nat) (x : A) (l : list A) : list A := <[i:=x]> l.

(** [arr.splice(i, 1)]. *)
Definition splice1 (i : nat) (l : list A) : list A := base.delete i l.

(** Number of elements that satisfy [p]. *)
Definition count (p : A -> bool) (l : list A) : nat :=
  length (List.filter p l).
End ArrayPrimitives.

(** [s.startsWith('temp_')]. *)
Definition isTemp (s : string) : bool := String.prefix "temp_" s.

(** Decimal rendering of a non-negative integer inside a template string. *)
Definition decimal (n : N) : string := NilZero.string_of_uint (N.to_uint n).

(** [`temp_${Date.now()}`]. *)
Definition tempId (now : N) : string := "temp_" +:+ decimal now.

(** [`temp_${Date.now()}_${Math.random().toString(36).substr(2, 9)}`]; the
    random suffix is an input. *)
Definition tempAllocationId (now : N) (rnd : string) : string :=
  "temp_" +:+ decimal now +:+ "_" +:+ rnd.

(** [error instanceof Error ? error.message : fallback]: the thrown value is
    [Some message] when it is an [Error]. *)
Definition errorMessage (thrown : option string) (fallback : string) : string :=
  match thrown with Some m => m | None => fallback end.

(** The property [k] of [Object.assign(target, source)] when [k] is a
    mandatory field of the target. *)
Definition assigned {V} (target : V) (source : option V) : V :=
  match source with Some v => v | None => target end.

(** The same for an optional field of the target. *)
Definition assignedOpt {V} (target : option V) (source : option V) : option V :=
  match source with Some v => Some v | None => target end.

Definition assignTask (target : Task.t) (source : PartialTask.t) : Task.t :=
  {| Task.id := assigned (Task.id target) (PartialTask.id source);
     Task.collectionId :=
       assignedOpt (Task.collectionId target) (PartialTask.collectionId source);
     Task.collectionName :=
       assignedOpt (Task.collectionName target) (PartialTask.collectionName source);
     Task.created := assignedOpt (Task.created target) (PartialTask.created source);
     Task.updated := assignedOpt (Task.updated target) (PartialTask.updated source);
     Task.project_id := assigned (Task.project_id target) (PartialTask.project_id source);
     Task.display_id := assigned (Task.display_id target) (PartialTask.display_id source);
     Task.name := assigned (Task.name target) (PartialTask.name source);
     Task.sort_order := assigned (Task.sort_order target) (PartialTask.sort_order source) |}.

Definition assignResource (target : Resource.t) (source : PartialResource.t)
  : Resource.t :=
  {| Resource.id := assigned (Resource.id target) (PartialResource.id source);
     Resource.collectionId :=
       assignedOpt (Resource.collectionId target) (PartialResource.collectionId source);
     Resource.collectionName :=
       assignedOpt (Resource.collectionName target)
                   (PartialResource.collectionName source);
     Resource.created :=
       assignedOpt (Resource.created target) (PartialResource.created source);
     Resource.updated :=
       assignedOpt (Resource.updated target) (PartialResource.updated source);
     Resource.task_id := assigned (Resource.task_id target) (PartialResource.task_id source);
     Resource.name := assigned (Resource.name target) (PartialResource.name source);
     Resource.sort_order :=
       assigned (Resource.sort_order target) (PartialResource.sort_order source) |}.

(** A full record passed where a [Partial] is expected (the rollback calls
    [updateTask(id, originalTask)]): its own properties are the source. *)
Definition taskAsPartial (t : Task.t) : PartialTask.t :=
  {| PartialTask.id := Some (Task.id t);
     PartialTask.collectionId := Task.collectionId t;
     PartialTask.collectionName := Task.collectionName t;
     PartialTask.created := Task.created t;
     PartialTask.updated := Task.updated t;
     PartialTask.project_id := Some (Task.project_id t);
     PartialTask.display_id := Some (Task.display_id t);
     PartialTask.name := Some (Task.name t);
     PartialTask.sort_order := Some (Task.sort_order t) |}.

Definition resourceAsPartial (r : Resource.t) : PartialResource.t :=
  {| PartialResource.id := Some (Resource.id r);
     PartialResource.collectionId := Resource.collectionId r;
     PartialResource.collectionName := Resource.collectionName r;
     PartialResource.created := Resource.created r;
     PartialResource.updated := Resource.updated r;
     PartialResource.task_id := Some (Resource.task_id r);
     PartialResource.name := Some (Resource.name r);
     PartialResource.sort_order := Some (Resource.sort_order r) |}.

(** ** Aggregation ([computeTaskAggregation], [buildAllocationMap]) *)

Module ResourceWithAllocations.
(** [{...resource, allocations, allocationMap}] *)
Record t := mk {
  resource : Resource.t;
  allocations : list Allocation.t;
  allocationMap : gmap string Allocation.t }.
End ResourceWithAllocations.

(** [TaskWithAggregation\['computed'\]]; [null] is [None]. *)
Record Computed := mkComputed {
  startDate : option string;
  endDate : option string;
  totalEffort : float }.

Module TaskWithAggregation.
(** [{...task, resources, computed}] *)
Record t := mk {
  task : Task.t;
  resources : list ResourceWithAllocations.t;
  computed : Computed }.
End TaskWithAggregation.

(** [!earliestDate || allocation.date < earliestDate]: [null] and the empty
    string are both falsy; [<] on strings is the lexicographic order. *)
Definition takesEarlier (d : string) (earliest : option string) : bool :=
  match earliest with
  | None => true
  | Some e => String.eqb e "" || String.ltb d e
  end.

(** [!latestDate || allocation.date > latestDate]. *)
Definition takesLater (d : string) (latest : option string) : bool :=
  match latest with
  | None => true
  | Some e => String.eqb e "" || String.ltb e d
  end.

(** Body of the inner [for] loop. *)
Definition aggregateAllocation (acc : Computed) (a : Allocation.t) : Computed :=
  let d := Allocation.date a in
  {| startDate := if takesEarlier d (startDate acc) then Some d else startDate acc;
     endDate := if takesLater d (endDate acc) then Some d else endDate acc;
     totalEffort := (totalEffort acc + Allocation.percentage a)%float |}.

(** Body of the outer [for] loop. *)
Definition aggregateResource (acc : Computed) (r : ResourceWithAllocations.t)
  : Computed :=
  fold_left aggregateAllocation (ResourceWithAllocations.allocations r) acc.

Definition noAggregation : Computed :=
  {| startDate := None; endDate := None; totalEffort := 0 |}.

Definition computeTaskAggregation (resources : list ResourceWithAllocations.t)
  : Computed :=
  if (length resources =? 0)%nat then noAggregation
  else fold_left aggregateResource resources noAggregation.

Definition buildAllocationMap (allocations : list Allocation.t)
  : gmap string Allocation.t :=
  fold_left (fun m alloc => <[Allocation.date alloc := alloc]> m) allocations ∅.

(** [Array.prototype.sort] with the comparator [a.sort_order - b.sort_order]:
    a stable sort, modelled by straight insertion. *)
Fixpoint insertBySortOrder (x : TaskWithAggregation.t)
    (l : list TaskWithAggregation.t) : list TaskWithAggregation.t :=
  match l with
  | [] => [x]
  | y :: r =>
      if Task.sort_order (TaskWithAggregation.task x)
         <=? Task.sort_order (TaskWithAggregation.task y)
      then x :: y :: r
      else y :: insertBySortOrder x r
  end.

Definition sortBySortOrder (l : list TaskWithAggregation.t)
  : list TaskWithAggregation.t :=
  fold_right insertBySortOrder [] l.

(** [resources.filter(r => r.task_id === task.id)] *)
Definition taskResources (resources : list Resource.t) (task : Task.t)
  : list Resource.t :=
  List.filter (fun r => String.eqb (Resource.task_id r) (Task.id task)) resources.

(** [allocations.filter(a => a.resource_id === resource.id)] *)
Definition resourceAllocations (allocations : list Allocation.t)
    (resource : Resource.t) : list Allocation.t :=
  List.filter (fun a => String.eqb (Allocation.resource_id a) (Resource.id resource))
              allocations.

Definition withAllocations (allocations : list Allocation.t) (resource : Resource.t)
  : ResourceWithAllocations.t :=
  let own := resourceAllocations allocations resource in
  {| ResourceWithAllocations.resource := resource;
     ResourceWithAllocations.allocations := own;
     ResourceWithAllocations.allocationMap := buildAllocationMap own |}.

Definition withAggregation (resources : list Resource.t)
    (allocations : list Allocation.t) (task : Task.t) : TaskWithAggregation.t :=
  let resourcesWithAllocations :=
    List.map (withAllocations allocations) (taskResources resources task) in
  {| TaskWithAggregation.task := task;
     TaskWithAggregation.resources := resourcesWithAllocations;
     TaskWithAggregation.computed := computeTaskAggregation resourcesWithAllocations |}.

Definition computeTasksWithData (tasks : list Task.t) (resources : list Resource.t)
    (allocations : list Allocation.t) : list TaskWithAggregation.t :=
  sortBySortOrder (List.map (withAggregation resources allocations) tasks).

(** ** The store state

    The fields of [ProjectState] that the modelled actions read or write
    ([userPermission], the loading and brush flags, [userName], [userColor]
    and the timer and subscription handles are written by none of them).
    The subscription handle is a closure over the reconciler's own
    variables: the calls [state.subscription.updateTaskIds(...)] and
    [state.subscription.updateResourceIds(...)] that close several callbacks
    act on that closure, whose state is [Reconciler.t] below.  The
    functions on the store leave these calls out; [Live] below puts the
    store and the subscription together, calls included. *)

Record ProjectState := mkState {
  project : option Project.t;
  tasks : list Task.t;
  resources : list Resource.t;
  allocations : list Allocation.t;
  tasksWithData : list TaskWithAggregation.t;
  error : option string;
  presenceList : list Presence.t;
  sessionId : string }.

Definition initialState : ProjectState :=
  {| project := None; tasks := []; resources := []; allocations := [];
     tasksWithData := []; error := None; presenceList := []; sessionId := "" |}.

Definition setTasks (v : list Task.t) (s : ProjectState) : ProjectState :=
  mkState (project s) v (resources s) (allocations s) (tasksWithData s)
          (error s) (presenceList s) (sessionId s).

Definition setResources (v : list Resource.t) (s : ProjectState) : ProjectState :=
  mkState (project s) (tasks s) v (allocations s) (tasksWithData s)
          (error s) (presenceList s) (sessionId s).

Definition setAllocations (v : list Allocation.t) (s : ProjectState) : ProjectState :=
  mkState (project s) (tasks s) (resources s) v (tasksWithData s)
          (error s) (presenceList s) (sessionId s).

Definition setError (v : option string) (s : ProjectState) : ProjectState :=
  mkState (project s) (tasks s) (resources s) (allocations s) (tasksWithData s)
          v (presenceList s) (sessionId s).

Definition setPresenceList (v : list Presence.t) (s : ProjectState) : ProjectState :=
  mkState (project s) (tasks s) (resources s) (allocations s) (tasksWithData s)
          (error s) v (sessionId s).

(** [state.tasksWithData = computeTasksWithData(state.tasks, state.resources,
    state.allocations)] *)
Definition recompute (s : ProjectState) : ProjectState :=
  mkState (project s) (tasks s) (resources s) (allocations s)
          (computeTasksWithData (tasks s) (resources s) (allocations s))
          (error s) (presenceList s) (sessionId s).

(** What the environment supplies to an optimistic create: [Date.now()], the
    two [new Date().toISOString()] values and the random suffix. *)
Record Ambient := mkAmbient {
  dateNow : N;
  isoCreated : string;
  isoUpdated : string;
  random36 : string }.

(** ** Task actions of the store *)

Definition taskHasId (id : string) (t : Task.t) : bool := String.eqb (Task.id t) id.
Definition resourceHasId (id : string) (r : Resource.t) : bool :=
  String.eqb (Resource.id r) id.
Definition allocationHasId (id : string) (a : Allocation.t) : bool :=
  String.eqb (Allocation.id a) id.

(** [a.resource_id === resourceId && a.date === date] *)
Definition allocationHasKey (resourceId date : string) (a : Allocation.t) : bool :=
  String.eqb (Allocation.resource_id a) resourceId && String.eqb (Allocation.date a) date.

Definition addTask (task : Task.t) (s : ProjectState) : ProjectState :=
  recompute (setTasks (push (tasks s) task) s).

(** The provisional record built by [createTaskAsync]. *)
Definition tempTask (env : Ambient) (projectId displayId name : string)
    (s : ProjectState) : Task.t :=
  {| Task.id := tempId (dateNow env);
     Task.collectionId := None;
     Task.collectionName := None;
     Task.created := Some (isoCreated env);
     Task.updated := Some (isoUpdated env);
     Task.project_id := projectId;
     Task.display_id := displayId;
     Task.name := name;
     Task.sort_order := Z.of_nat (length (tasks s)) + 1 |}.

(** [createTaskAsync] up to the [await]: the optimistic insert. *)
Definition createTaskAsync_begin (env : Ambient) (projectId displayId name : string)
    (s : ProjectState) : ProjectState :=
  addTask (tempTask env projectId displayId name s) s.

(** [createTaskAsync] after the remote create resolved with [newTask]. *)
Definition createTaskAsync_resolved (tempId : string) (newTask : Task.t)
    (s : ProjectState) : ProjectState :=
  let tempIndex := findIndex (taskHasId tempId) (tasks s) in
  let realIndex := findIndex (taskHasId (Task.id newTask)) (tasks s) in
  let tasks' :=
    match tempIndex, realIndex with
    | Some i, None => setAt i newTask (tasks s)
    | Some i, Some _ => splice1 i (tasks s)
    | None, _ => tasks s
    end in
  recompute (setTasks tasks' s).

(** [createTaskAsync] after the remote create was rejected. *)
Definition createTaskAsync_rejected (tempId : string) (thrown : option string)
    (s : ProjectState) : ProjectState :=
  let s1 := setTasks (List.filter (fun t => negb (taskHasId tempId t)) (tasks s)) s in
  setError (Some (errorMessage thrown "Fehler beim Erstellen")) (recompute s1).

Definition updateTask (id : string) (updates : PartialTask.t) (s : ProjectState)
  : ProjectState :=
  match findIndex (taskHasId id) (tasks s) with
  | Some index =>
      match tasks s !! index with
      | Some target =>
          recompute (setTasks (setAt index (assignTask target updates) (tasks s)) s)
      | None => s
      end
  | None => s
  end.

(** [updateTaskAsync] up to the [await]: [None] when the identifier is
    temporary (the action returns at once and issues no remote call),
    otherwise the saved [originalTask] and the optimistically updated state. *)
Definition updateTaskAsync_begin (id : string) (updates : PartialTask.t)
    (s : ProjectState) : option (option Task.t * ProjectState) :=
  if isTemp id then None
  else Some (find (taskHasId id) (tasks s), updateTask id updates s).

(** The [catch] block of [updateTaskAsync]. *)
Definition updateTaskAsync_rejected (id : string) (originalTask : option Task.t)
    (thrown : option string) (s : ProjectState) : ProjectState :=
  let s1 :=
    match originalTask with
    | Some original => updateTask id (taskAsPartial original) s
    | None => s
    end in
  setError (Some (errorMessage thrown "Fehler beim Aktualisieren")) s1.

(** [resourceIds.includes(a.resource_id)] *)
Definition includes (ids : list string) (id : string) : bool :=
  existsb (String.eqb id) ids.

(** The cascade shared by [deleteTask] and the ['delete'] branch of
    [handleTaskChange]. *)
Definition cascadeDeleteTask (id : string) (s : ProjectState) : ProjectState :=
  let tasks' := List.filter (fun t => negb (taskHasId id t)) (tasks s) in
  let resourceIds :=
    List.map Resource.id
      (List.filter (fun r => String.eqb (Resource.task_id r) id) (resources s)) in
  let resources' :=
    List.filter (fun r => negb (String.eqb (Resource.task_id r) id)) (resources s) in
  let allocations' :=
    List.filter (fun a => negb (includes resourceIds (Allocation.resource_id a)))
                (allocations s) in
  setAllocations allocations' (setResources resources' (setTasks tasks' s)).

Definition deleteTask (id : string) (s : ProjectState) : ProjectState :=
  recompute (cascadeDeleteTask id s).

(** ** Resource actions of the store *)

Definition addResource (resource : Resource.t) (s : ProjectState) : ProjectState :=
  recompute (setResources (push (resources s) resource) s).

Definition tempResource (env : Ambient) (taskId name : string) (s : ProjectState)
  : Resource.t :=
  let taskResources :=
    List.filter (fun r => String.eqb (Resource.task_id r) taskId) (resources s) in
  {| Resource.id := tempId (dateNow env);
     Resource.collectionId := None;
     Resource.collectionName := None;
     Resource.created := Some (isoCreated env);
     Resource.updated := Some (isoUpdated env);
     Resource.task_id := taskId;
     Resource.name := name;
     Resource.sort_order := Z.of_nat (length taskResources) + 1 |}.

Definition createResourceAsync_begin (env : Ambient) (taskId name : string)
    (s : ProjectState) : ProjectState :=
  addResource (tempResource env taskId name s) s.

Definition createResourceAsync_resolved (tempId : string) (newResource : Resource.t)
    (s : ProjectState) : ProjectState :=
  let tempIndex := findIndex (resourceHasId tempId) (resources s) in
  let realIndex := findIndex (resourceHasId (Resource.id newResource)) (resources s) in
  let resources' :=
    match tempIndex, realIndex with
    | Some i, None => setAt i newResource (resources s)
    | Some i, Some _ => splice1 i (resources s)
    | None, _ => resources s
    end in
  recompute (setResources resources' s).

Definition createResourceAsync_rejected (tempId : string) (thrown : option string)
    (s : ProjectState) : ProjectState :=
  let s1 :=
    setResources (List.filter (fun r => negb (resourceHasId tempId r)) (resources s)) s in
  setError (Some (errorMessage thrown "Fehler beim Erstellen")) (recompute s1).

Definition updateResource (id : string) (updates : PartialResource.t)
    (s : ProjectState) : ProjectState :=
  match findIndex (resourceHasId id) (resources s) with
  | Some index =>
      match resources s !! index with
      | Some target =>
          recompute
            (setResources (setAt index (assignResource target updates) (resources s)) s)
      | None => s
      end
  | None => s
  end.

Definition updateResourceAsync_begin (id : string) (updates : PartialResource.t)
    (s : ProjectState) : option (option Resource.t * ProjectState) :=
  if isTemp id then None
  else Some (find (resourceHasId id) (resources s), updateResource id updates s).

Definition updateResourceAsync_rejected (id : string)
    (originalResource : option Resource.t) (thrown : option string)
    (s : ProjectState) : ProjectState :=
  let s1 :=
    match originalResource with
    | Some original => updateResource id (resourceAsPartial original) s
    | None => s
    end in
  setError (Some (errorMessage thrown "Fehler beim Aktualisieren")) s1.

(** ** Allocation actions of the store *)

Definition setAllocation (env : Ambient) (resourceId date : string) (percentage : float)
    (colorHex : string) (s : ProjectState) : ProjectState :=
  let allocations' :=
    match findIndex (allocationHasKey resourceId date) (allocations s) with
    | Some existingIndex =>
        match allocations s !! existingIndex with
        | Some a =>
            setAt existingIndex
              {| Allocation.id := Allocation.id a;
                 Allocation.collectionId := Allocation.collectionId a;
                 Allocation.collectionName := Allocation.collectionName a;
                 Allocation.created := Allocation.created a;
                 Allocation.updated := Allocation.updated a;
                 Allocation.resource_id := Allocation.resource_id a;
                 Allocation.date := Allocation.date a;
                 Allocation.percentage := percentage;
                 Allocation.color_hex := colorHex |}
              (allocations s)
        | None => allocations s
        end
    | None =>
        push (allocations s)
          {| Allocation.id := tempAllocationId (dateNow env) (random36 env);
             Allocation.collectionId := None;
             Allocation.collectionName := None;
             Allocation.created := Some (isoCreated env);
             Allocation.updated := Some (isoUpdated env);
             Allocation.resource_id := resourceId;
             Allocation.date := date;
             Allocation.percentage := percentage;
             Allocation.color_hex := colorHex |}
    end in
  recompute (setAllocations allocations' s).

(** [setAllocationAsync] up to the [await] (in both branches the optimistic
    [setAllocation]). *)
Definition setAllocationAsync_begin := setAllocation.

(** [setAllocationAsync] after [api.upsertAllocation] resolved with
    [savedAllocation].  For a temporary resource no remote call was issued,
    so nothing resolves.  This callback does not recompute [tasksWithData]. *)
Definition setAllocationAsync_resolved (resourceId date : string)
    (savedAllocation : Allocation.t) (s : ProjectState) : ProjectState :=
  if isTemp resourceId then s
  else
    match findIndex (allocationHasKey resourceId date) (allocations s) with
    | Some index => setAllocations (setAt index savedAllocation (allocations s)) s
    | None => s
    end.

(** The [catch] block of [setAllocationAsync]: no rollback. *)
Definition setAllocationAsync_rejected (resourceId : string) (thrown : option string)
    (s : ProjectState) : ProjectState :=
  if isTemp resourceId then s
  else setError (Some (errorMessage thrown "Fehler beim Speichern")) s.

Definition removeAllocation (resourceId date : string) (s : ProjectState)
  : ProjectState :=
  recompute
    (setAllocations
       (List.filter (fun a => negb (allocationHasKey resourceId date a)) (allocations s))
       s).

(** ** Realtime event handlers of the store *)

(** The predicate that recognises the store's own optimistic task. *)
Definition matchesTempTask (r : Task.t) (t : Task.t) : bool :=
  isTemp (Task.id t)
  && String.eqb (Task.project_id t) (Task.project_id r)
  && String.eqb (Task.name t) (Task.name r).

Definition matchesTempResource (r : Resource.t) (x : Resource.t) : bool :=
  isTemp (Resource.id x)
  && String.eqb (Resource.task_id x) (Resource.task_id r)
  && String.eqb (Resource.name x) (Resource.name r).

Definition handleTaskChange (event : RecordSubscription Task.t) (s : ProjectState)
  : ProjectState :=
  let r := record event in
  match action event with
  | create =>
      match find (taskHasId (Task.id r)) (tasks s) with
      | Some _ => s
      | None =>
          let tasks' :=
            match findIndex (matchesTempTask r) (tasks s) with
            | Some tempIndex => setAt tempIndex r (tasks s)
            | None => push (tasks s) r
            end in
          recompute (setTasks tasks' s)
      end
  | update =>
      let tasks' :=
        match findIndex (taskHasId (Task.id r)) (tasks s) with
        | Some index => setAt index r (tasks s)
        | None => tasks s
        end in
      recompute (setTasks tasks' s)
  | delete => recompute (cascadeDeleteTask (Task.id r) s)
  end.

Definition handleResourceChange (event : RecordSubscription Resource.t)
    (s : ProjectState) : ProjectState :=
  let r := record event in
  match action event with
  | create =>
      match find (resourceHasId (Resource.id r)) (resources s) with
      | Some _ => s
      | None =>
          let resources' :=
            match findIndex (matchesTempResource r) (resources s) with
            | Some tempIndex => setAt tempIndex r (resources s)
            | None => push (resources s) r
            end in
          recompute (setResources resources' s)
      end
  | update =>
      let resources' :=
        match findIndex (resourceHasId (Resource.id r)) (resources s) with
        | Some index => setAt index r (resources s)
        | None => resources s
        end in
      recompute (setResources resources' s)
  | delete =>
      let resources' :=
        List.filter (fun x => negb (resourceHasId (Resource.id r) x)) (resources s) in
      let allocations' :=
        List.filter
          (fun a => negb (String.eqb (Allocation.resource_id a) (Resource.id r)))
          (allocations s) in
      recompute (setAllocations allocations' (setResources resources' s))
  end.

(** [a.id === record.id || (a.resource_id === record.resource_id &&
    a.date === record.date)] *)
Definition sameIdOrKey (r : Allocation.t) (a : Allocation.t) : bool :=
  allocationHasId (Allocation.id r) a
  || allocationHasKey (Allocation.resource_id r) (Allocation.date r) a.

(** In the ['create'] branch [indexOf(exists)] is the position of the
    element that [find] returned, that is, the first one that satisfies the
    predicate. *)
Definition handleAllocationChange (event : RecordSubscription Allocation.t)
    (s : ProjectState) : ProjectState :=
  let r := record event in
  let allocations' :=
    match action event with
    | create =>
        match find (sameIdOrKey r) (allocations s) with
        | None => push (allocations s) r
        | Some found =>
            if negb (String.eqb (Allocation.id found) (Allocation.id r)) then
              match findIndex (sameIdOrKey r) (allocations s) with
              | Some index => setAt index r (allocations s)
              | None => allocations s
              end
            else allocations s
        end
    | update =>
        match findIndex (allocationHasId (Allocation.id r)) (allocations s) with
        | Some index => setAt index r (allocations s)
        | None =>
            match findIndex
                    (allocationHasKey (Allocation.resource_id r) (Allocation.date r))
                    (allocations s) with
            | Some tempIndex => setAt tempIndex r (allocations s)
            | None => allocations s
            end
        end
    | delete =>
        List.filter (fun a => negb (allocationHasId (Allocation.id r) a)) (allocations s)
    end in
  recompute (setAllocations allocations' s).

(** ** Presence *)

Definition presenceHasSession (sid : string) (p : Presence.t) : bool :=
  String.eqb (Presence.session_id p) sid.

Definition handlePresenceChange (event : RecordSubscription Presence.t)
    (s : ProjectState) : ProjectState :=
  let r := record event in
  if String.eqb (Presence.session_id r) (sessionId s) then s
  else
    let list' :=
      match action event with
      | create =>
          match find (presenceHasSession (Presence.session_id r)) (presenceList s) with
          | Some _ => presenceList s
          | None => push (presenceList s) r
          end
      | update =>
          match findIndex (presenceHasSession (Presence.session_id r))
                          (presenceList s) with
          | Some index => setAt index r (presenceList s)
          | None => push (presenceList s) r
          end
      | delete =>
          List.filter (fun p => negb (String.eqb (Presence.id p) (Presence.id r)))
                      (presenceList s)
      end in
    setPresenceList list' s.

Definition getOtherUsers (s : ProjectState) : list Presence.t :=
  List.filter (fun p => negb (presenceHasSession (sessionId s) p)) (presenceList s).

Section Heartbeat.
(** [new Date(text).getTime()]: the milliseconds since the epoch, [None]
    for [NaN] (an unparsable text). *)
Variable getTime : string -> option Z.

(** [lastSeen > thirtySecondsAgo] with
    [thirtySecondsAgo = Date.now() - 30000]; a comparison with [NaN] is
    false. *)
Definition isFresh (now : Z) (p : Presence.t) : bool :=
  match getTime (Presence.last_seen p) with
  | Some lastSeen => lastSeen >? now - 30000
  | None => false
  end.

(** The store update made by one run of the 10-second interval callback
    of [startPresence], [now] being the value of [Date.now()] in it. *)
Definition heartbeatTick (now : Z) (s : ProjectState) : ProjectState :=
  match project s with
  | Some _ => setPresenceList (List.filter (isFresh now) (presenceList s)) s
  | None => s
  end.

(** A record is stale at [now] when its last heartbeat is more than
    30 seconds old. *)
Definition isStale (now : Z) (p : Presence.t) : Prop :=
  exists lastSeen, getTime (Presence.last_seen p) = Some lastSeen
                   /\ lastSeen < now - 30000.
End Heartbeat.

(** ** The realtime reconciler ([subscribeToProjectChanges])

    The closure variables of one subscription.  The four callbacks are the
    store's handlers; an invocation is recorded in [delivered] (oldest
    first).  Here the subscription is taken alone: the [updateTaskIds] /
    [updateResourceIds] calls that the store makes are steps of their own
    ([Live] below runs them where the store's callbacks make them).
    [timers] holds the [setTimeout] callbacks that are scheduled and have not
    run yet. *)

Module Reconciler.

Inductive Delivery :=
| onTaskChange (e : RecordSubscription Task.t)
| onResourceChange (e : RecordSubscription Resource.t)
| onAllocationChange (e : RecordSubscription Allocation.t).

Inductive Timer := retryResources | retryAllocations.

Record t := mk {
  taskIds : gset string;
  resourceIds : gset string;
  pendingResources : list (RecordSubscription Resource.t);
  pendingAllocations : list (RecordSubscription Allocation.t);
  timers : list Timer;
  delivered : list Delivery }.

(** [new Set(initialTaskIds)], [new Set(initialResourceIds)], empty queues. *)
Definition subscribe (initialTaskIds initialResourceIds : list string) : t :=
  {| taskIds := list_to_set initialTaskIds;
     resourceIds := list_to_set initialResourceIds;
     pendingResources := [];
     pendingAllocations := [];
     timers := [];
     delivered := [] |}.

Definition has (ids : gset string) (id : string) : bool := bool_decide (id ∈ ids).

Definition deliver (d : Delivery) (st : t) : t :=
  mk (taskIds st) (resourceIds st) (pendingResources st) (pendingAllocations st)
     (timers st) (delivered st ++ [d]).

Definition setTaskIds (v : gset string) (st : t) : t :=
  mk v (resourceIds st) (pendingResources st) (pendingAllocations st)
     (timers st) (delivered st).

Definition setResourceIds (v : gset string) (st : t) : t :=
  mk (taskIds st) v (pendingResources st) (pendingAllocations st)
     (timers st) (delivered st).

Definition setPendingResources (v : list (RecordSubscription Resource.t)) (st : t)
  : t :=
  mk (taskIds st) (resourceIds st) v (pendingAllocations st)
     (timers st) (delivered st).

Definition setPendingAllocations (v : list (RecordSubscription Allocation.t))
    (st : t) : t :=
  mk (taskIds st) (resourceIds st) (pendingResources st) v
     (timers st) (delivered st).

Definition setTimers (v : list Timer) (st : t) : t :=
  mk (taskIds st) (resourceIds st) (pendingResources st) (pendingAllocations st)
     v (delivered st).

(** [resourceIds.add] on ['create'], [resourceIds.delete] on ['delete']. *)
Definition trackResource (e : RecordSubscription Resource.t) (st : t) : t :=
  match action e with
  | create => setResourceIds ({[Resource.id (record e)]} ∪ resourceIds st) st
  | delete => setResourceIds (resourceIds st ∖ {[Resource.id (record e)]}) st
  | update => st
  end.

(** Body of the loop of [processPendingResources]. *)
Definition retryResource (st : t) (e : RecordSubscription Resource.t) : t :=
  if has (taskIds st) (Resource.task_id (record e))
  then trackResource e (deliver (onResourceChange e) st)
  else st.

(** [toProcess = \[...pendingResources\]; pendingResources.length = 0;
    for (const e of toProcess) ...] *)
Definition processPendingResources (st : t) : t :=
  fold_left retryResource (pendingResources st) (setPendingResources [] st).

Definition retryAllocation (st : t) (e : RecordSubscription Allocation.t) : t :=
  if has (resourceIds st) (Allocation.resource_id (record e))
  then deliver (onAllocationChange e) st
  else st.

Definition processPendingAllocations (st : t) : t :=
  fold_left retryAllocation (pendingAllocations st) (setPendingAllocations [] st).

(** Callback of the ['tasks'] subscription. *)
Definition tasksEvent (projectId : string) (e : RecordSubscription Task.t) (st : t)
  : t :=
  if String.eqb (Task.project_id (record e)) projectId then
    let st1 := deliver (onTaskChange e) st in
    match action e with
    | create =>
        processPendingResources
          (setTaskIds ({[Task.id (record e)]} ∪ taskIds st1) st1)
    | delete => setTaskIds (taskIds st1 ∖ {[Task.id (record e)]}) st1
    | update => st1
    end
  else st.

(** Callback of the ['resources'] subscription. *)
Definition resourcesEvent (e : RecordSubscription Resource.t) (st : t) : t :=
  if has (taskIds st) (Resource.task_id (record e)) then
    let st1 := deliver (onResourceChange e) st in
    match action e with
    | create =>
        processPendingAllocations
          (setResourceIds ({[Resource.id (record e)]} ∪ resourceIds st1) st1)
    | delete => setResourceIds (resourceIds st1 ∖ {[Resource.id (record e)]}) st1
    | update => st1
    end
  else
    match action e with
    | create =>
        setTimers (timers st ++ [retryResources])
                  (setPendingResources (pendingResources st ++ [e]) st)
    | _ => st
    end.

(** Callback of the ['allocations'] subscription. *)
Definition allocationsEvent (e : RecordSubscription Allocation.t) (st : t) : t :=
  if has (resourceIds st) (Allocation.resource_id (record e)) then
    deliver (onAllocationChange e) st
  else
    match action e with
    | create | update =>
        setTimers (timers st ++ [retryAllocations])
                  (setPendingAllocations (pendingAllocations st ++ [e]) st)
    | delete => st
    end.

(** The oldest scheduled [setTimeout] callback runs. *)
Definition timerFires (st : t) : t :=
  match timers st with
  | [] => st
  | retryResources :: rest => processPendingResources (setTimers rest st)
  | retryAllocations :: rest => processPendingAllocations (setTimers rest st)
  end.

Definition updateTaskIds (newTaskIds : list string) (st : t) : t :=
  processPendingResources (setTaskIds (list_to_set newTaskIds) st).

Definition updateResourceIds (newResourceIds : list string) (st : t) : t :=
  processPendingAllocations (setResourceIds (list_to_set newResourceIds) st).

(** What can happen to a subscription, and a run of such steps. *)
Inductive Step :=
| TaskEvent (e : RecordSubscription Task.t)
| ResourceEvent (e : RecordSubscription Resource.t)
| AllocationEvent (e : RecordSubscription Allocation.t)
| TimerFires
| UpdateTaskIds (ids : list string)
| UpdateResourceIds (ids : list string).

Definition step (projectId : string) (st : t) (x : Step) : t :=
  match x with
  | TaskEvent e => tasksEvent projectId e st
  | ResourceEvent e => resourcesEvent e st
  | AllocationEvent e => allocationsEvent e st
  | TimerFires => timerFires st
  | UpdateTaskIds ids => updateTaskIds ids st
  | UpdateResourceIds ids => updateResourceIds ids st
  end.

Definition run (projectId : string) (st : t) (xs : list Step) : t :=
  fold_left (step projectId) xs st.

End Reconciler.

(** ** What the handlers do to one array

    The array-level content of the success handler of an optimistic create
    and of the ['create'] and ['update'] branches of a realtime handler,
    for any record type with an identifier. *)

Definition indicator (b : bool) : nat := if b then 1%nat else 0%nat.

Definition hasId {A} (idOf : A -> string) (id : string) (x : A) : bool :=
  String.eqb (idOf x) id.


(** What the ['create'] branch of a realtime handler does to the array;
    [own] recognises the optimistic record. *)
Definition createdArray {A} (idOf : A -> string) (own : A -> bool) (r : A)
    (l : list A) : list A :=
  match find (hasId idOf (idOf r)) l with
  | Some _ => l
  | None =>
      match findIndex own l with
      | Some i => setAt i r l
      | None => push l r
      end
  end.

(** What the ['update'] branch does to the array. *)
Definition updatedArray {A} (idOf : A -> string) (r : A) (l : list A) : list A :=
  match findIndex (hasId idOf (idOf r)) l with
  | Some index => setAt index r l
  | None => l
  end.

(** The parent of a queued event is in the membership set. *)
Definition knownTask (ids : gset string) (e : RecordSubscription Resource.t) : bool :=
  Reconciler.has ids (Resource.task_id (record e)).

Definition knownResource (ids : gset string) (e : RecordSubscription Allocation.t)
  : bool :=
  Reconciler.has ids (Allocation.resource_id (record e)).

(** ** Predicates of the statements *)

(** Every resource points to a stored task and every allocation to a stored
    resource. *)
Definition noOrphans (s : ProjectState) : Prop :=
  (forall r, In r (resources s) ->
             exists t, In t (tasks s) /\ Task.id t = Resource.task_id r)
  /\ (forall a, In a (allocations s) ->
                exists r, In r (resources s) /\ Resource.id r = Allocation.resource_id a).

(** The derived view agrees with the three collections. *)
Definition upToDate (s : ProjectState) : Prop :=
  tasksWithData s = computeTasksWithData (tasks s) (resources s) (allocations s).

(** The delta keeps the identifier under which the rollback looks the
    record up. *)
Definition keepsId (id : string) (delta : option string) : bool :=
  match delta with
  | None => true
  | Some i => String.eqb i id
  end.

(** An optional property that the delta sets is present in the stored
    record (so that assigning the saved original writes it back). *)
Definition covered {V} (stored delta : option V) : bool :=
  match delta, stored with
  | Some _, None => false
  | _, _ => true
  end.

Definition taskDeltaReversible (id : string) (t : Task.t) (u : PartialTask.t) : bool :=
  keepsId id (PartialTask.id u)
  && covered (Task.collectionId t) (PartialTask.collectionId u)
  && covered (Task.collectionName t) (PartialTask.collectionName u)
  && covered (Task.created t) (PartialTask.created u)
  && covered (Task.updated t) (PartialTask.updated u).

Definition resourceDeltaReversible (id : string) (r : Resource.t)
    (u : PartialResource.t) : bool :=
  keepsId id (PartialResource.id u)
  && covered (Resource.collectionId r) (PartialResource.collectionId u)
  && covered (Resource.collectionName r) (PartialResource.collectionName u)
  && covered (Resource.created r) (PartialResource.created u)
  && covered (Resource.updated r) (PartialResource.updated u).

(** The operations on the allocations collection: [setAllocation],
    [removeAllocation], the completion of [setAllocationAsync] (resolved
    with the record the server returned, or rejected) and a realtime
    allocation event. *)
Inductive AllocationOp :=
| Paint (env : Ambient) (resourceId date : string) (percentage : float)
        (colorHex : string)
| Erase (resourceId date : string)
| Saved (resourceId date : string) (savedAllocation : Allocation.t)
| Rejected (resourceId : string) (thrown : option string)
| Realtime (event : RecordSubscription Allocation.t).

Definition applyOp (s : ProjectState) (op : AllocationOp) : ProjectState :=
  match op with
  | Paint env resourceId date percentage colorHex =>
      setAllocation env resourceId date percentage colorHex s
  | Erase resourceId date => removeAllocation resourceId date s
  | Saved resourceId date savedAllocation =>
      setAllocationAsync_resolved resourceId date savedAllocation s
  | Rejected resourceId thrown => setAllocationAsync_rejected resourceId thrown s
  | Realtime event => handleAllocationChange event s
  end.

Definition applyOps (s : ProjectState) (ops : list AllocationOp) : ProjectState :=
  fold_left applyOp ops s.

Definition uniqueKeys (l : list Allocation.t) : Prop :=
  forall R D, (count (allocationHasKey R D) l <= 1)%nat.

(** A server record keeps the key: the record that resolves
    [setAllocationAsync resourceId date] has that (resource_id, date), and
    an ['update'] event whose identifier is in the store has the
    (resource_id, date) of the stored allocation with that identifier. *)
Definition keepsKey (s : ProjectState) (op : AllocationOp) : bool :=
  match op with
  | Saved resourceId date savedAllocation =>
      isTemp resourceId || allocationHasKey resourceId date savedAllocation
  | Realtime event =>
      match action event with
      | update =>
          match find (allocationHasId (Allocation.id (record event))) (allocations s) with
          | Some stored =>
              allocationHasKey (Allocation.resource_id stored) (Allocation.date stored)
                               (record event)
          | None => true
          end
      | _ => true
      end
  | _ => true
  end.

Fixpoint keyConsistent (s : ProjectState) (ops : list AllocationOp) : bool :=
  match ops with
  | [] => true
  | op :: rest => keepsKey s op && keyConsistent (applyOp s op) rest
  end.

(** [o] is the least (greatest) element of [ds], or [null] when there is
    none. *)
Definition isEarliest (o : option string) (ds : list string) : Prop :=
  match o with
  | None => ds = []
  | Some d => In d ds /\ forall d', In d' ds -> String.ltb d' d = false
  end.

Definition isLatest (o : option string) (ds : list string) : Prop :=
  match o with
  | None => ds = []
  | Some d => In d ds /\ forall d', In d' ds -> String.ltb d d' = false
  end.

(** [0 + p1 + p2 + ...] as JavaScript evaluates it: the numbers are added
    to zero one after the other, each addition rounded to binary64. *)
Definition addInOrder (l : list float) : float := fold_left PrimFloat.add l 0%float.

(** The exact value of a finite number, in units of 2^-1074 (every finite
    binary64 number is an integral multiple of this unit); [None] for NaN
    and the infinities. *)
Definition exactUnits (x : float) : option Z :=
  match Prim2SF x with
  | S754_zero _ => Some 0
  | S754_finite negative m e =>
      let magnitude := Z.pos m * 2 ^ (e + 1074) in
      Some (if negative then - magnitude else magnitude)
  | _ => None
  end.

(** The exact sum of finite numbers, in the same units. *)
Definition exactSum (l : list float) : option Z :=
  fold_right (fun x total =>
                match exactUnits x, total with
                | Some u, Some v => Some (u + v)
                | _, _ => None
                end)
             (Some 0) l.

(** All allocations of all the resources of a task, in the order in which
    [computeTaskAggregation] visits them. *)
Definition taskAllocations (resources : list Resource.t)
    (allocations : list Allocation.t) (task : Task.t) : list Allocation.t :=
  flat_map (resourceAllocations allocations) (taskResources resources task).

Definition truthy (o : option string) : Prop := o <> Some "".

(** ** Records, stores and runs of the examples *)

Definition designTask : Task.t :=
  Task.mk "t1" None None None None "p1" "1" "Design" 1.

Definition alice : Resource.t := Resource.mk "r1" None None None None "t1" "Alice" 1.

Definition bob : Resource.t := Resource.mk "r2" None None None None "t1" "Bob" 2.

Definition aliceJan1 : Allocation.t :=
  Allocation.mk "a1" None None None None "r1" "2024-01-01" 30%float "#30A14E".

Definition bobJan3 : Allocation.t :=
  Allocation.mk "a2" None None None None "r2" "2024-01-03" 50%float "#30A14E".

(** Allocations at 0.1 %, 0.2 % and 0.3 % (the binary64 numbers nearest to
    these decimals). *)
Definition aliceTenth : Allocation.t :=
  Allocation.mk "a3" None None None None "r1" "2024-02-01" 0x1.999999999999ap-4
                "#30A14E".

Definition aliceFifth : Allocation.t :=
  Allocation.mk "a4" None None None None "r1" "2024-02-02" 0x1.999999999999ap-3
                "#30A14E".

Definition aliceThreeTenths : Allocation.t :=
  Allocation.mk "a5" None None None None "r1" "2024-02-03" 0x1.3333333333333p-2
                "#30A14E".

Definition aliceJan3 : Allocation.t :=
  Allocation.mk "a2" None None None None "r1" "2024-01-03" 50%float "#30A14E".

Definition aliceJan1Moved : Allocation.t :=
  Allocation.mk "a1" None None None None "r1" "2024-01-03" 30%float "#30A14E".

Definition renamedTask : Task.t :=
  Task.mk "t1" None None None None "p1" "1" "Redesign" 1.


Definition confirmedRepaint : Allocation.t :=
  Allocation.mk "a1" None None None None "r1" "2024-01-01" 80%float "#216E39".

Definition rename : PartialTask.t :=
  PartialTask.mk None None None None None None None (Some "New") None.

Definition firstStroke : Ambient := mkAmbient 1700000000000 "2023-11-14T22:13:20.000Z"
                                              "2023-11-14T22:13:20.000Z" "k3j9x0q1z".

Definition secondStroke : Ambient := mkAmbient 1700000000050 "2023-11-14T22:13:20.050Z"
                                               "2023-11-14T22:13:20.050Z" "p0o9i8u7y".

Definition oneTaskStore : ProjectState := addTask designTask initialState.

Definition smallStore : ProjectState :=
  mkState None [designTask] [alice] [aliceJan1]
          (computeTasksWithData [designTask] [alice] [aliceJan1]) None [] "my-session".

Definition paintingStore : ProjectState :=
  mkState None [designTask] [alice] [] (computeTasksWithData [designTask] [alice] [])
          None [] "my-session".

Definition sampleOps : list AllocationOp :=
  [Paint firstStroke "r1" "2024-01-01" 30%float "#30A14E";
   Paint secondStroke "r1" "2024-01-01" 80%float "#216E39";
   Saved "r1" "2024-01-01" aliceJan1;
   Rejected "r1" None;
   Realtime (mkEvent create bobJan3);
   Realtime (mkEvent update aliceJan1);
   Erase "r2" "2024-01-03"].

(** A clock that parses one timestamp, the epoch. *)
Definition epochOnly (text : string) : option Z :=
  if String.eqb text "1970-01-01T00:00:00.000Z" then Some 0 else None.

Definition stalePresence : Presence.t :=
  Presence.mk "pr1" None None None None "p1" "other-session" "Clever Planer"
              "#3182BD" "1970-01-01T00:00:00.000Z".

Definition watchingStore (others : list Presence.t) : ProjectState :=
  mkState None [] [] [] [] None others "my-session".

Definition openProject : Project.t :=
  Project.mk "p1" None None None None "u1" "Plan" "day" "2024-01-01" "2024-12-31".

Definition watchingOpenProject : ProjectState :=
  mkState (Some openProject) [] [] [] [] None [stalePresence] "my-session".

Definition lateResource : RecordSubscription Resource.t :=
  mkEvent create (Resource.mk "r1" None None None None "t2" "Alice" 1).

Definition owningTask : RecordSubscription Task.t :=
  mkEvent create (Task.mk "t2" None None None None "p1" "2" "Build" 2).

Definition otherTask : RecordSubscription Task.t :=
  mkEvent create (Task.mk "t1" None None None None "p1" "1" "Design" 1).

(** * Further store actions

    The remaining actions of the store on the three collections: loading a
    snapshot, deleting a resource, and the delete actions with their
    rollback. *)

(** [setAllData]: a snapshot replaces the project and the three
    collections, the derived view is recomputed and the error is cleared. *)
Definition setAllData (p : Project.t) (ts : list Task.t) (rs : list Resource.t)
    (als : list Allocation.t) (s : ProjectState) : ProjectState :=
  mkState (Some p) ts rs als (computeTasksWithData ts rs als) None
          (presenceList s) (sessionId s).

Definition deleteResource (id : string) (s : ProjectState) : ProjectState :=
  let resources' := List.filter (fun r => negb (resourceHasId id r)) (resources s) in
  let allocations' :=
    List.filter (fun a => negb (String.eqb (Allocation.resource_id a) id))
                (allocations s) in
  recompute (setAllocations allocations' (setResources resources' s)).

(** What [deleteTaskAsync] keeps for its rollback. *)
Record DeletedTask := mkDeletedTask {
  originalTask : option Task.t;
  originalResources : list Resource.t;
  originalAllocations : list Allocation.t }.

(** [deleteTaskAsync] up to the [await].  For a temporary identifier the
    task is deleted locally and no remote call is issued ([None]);
    otherwise the originals are saved before the optimistic delete. *)
Definition deleteTaskAsync_begin (id : string) (s : ProjectState)
  : option DeletedTask * ProjectState :=
  if isTemp id then (None, deleteTask id s)
  else
    let originalResources :=
      List.filter (fun r => String.eqb (Resource.task_id r) id) (resources s) in
    let resourceIds := List.map Resource.id originalResources in
    let originalAllocations :=
      List.filter (fun a => includes resourceIds (Allocation.resource_id a))
                  (allocations s) in
    (Some {| originalTask := find (taskHasId id) (tasks s);
             originalResources := originalResources;
             originalAllocations := originalAllocations |},
     deleteTask id s).

(** The [catch] block of [deleteTaskAsync]: the saved records are pushed
    back, but only [if (originalTask)]. *)
Definition deleteTaskAsync_rejected (saved : DeletedTask) (thrown : option string)
    (s : ProjectState) : ProjectState :=
  match originalTask saved with
  | Some task =>
      let s1 :=
        setAllocations (allocations s ++ originalAllocations saved)
          (setResources (resources s ++ originalResources saved)
             (setTasks (push (tasks s) task) s)) in
      setError (Some (errorMessage thrown "Fehler beim Löschen")) (recompute s1)
  | None => s
  end.

(** What [deleteResourceAsync] keeps for its rollback. *)
Record DeletedResource := mkDeletedResource {
  originalResource : option Resource.t;
  resourceAllocationsSaved : list Allocation.t }.

Definition deleteResourceAsync_begin (id : string) (s : ProjectState)
  : option DeletedResource * ProjectState :=
  if isTemp id then (None, deleteResource id s)
  else
    (Some {| originalResource := find (resourceHasId id) (resources s);
             resourceAllocationsSaved :=
               List.filter (fun a => String.eqb (Allocation.resource_id a) id)
                           (allocations s) |},
     deleteResource id s).

Definition deleteResourceAsync_rejected (saved : DeletedResource)
    (thrown : option string) (s : ProjectState) : ProjectState :=
  match originalResource saved with
  | Some resource =>
      let s1 :=
        setAllocations (allocations s ++ resourceAllocationsSaved saved)
          (setResources (push (resources s) resource) s) in
      setError (Some (errorMessage thrown "Fehler beim Löschen")) (recompute s1)
  | None => s
  end.

(** [removeAllocationAsync] up to the [await]: for a temporary resource the
    local removal only ([None]: no remote call); otherwise the first
    allocation under the key is saved ([find]) and all of them are removed. *)
Definition removeAllocationAsync_begin (resourceId date : string) (s : ProjectState)
  : option (option Allocation.t) * ProjectState :=
  if isTemp resourceId then (None, removeAllocation resourceId date s)
  else (Some (find (allocationHasKey resourceId date) (allocations s)),
        removeAllocation resourceId date s).

(** How an awaited promise settles: fulfilled with a value, or rejected
    with the thrown value ([Some message] when it is an [Error]). *)
Inductive Settled (A : Type) : Type :=
| fulfilled (value : A)
| rejected (thrown : option string).
Arguments fulfilled {A} _.
Arguments rejected {A} _.

(** [api.deleteAllocationByKey] ([pocketbase-api.ts]): the lookup
    ([getFirstListItem]) and the delete are both awaited inside a [try]
    whose [catch] returns [false], so the promise is fulfilled whatever
    the server answers.  [lookup] and [deletion] are the outcomes of the
    two remote calls. *)
Definition deleteAllocationByKey (lookup : Settled Allocation.t)
    (deletion : Settled bool) : Settled bool :=
  match lookup with
  | fulfilled _ =>
      match deletion with
      | fulfilled done => fulfilled done
      | rejected _ => fulfilled false
      end
  | rejected _ => fulfilled false
  end.

(** [removeAllocationAsync] after the [await]: nothing when the awaited
    promise is fulfilled, the [catch] block when it is rejected. *)
Definition removeAllocationAsync_settled (originalAllocation : option Allocation.t)
    (outcome : Settled bool) (s : ProjectState) : ProjectState :=
  match outcome with
  | fulfilled _ => s
  | rejected thrown =>
      match originalAllocation with
      | Some a =>
          setError (Some (errorMessage thrown "Fehler beim Löschen"))
                   (recompute (setAllocations (push (allocations s) a) s))
      | None => s
      end
  end.

(** [removeAllocationAsync] as a whole, for the outcomes of the two remote
    calls that [api.deleteAllocationByKey] makes. *)
Definition removeAllocationAsync (resourceId date : string)
    (lookup : Settled Allocation.t) (deletion : Settled bool) (s : ProjectState)
  : ProjectState :=
  match removeAllocationAsync_begin resourceId date s with
  | (Some originalAllocation, s1) =>
      removeAllocationAsync_settled originalAllocation
        (deleteAllocationByKey lookup deletion) s1
  | (None, s1) => s1
  end.

(** [startPresence], after [api.fetchPresence] returned: the fetched list
    without the session that the action read from the store when it
    started. *)
Definition startPresence_fetched (sessionId : string) (fetched : list Presence.t)
    (s : ProjectState) : ProjectState :=
  setPresenceList
    (List.filter (fun p => negb (presenceHasSession sessionId p)) fetched) s.

(** The store update that ends [stopPresence]. *)
Definition stopPresence_cleared (s : ProjectState) : ProjectState :=
  setPresenceList [] s.

(** ** Runs of store actions *)

(** One update of the store: every modelled action, with the inputs that
    the environment supplies. *)
Inductive StoreOp :=
| OpSetAllData (p : Project.t) (ts : list Task.t) (rs : list Resource.t)
               (als : list Allocation.t)
| OpAddTask (task : Task.t)
| OpCreateTaskBegin (env : Ambient) (projectId displayId name : string)
| OpCreateTaskResolved (tempId : string) (newTask : Task.t)
| OpCreateTaskRejected (tempId : string) (thrown : option string)
| OpUpdateTask (id : string) (updates : PartialTask.t)
| OpUpdateTaskRejected (id : string) (original : option Task.t) (thrown : option string)
| OpDeleteTask (id : string)
| OpDeleteTaskRejected (saved : DeletedTask) (thrown : option string)
| OpAddResource (resource : Resource.t)
| OpCreateResourceBegin (env : Ambient) (taskId name : string)
| OpCreateResourceResolved (tempId : string) (newResource : Resource.t)
| OpCreateResourceRejected (tempId : string) (thrown : option string)
| OpUpdateResource (id : string) (updates : PartialResource.t)
| OpUpdateResourceRejected (id : string) (original : option Resource.t)
                           (thrown : option string)
| OpDeleteResource (id : string)
| OpDeleteResourceRejected (saved : DeletedResource) (thrown : option string)
| OpSetAllocation (env : Ambient) (resourceId date : string) (percentage : float)
                  (colorHex : string)
| OpSetAllocationResolved (resourceId date : string) (savedAllocation : Allocation.t)
| OpSetAllocationRejected (resourceId : string) (thrown : option string)
| OpRemoveAllocation (resourceId date : string)
| OpRemoveAllocationSettled (original : option Allocation.t) (outcome : Settled bool)
| OpTaskEvent (event : RecordSubscription Task.t)
| OpResourceEvent (event : RecordSubscription Resource.t)
| OpAllocationEvent (event : RecordSubscription Allocation.t)
| OpPresenceEvent (event : RecordSubscription Presence.t)
| OpHeartbeat (now : Z)
| OpStopPresence.

Definition applyStoreOp (getTime : string -> option Z) (s : ProjectState)
    (op : StoreOp) : ProjectState :=
  match op with
  | OpSetAllData p ts rs als => setAllData p ts rs als s
  | OpAddTask task => addTask task s
  | OpCreateTaskBegin env projectId displayId name =>
      createTaskAsync_begin env projectId displayId name s
  | OpCreateTaskResolved tempId newTask => createTaskAsync_resolved tempId newTask s
  | OpCreateTaskRejected tempId thrown => createTaskAsync_rejected tempId thrown s
  | OpUpdateTask id updates => updateTask id updates s
  | OpUpdateTaskRejected id original thrown =>
      updateTaskAsync_rejected id original thrown s
  | OpDeleteTask id => deleteTask id s
  | OpDeleteTaskRejected saved thrown => deleteTaskAsync_rejected saved thrown s
  | OpAddResource resource => addResource resource s
  | OpCreateResourceBegin env taskId name => createResourceAsync_begin env taskId name s
  | OpCreateResourceResolved tempId newResource =>
      createResourceAsync_resolved tempId newResource s
  | OpCreateResourceRejected tempId thrown =>
      createResourceAsync_rejected tempId thrown s
  | OpUpdateResource id updates => updateResource id updates s
  | OpUpdateResourceRejected id original thrown =>
      updateResourceAsync_rejected id original thrown s
  | OpDeleteResource id => deleteResource id s
  | OpDeleteResourceRejected saved thrown => deleteResourceAsync_rejected saved thrown s
  | OpSetAllocation env resourceId date percentage colorHex =>
      setAllocation env resourceId date percentage colorHex s
  | OpSetAllocationResolved resourceId date savedAllocation =>
      setAllocationAsync_resolved resourceId date savedAllocation s
  | OpSetAllocationRejected resourceId thrown =>
      setAllocationAsync_rejected resourceId thrown s
  | OpRemoveAllocation resourceId date => removeAllocation resourceId date s
  | OpRemoveAllocationSettled original outcome =>
      removeAllocationAsync_settled original outcome s
  | OpTaskEvent event => handleTaskChange event s
  | OpResourceEvent event => handleResourceChange event s
  | OpAllocationEvent event => handleAllocationChange event s
  | OpPresenceEvent event => handlePresenceChange event s
  | OpHeartbeat now => heartbeatTick getTime now s
  | OpStopPresence => stopPresence_cleared s
  end.

Definition runStore (getTime : string -> option Z) (s : ProjectState)
    (ops : list StoreOp) : ProjectState :=
  fold_left (applyStoreOp getTime) ops s.

(** The one action that writes a collection and leaves the derived view. *)
Definition isConfirmation (op : StoreOp) : bool :=
  match op with
  | OpSetAllocationResolved _ _ _ => true
  | _ => false
  end.

(** No presence record of the own session, and at most one per session. *)
Definition ownSessionAbsent (s : ProjectState) : Prop :=
  count (presenceHasSession (sessionId s)) (presenceList s) = 0%nat.

Definition sessionsDistinct (l : list Presence.t) : Prop :=
  forall sid, (count (presenceHasSession sid) l <= 1)%nat.

(** ** Presence colours ([getPresenceColor]) *)

Definition PRESENCE_COLORS : list string :=
  ["#E53935"; "#8E24AA"; "#3949AB"; "#1E88E5"; "#00ACC1";
   "#00897B"; "#43A047"; "#F4511E"; "#6D4C41"; "#546E7A"].

(** [ToInt32]: the signed 32-bit value of an integer. *)
Definition toInt32 (z : Z) : Z := (z + 2 ^ 31) mod 2 ^ 32 - 2 ^ 31.

(** [acc << 5] *)
Definition shiftLeft5 (acc : Z) : Z := toInt32 (toInt32 acc * 32).

(** [((acc << 5) - acc) + char.charCodeAt(0)]: only the shift is a 32-bit
    operation, the subtraction and the addition are not. *)
Definition hashStep (acc : Z) (char : ascii) : Z :=
  shiftLeft5 acc - acc + Z.of_N (N_of_ascii char).

(** [sessionId.split('').reduce(..., 0)] *)
Definition sessionHash (sessionId : string) : Z :=
  fold_left hashStep (list_ascii_of_string sessionId) 0.

(** [PRESENCE_COLORS\[Math.abs(hash) % PRESENCE_COLORS.length\]]; [None]
    stands for [undefined]. *)
Definition getPresenceColor (sessionId : string) : option string :=
  PRESENCE_COLORS
    !! Z.to_nat (Z.abs (sessionHash sessionId) mod Z.of_nat (length PRESENCE_COLORS)).

(** The polynomial hash with multiplier 31. *)
Definition polynomial31 (sessionId : string) : Z :=
  fold_left (fun acc c => 31 * acc + Z.of_N (N_of_ascii c))
            (list_ascii_of_string sessionId) 0.

(** ** Display identifiers and colours ([generateNextDisplayId], [hexToRgb]) *)

(** The ASCII members of [StrWhiteSpaceChar]: TAB, LF, VT, FF, CR, SP. *)
Definition isWhiteSpace (c : ascii) : bool :=
  let n := N_of_ascii c in
  ((9 <=? n) && (n <=? 13) || (n =? 32))%N.

Fixpoint trimStart (s : string) : string :=
  match s with
  | String c rest => if isWhiteSpace c then trimStart rest else s
  | EmptyString => s
  end.

Definition digitValue (c : ascii) : option Z :=
  let n := Z.of_N (N_of_ascii c) in
  if (48 <=? n) && (n <=? 57) then Some (n - 48) else None.

(** The value of the longest prefix of decimal digits, after [acc]; [None]
    when no digit has been read. *)
Fixpoint readDigits (s : string) (acc : option Z) : option Z :=
  match s with
  | String c rest =>
      match digitValue c with
      | Some d => readDigits rest (Some (10 * default 0 acc + d))
      | None => acc
      end
  | EmptyString => acc
  end.

(** [parseInt(text, 10)]: leading white space, an optional sign, the
    longest run of digits; [None] stands for [NaN]. *)
Definition parseInt10 (text : string) : option Z :=
  match trimStart text with
  | String "-" rest => Z.opp <$> readDigits rest None
  | String "+" rest => readDigits rest None
  | trimmed => readDigits trimmed None
  end.

(** [String(n)] for an integer. *)
Definition numberToString (n : Z) : string := NilZero.string_of_int (Z.to_int n).

(** [Math.max(...numbers)] of a non-empty array. *)
Definition maximum (first : Z) (rest : list Z) : Z := fold_left Z.max rest first.

Definition generateNextDisplayId (existingIds : list string) : string :=
  match omap parseInt10 existingIds with
  | [] => "1"
  | n :: rest => numberToString (maximum n rest + 1)
  end.

Definition hexValue (c : ascii) : option Z :=
  let n := Z.of_N (N_of_ascii c) in
  if (48 <=? n) && (n <=? 57) then Some (n - 48)
  else if (97 <=? n) && (n <=? 102) then Some (n - 87)
  else if (65 <=? n) && (n <=? 70) then Some (n - 55)
  else None.

(** [parseInt(pair, 16)] of two hexadecimal digits. *)
Definition hexPair (hi lo : ascii) : option Z :=
  match hexValue hi, hexValue lo with
  | Some h, Some l => Some (16 * h + l)
  | _, _ => None
  end.

Record Rgb := mkRgb { red : Z; green : Z; blue : Z }.

(** [/^#?(\[a-f\d\]{2})(\[a-f\d\]{2})(\[a-f\d\]{2})$/i.exec(hex)] and the three
    [parseInt(..., 16)]; [None] stands for [null]. *)
Definition hexToRgb (hex : string) : option Rgb :=
  let body := match hex with String "#" rest => rest | _ => hex end in
  match list_ascii_of_string body with
  | [r1; r2; g1; g2; b1; b2] =>
      match hexPair r1 r2, hexPair g1 g2, hexPair b1 b2 with
      | Some r, Some g, Some b => Some (mkRgb r g b)
      | _, _, _ => None
      end
  | _ => None
  end.

(** [a.sort_order] of an entry of the derived view (the comparator of
    [computeTasksWithData] reads it through the spread task). *)
Definition sortOrderOf (tw : TaskWithAggregation.t) : Z :=
  Task.sort_order (TaskWithAggregation.task tw).

(** ** Runs of the further examples *)

Definition secondPresence : Presence.t :=
  Presence.mk "pr2" None None None None "p1" "third-session" "Flinker Zeichner"
              "#8E24AA" "1970-01-01T00:00:00.000Z".

Definition refreshedPresence : Presence.t :=
  Presence.mk "pr1" None None None None "p1" "other-session" "Clever Planer"
              "#3182BD" "1970-01-01T00:00:10.000Z".

Definition editingSession : list StoreOp :=
  [OpCreateTaskBegin firstStroke "p1" "2" "Build";
   OpCreateTaskRejected (tempId (dateNow firstStroke)) None;
   OpSetAllocation secondStroke "r1" "2024-01-02" 75%float "#216E39";
   OpUpdateTask "t1" rename;
   OpResourceEvent (mkEvent create bob);
   OpAllocationEvent (mkEvent create bobJan3);
   OpRemoveAllocation "r1" "2024-01-01";
   OpDeleteResource "r2";
   OpHeartbeat 40000].

Definition presenceTraffic : list StoreOp :=
  [OpPresenceEvent (mkEvent create secondPresence);
   OpPresenceEvent (mkEvent update refreshedPresence);
   OpPresenceEvent (mkEvent create refreshedPresence);
   OpHeartbeat 40000;
   OpPresenceEvent (mkEvent delete secondPresence);
   OpStopPresence;
   OpPresenceEvent (mkEvent create refreshedPresence)].

(** ** What a subscription holds and hands over *)

(** The callback invocation that an incoming event asks for. *)
Definition received (x : Reconciler.Step) : list Reconciler.Delivery :=
  match x with
  | Reconciler.TaskEvent e => [Reconciler.onTaskChange e]
  | Reconciler.ResourceEvent e => [Reconciler.onResourceChange e]
  | Reconciler.AllocationEvent e => [Reconciler.onAllocationChange e]
  | _ => []
  end.

(** The invocations made so far, followed by those that the two queues
    still ask for. *)
Definition held (st : Reconciler.t) : list Reconciler.Delivery :=
  Reconciler.delivered st
  ++ List.map Reconciler.onResourceChange (Reconciler.pendingResources st)
  ++ List.map Reconciler.onAllocationChange (Reconciler.pendingAllocations st).

(** The condition under which the subscription invokes a callback: a task
    of the project, a resource of a known task, an allocation of a known
    resource. *)
Definition admitted (projectId : string) (st : Reconciler.t) (d : Reconciler.Delivery)
  : bool :=
  match d with
  | Reconciler.onTaskChange e => String.eqb (Task.project_id (record e)) projectId
  | Reconciler.onResourceChange e => knownTask (Reconciler.taskIds st) e
  | Reconciler.onAllocationChange e => knownResource (Reconciler.resourceIds st) e
  end.

(** Every non-empty queue has a retry scheduled. *)
Definition retriesScheduled (st : Reconciler.t) : Prop :=
  (Reconciler.pendingResources st = []
   \/ In Reconciler.retryResources (Reconciler.timers st))
  /\ (Reconciler.pendingAllocations st = []
      \/ In Reconciler.retryAllocations (Reconciler.timers st)).


(** An identifier of at most 15 ASCII characters: what [parseInt] reads
    from it, and the successor of that, are integers that a JavaScript
    number holds exactly and prints in plain decimal notation, and its
    white space is ASCII white space. *)
Definition plainId (id : string) : bool :=
  (String.length id <=? 15)%nat
  && forallb (fun c => (N_of_ascii c <? 128)%N) (list_ascii_of_string id).

Definition takenIds : list string := ["1"; "2"; " 7b"; "T-4"; "-3"; "10"].

(** The character class [\[a-f\d\]] under the [i] flag. *)
Definition isHexDigit (c : ascii) : bool :=
  let n := Z.of_N (N_of_ascii c) in
  (48 <=? n) && (n <=? 57) || (97 <=? n) && (n <=? 102) || (65 <=? n) && (n <=? 70).

(** The number that a hexadecimal digit stands for. *)
Definition hexDigitNumber (c : ascii) : Z :=
  let n := Z.of_N (N_of_ascii c) in
  if n <=? 57 then n - 48 else if n <=? 70 then n - 55 else n - 87.

(** The number that two hexadecimal digits stand for. *)
Definition byteOf (hi lo : ascii) : Z := 16 * hexDigitNumber hi + hexDigitNumber lo.

(** ** The grid's edit path

    [onUpdateTask] and [onUpdateResource] of the planning grid
    ([part_002]) call the synchronous action and then the asynchronous
    one with the same delta; the deltas that the rows pass set the name or
    the display identifier.  Here up to the [await] of the remote call. *)

Definition onUpdateTask_begin (id : string) (updates : PartialTask.t)
    (s : ProjectState) : option (option Task.t * ProjectState) :=
  updateTaskAsync_begin id updates (updateTask id updates s).

Definition onUpdateResource_begin (id : string) (updates : PartialResource.t)
    (s : ProjectState) : option (option Resource.t * ProjectState) :=
  updateResourceAsync_begin id updates (updateResource id updates s).

Definition newNameTask : Task.t :=
  Task.mk "t1" None None None None "p1" "1" "New" 1.

Definition renameResource : PartialResource.t :=
  PartialResource.mk None None None None None None (Some "Alicia") None.

Definition alicia : Resource.t := Resource.mk "r1" None None None None "t1" "Alicia" 1.

(** ** The store wired to its subscription ([subscribeToProject])

    The record holds the state of the store, whether [state.subscription]
    is set, and the closure variables of the subscription.  The store's
    handlers are the subscription's callbacks
    ([onTaskChange: (e) => get().handleTaskChange(e)] and so on), and
    [handleTaskChange] and [handleResourceChange] end the callback that
    they pass to [set] with a call back into the subscription
    ([state.subscription.updateTaskIds], [updateResourceIds]).

    [set(recipe)] (zustand's [setState] behind its immer middleware) runs
    the recipe on the state that the store holds when [set] is called and
    stores the recipe's result when the recipe has returned.  A [set] that
    is called while the recipe runs stores its own result in between, and
    the result of the outer recipe, computed from the earlier state, then
    replaces it.  A recipe that returns early has changed nothing. *)

Module Live.

Record t := mk {
  store : ProjectState;
  attached : bool;
  closure : Reconciler.t }.

Definition setStore (v : ProjectState) (w : t) : t := mk v (attached w) (closure w).

Definition setClosure (v : Reconciler.t) (w : t) : t := mk (store w) (attached w) v.

(** [callbacks.onAllocationChange(e)]: the invocation is recorded, then
    [handleAllocationChange], whose recipe calls nothing. *)
Definition onAllocationChange (e : RecordSubscription Allocation.t) (w : t) : t :=
  let w1 :=
    setClosure (Reconciler.deliver (Reconciler.onAllocationChange e) (closure w)) w in
  setStore (handleAllocationChange e (store w1)) w1.

(** Body of the loop of [processPendingAllocations]. *)
Definition retryAllocation (w : t) (e : RecordSubscription Allocation.t) : t :=
  if Reconciler.has (Reconciler.resourceIds (closure w))
                    (Allocation.resource_id (record e))
  then onAllocationChange e w
  else w.

Definition processPendingAllocations (w : t) : t :=
  fold_left retryAllocation (Reconciler.pendingAllocations (closure w))
            (setClosure (Reconciler.setPendingAllocations [] (closure w)) w).

Definition updateResourceIds (newResourceIds : list string) (w : t) : t :=
  processPendingAllocations
    (setClosure (Reconciler.setResourceIds (list_to_set newResourceIds) (closure w)) w).

(** [if (existingById) return] in the ['create'] branch of
    [handleResourceChange]. *)
Definition resourceRecipeReturnsEarly (e : RecordSubscription Resource.t)
    (s : ProjectState) : bool :=
  match action e with
  | create =>
      match find (resourceHasId (Resource.id (record e))) (resources s) with
      | Some _ => true
      | None => false
      end
  | _ => false
  end.

(** [callbacks.onResourceChange(e)]: [handleResourceChange] through [set].
    The recipe's last statement, reached unless it returned early, is
    [state.subscription.updateResourceIds(state.resources.map(r => r.id))]
    on the recipe's own result; what the callbacks run from there store is
    replaced when [set] stores that result. *)
Definition onResourceChange (e : RecordSubscription Resource.t) (w : t) : t :=
  let w1 :=
    setClosure (Reconciler.deliver (Reconciler.onResourceChange e) (closure w)) w in
  let base := store w1 in
  let result := handleResourceChange e base in
  let w2 :=
    if attached w1 && negb (resourceRecipeReturnsEarly e base)
    then updateResourceIds (List.map Resource.id (resources result)) w1
    else w1 in
  setStore result w2.

(** Body of the loop of [processPendingResources]. *)
Definition retryResource (w : t) (e : RecordSubscription Resource.t) : t :=
  if Reconciler.has (Reconciler.taskIds (closure w)) (Resource.task_id (record e))
  then
    let w1 := onResourceChange e w in
    setClosure (Reconciler.trackResource e (closure w1)) w1
  else w.

Definition processPendingResources (w : t) : t :=
  fold_left retryResource (Reconciler.pendingResources (closure w))
            (setClosure (Reconciler.setPendingResources [] (closure w)) w).

Definition updateTaskIds (newTaskIds : list string) (w : t) : t :=
  processPendingResources
    (setClosure (Reconciler.setTaskIds (list_to_set newTaskIds) (closure w)) w).

(** [if (existingById) return] in the ['create'] branch of
    [handleTaskChange]. *)
Definition taskRecipeReturnsEarly (e : RecordSubscription Task.t) (s : ProjectState)
  : bool :=
  match action e with
  | create =>
      match find (taskHasId (Task.id (record e))) (tasks s) with
      | Some _ => true
      | None => false
      end
  | _ => false
  end.

(** [callbacks.onTaskChange(e)]: [handleTaskChange] through [set], its
    recipe ending with
    [state.subscription.updateTaskIds(state.tasks.map(t => t.id))]. *)
Definition onTaskChange (e : RecordSubscription Task.t) (w : t) : t :=
  let w1 := setClosure (Reconciler.deliver (Reconciler.onTaskChange e) (closure w)) w in
  let base := store w1 in
  let result := handleTaskChange e base in
  let w2 :=
    if attached w1 && negb (taskRecipeReturnsEarly e base)
    then updateTaskIds (List.map Task.id (tasks result)) w1
    else w1 in
  setStore result w2.

(** Callback of the ['tasks'] subscription. *)
Definition tasksEvent (projectId : string) (e : RecordSubscription Task.t) (w : t) : t :=
  if String.eqb (Task.project_id (record e)) projectId then
    let w1 := onTaskChange e w in
    let c1 := closure w1 in
    match action e with
    | create =>
        processPendingResources
          (setClosure
             (Reconciler.setTaskIds ({[Task.id (record e)]} ∪ Reconciler.taskIds c1) c1)
             w1)
    | delete =>
        setClosure
          (Reconciler.setTaskIds (Reconciler.taskIds c1 ∖ {[Task.id (record e)]}) c1) w1
    | update => w1
    end
  else w.

(** Callback of the ['resources'] subscription. *)
Definition resourcesEvent (e : RecordSubscription Resource.t) (w : t) : t :=
  if Reconciler.has (Reconciler.taskIds (closure w)) (Resource.task_id (record e)) then
    let w1 := onResourceChange e w in
    let c1 := closure w1 in
    match action e with
    | create =>
        processPendingAllocations
          (setClosure
             (Reconciler.setResourceIds
                ({[Resource.id (record e)]} ∪ Reconciler.resourceIds c1) c1)
             w1)
    | delete =>
        setClosure
          (Reconciler.setResourceIds
             (Reconciler.resourceIds c1 ∖ {[Resource.id (record e)]}) c1) w1
    | update => w1
    end
  else
    match action e with
    | create =>
        setClosure
          (Reconciler.setTimers
             (Reconciler.timers (closure w) ++ [Reconciler.retryResources])
             (Reconciler.setPendingResources
                (Reconciler.pendingResources (closure w) ++ [e]) (closure w)))
          w
    | _ => w
    end.

(** Callback of the ['allocations'] subscription. *)
Definition allocationsEvent (e : RecordSubscription Allocation.t) (w : t) : t :=
  if Reconciler.has (Reconciler.resourceIds (closure w))
                    (Allocation.resource_id (record e))
  then onAllocationChange e w
  else
    match action e with
    | create | update =>
        setClosure
          (Reconciler.setTimers
             (Reconciler.timers (closure w) ++ [Reconciler.retryAllocations])
             (Reconciler.setPendingAllocations
                (Reconciler.pendingAllocations (closure w) ++ [e]) (closure w)))
          w
    | delete => w
    end.

(** The oldest scheduled [setTimeout] callback runs. *)
Definition timerFires (w : t) : t :=
  match Reconciler.timers (closure w) with
  | [] => w
  | Reconciler.retryResources :: rest =>
      processPendingResources (setClosure (Reconciler.setTimers rest (closure w)) w)
  | Reconciler.retryAllocations :: rest =>
      processPendingAllocations (setClosure (Reconciler.setTimers rest (closure w)) w)
  end.

(** [subscribeToProject]: the subscription is created from the identifiers
    in the store and, when [api.subscribeToProjectChanges] has resolved,
    stored by [s.subscription = subscription]. *)
Definition subscribeToProject (s : ProjectState) : t :=
  {| store := s;
     attached := true;
     closure := Reconciler.subscribe (List.map Task.id (tasks s))
                                     (List.map Resource.id (resources s)) |}.

End Live.

(** The project is open and empty, the subscription is stored. *)
Definition emptyProject : ProjectState :=
  mkState (Some openProject) [] [] [] [] None [] "my-session".

Definition liveEmptyProject : Live.t := Live.subscribeToProject emptyProject.

(** An allocation of the resource of [lateResource]. *)
Definition lateAllocation : RecordSubscription Allocation.t := mkEvent create aliceJan1.

(** The task of [lateResource] is known, the resource is not. *)
Definition liveOneTask : Live.t :=
  Live.subscribeToProject
    (mkState (Some openProject) [record owningTask] [] []
             (computeTasksWithData [record owningTask] [] []) None [] "my-session").

(** * Properties *)

(** ** Arrays: [findIndex], [find], assignment, [splice] and counting *)

Section ArrayFacts.
Context {A : Type}.
Implicit Types (p q : A -> bool) (l : list A) (x y : A).

Lemma findIndex_Some p l i :
  findIndex p l = Some i ->
  exists x, l !! i = Some x /\ p x = true.
Proof.
  revert i. induction l as [|a l IH]; intros i; simpl; [discriminate|].
  destruct (p a) eqn:Ha.
  - intros [= <-]. exists a. auto.
  - destruct (findIndex p l) as [j|]; simpl; [|discriminate].
    intros [= <-]. destruct (IH j eq_refl) as (x & Hx & Hp). exists x. auto.
Qed.

Lemma findIndex_first p l i j y :
  findIndex p l = Some i -> (j < i)%nat -> l !! j = Some y -> p y = false.
Proof.
  revert i j. induction l as [|a l IH]; intros i j; simpl; [discriminate|].
  destruct (p a) eqn:Ha.
  - intros [= <-] Hj. lia.
  - destruct (findIndex p l) as [k|] eqn:Hk; simpl; [|discriminate].
    intros [= <-] Hj. destruct j as [|j]; simpl.
    + intros [= <-]. exact Ha.
    + intros Hy. apply (IH k j); [reflexivity | lia | exact Hy].
Qed.

Lemma findIndex_None p l :
  findIndex p l = None <-> count p l = 0%nat.
Proof.
  unfold count. induction l as [|a l IH]; simpl; [tauto|].
  destruct (p a); simpl.
  - split; discriminate.
  - destruct (findIndex p l); simpl.
    + split; [discriminate|]. intros H. apply IH in H. discriminate.
    + tauto.
Qed.

Lemma find_findIndex p l :
  find p l = (findIndex p l ≫= fun i => l !! i).
Proof.
  induction l as [|a l IH]; simpl; [reflexivity|].
  destruct (p a); simpl; [reflexivity|].
  rewrite IH. destruct (findIndex p l); reflexivity.
Qed.

Lemma find_None p l : find p l = None <-> count p l = 0%nat.
Proof.
  rewrite <- findIndex_None. rewrite find_findIndex.
  destruct (findIndex p l) as [i|] eqn:Hi; simpl; [|tauto].
  destruct (findIndex_Some _ _ _ Hi) as (x & -> & _). split; discriminate.
Qed.

Lemma find_Some p l x : find p l = Some x -> p x = true.
Proof.
  induction l as [|a l IH]; simpl; [discriminate|].
  destruct (p a) eqn:Ha; [intros [= <-]; exact Ha | exact IH].
Qed.


Lemma count_cons p a l : count p (a :: l) = (indicator (p a) + count p l)%nat.
Proof. unfold count. simpl. destruct (p a); reflexivity. Qed.

Lemma count_push p l x : count p (push l x) = (count p l + indicator (p x))%nat.
Proof.
  unfold push. induction l as [|a l IH]; simpl.
  - rewrite count_cons. unfold count. simpl. lia.
  - rewrite !count_cons, IH. lia.
Qed.

Lemma count_setAt p l i x y :
  l !! i = Some x ->
  (count p (setAt i y l) + indicator (p x) = count p l + indicator (p y))%nat.
Proof.
  unfold setAt. revert i. induction l as [|a l IH]; intros [|i]; simpl;
    try discriminate.
  - intros [= ->]. rewrite !count_cons. lia.
  - intros H. rewrite !count_cons. specialize (IH _ H). lia.
Qed.


Lemma count_filter_false p l :
  count p (List.filter (fun x => negb (p x)) l) = 0%nat.
Proof.
  unfold count. induction l as [|a l IH]; simpl; [reflexivity|].
  destruct (p a) eqn:Ha; simpl; [exact IH|]. rewrite Ha. exact IH.
Qed.

Lemma count_lookup p l i x :
  l !! i = Some x -> p x = true -> (0 < count p l)%nat.
Proof.
  revert i. induction l as [|a l IH]; intros [|i]; simpl; try discriminate.
  - intros [= ->] Hx. rewrite count_cons, Hx. simpl. lia.
  - intros H Hx. rewrite count_cons. specialize (IH _ H Hx). lia.
Qed.


(** Assigning to the slot found by [findIndex p] an element that still
    satisfies [p] leaves the search result unchanged. *)
Lemma findIndex_setAt_same p l i y :
  findIndex p l = Some i -> p y = true -> findIndex p (setAt i y l) = Some i.
Proof.
  unfold setAt. revert i. induction l as [|a l IH]; intros i; simpl;
    [discriminate|].
  destruct (p a) eqn:Ha.
  - intros [= <-] Hy. simpl. rewrite Hy. reflexivity.
  - destruct (findIndex p l) as [j|] eqn:Hj; simpl; [|discriminate].
    intros [= <-] Hy. simpl. rewrite Ha. rewrite (IH j eq_refl Hy). reflexivity.
Qed.

Lemma findIndex_push p l x :
  count p l = 0%nat -> p x = true -> findIndex p (push l x) = Some (length l).
Proof.
  unfold push. induction l as [|a l IH]; simpl; intros Hc Hx.
  - rewrite Hx. reflexivity.
  - rewrite count_cons in Hc. destruct (p a); simpl in Hc; [lia|].
    rewrite (IH Hc Hx). reflexivity.
Qed.

Lemma setAt_push l x y : setAt (length l) y (push l x) = push l y.
Proof.
  unfold setAt, push. induction l as [|a l IH]; simpl; [reflexivity|].
  f_equal. exact IH.
Qed.

Lemma setAt_setAt l i x y : setAt i y (setAt i x l) = setAt i y l.
Proof. unfold setAt. apply list_insert_insert_eq. Qed.

Lemma setAt_lookup l i x : l !! i = Some x -> setAt i x l = l.
Proof. unfold setAt. apply list_insert_id. Qed.

Lemma lookup_setAt l i x y : l !! i = Some x -> setAt i y l !! i = Some y.
Proof.
  unfold setAt. intros H. apply list_lookup_insert_eq.
  apply lookup_lt_Some in H. exact H.
Qed.
End ArrayFacts.

(** ** Optimistic create against its realtime ['create'] event *)

Section CreateRace.
Context {A : Type} (idOf : A -> string).

Lemma hasId_self x : hasId idOf (idOf x) x = true.
Proof. apply String.eqb_refl. Qed.


Lemma hasId_true id x : hasId idOf id x = true -> idOf x = id.
Proof. apply String.eqb_eq. Qed.

Variables (tid sid : string) (new r : A) (own : A -> bool).
Hypothesis new_id : idOf new = sid.
Hypothesis r_id : idOf r = sid.
Hypothesis distinct : sid <> tid.






End CreateRace.


Lemma tasks_handleTaskChange_create ev s :
  action ev = create ->
  tasks (handleTaskChange ev s)
  = createdArray Task.id (matchesTempTask (record ev)) (record ev) (tasks s).
Proof.
  intros Ha. unfold handleTaskChange, createdArray. rewrite Ha.
  change (hasId Task.id (Task.id (record ev))) with (taskHasId (Task.id (record ev))).
  destruct (find _ (tasks s)); reflexivity.
Qed.


Lemma resources_handleResourceChange_create ev s :
  action ev = create ->
  resources (handleResourceChange ev s)
  = createdArray Resource.id (matchesTempResource (record ev)) (record ev)
                 (resources s).
Proof.
  intros Ha. unfold handleResourceChange, createdArray. rewrite Ha.
  change (hasId Resource.id (Resource.id (record ev)))
    with (resourceHasId (Resource.id (record ev))).
  destruct (find _ (resources s)); reflexivity.
Qed.



(** ** Cascading delete of a task *)

Lemma includes_In ids id : includes ids id = true <-> In id ids.
Proof.
  unfold includes. rewrite existsb_exists. split.
  - intros (x & Hx & He). apply String.eqb_eq in He. subst. exact Hx.
  - intros H. exists id. split; [exact H | apply String.eqb_refl].
Qed.

Lemma tasks_cascade id s t :
  In t (tasks (cascadeDeleteTask id s)) <-> In t (tasks s) /\ Task.id t <> id.
Proof.
  simpl. rewrite filter_In. unfold taskHasId.
  rewrite negb_true_iff, String.eqb_neq. tauto.
Qed.

Lemma resources_cascade id s r :
  In r (resources (cascadeDeleteTask id s))
  <-> In r (resources s) /\ Resource.task_id r <> id.
Proof. simpl. rewrite filter_In, negb_true_iff, String.eqb_neq. tauto. Qed.

Lemma allocations_cascade id s a :
  In a (allocations (cascadeDeleteTask id s))
  <-> In a (allocations s)
      /\ ~ (exists r, In r (resources s) /\ Resource.task_id r = id
                      /\ Resource.id r = Allocation.resource_id a).
Proof.
  simpl. rewrite filter_In, negb_true_iff.
  rewrite <- not_true_iff_false, includes_In, in_map_iff.
  split; intros [Ha Hn]; split; try exact Ha; intros (r & H1 & H2).
  - destruct H2 as [H2 H3]. apply Hn. exists r. split; [exact H3|].
    apply filter_In. split; [exact H1 | apply String.eqb_eq; exact H2].
  - apply filter_In in H2. destruct H2 as [H2 H3]. apply String.eqb_eq in H3.
    apply Hn. exists r. auto.
Qed.

Lemma cascade_noOrphans id s : noOrphans s -> noOrphans (cascadeDeleteTask id s).
Proof.
  intros [Hr Ha]. split.
  - intros r Hin. apply resources_cascade in Hin. destruct Hin as [Hin Hne].
    destruct (Hr r Hin) as (t & Ht & He). exists t. split; [|exact He].
    apply tasks_cascade. split; [exact Ht | congruence].
  - intros a Hin. apply allocations_cascade in Hin. destruct Hin as [Hin Hn].
    destruct (Ha a Hin) as (r & Hrin & He). exists r. split; [|exact He].
    apply resources_cascade. split; [exact Hrin|].
    intros Hid. apply Hn. exists r. auto.
Qed.

(** C3.  [deleteTask id], and the realtime ['delete'] event for the same
    task, are one state update whose result has lost exactly the task, every
    resource with [task_id = id] and every allocation that belongs to one of
    those resources; the derived view is recomputed in the same update, and
    a store without orphans stays without orphans. *)
Theorem delete_task_cascades :
  forall id s,
    let s' := deleteTask id s in
    (forall t, In t (tasks s') <-> In t (tasks s) /\ Task.id t <> id)
    /\ (forall r, In r (resources s')
                  <-> In r (resources s) /\ Resource.task_id r <> id)
    /\ (forall a, In a (allocations s')
                  <-> In a (allocations s)
                      /\ ~ (exists r, In r (resources s)
                                      /\ Resource.task_id r = id
                                      /\ Resource.id r = Allocation.resource_id a))
    /\ tasksWithData s'
       = computeTasksWithData (tasks s') (resources s') (allocations s')
    /\ (noOrphans s -> noOrphans s')
    /\ (forall record, Task.id record = id ->
                       handleTaskChange (mkEvent delete record) s = s').
Proof.
  intros id s s'. subst s'. unfold deleteTask.
  split; [intros t; apply (tasks_cascade id s t)|].
  split; [intros r; apply (resources_cascade id s r)|].
  split; [intros a; apply (allocations_cascade id s a)|].
  split; [reflexivity|].
  split; [apply cascade_noOrphans|].
  intros record <-. reflexivity.
Qed.

(** ** Realtime merge: repeated events *)

Section Repeat.
Context {A : Type} (idOf : A -> string).

Lemma created_has (own : A -> bool) (r : A) (l : list A) :
  (0 < count (hasId idOf (idOf r)) (createdArray idOf own r l))%nat.
Proof.
  unfold createdArray.
  assert (Hr : hasId idOf (idOf r) r = true) by apply hasId_self.
  destruct (find (hasId idOf (idOf r)) l) eqn:Hf.
  - destruct (count (hasId idOf (idOf r)) l) eqn:Hc; [|lia].
    apply find_None in Hc. congruence.
  - destruct (findIndex own l) as [i|] eqn:Hi.
    + destruct (findIndex_Some _ _ _ Hi) as (x & Hx & _).
      apply (count_lookup _ _ i r); [|exact Hr].
      apply (lookup_setAt l i x r Hx).
    + rewrite count_push, Hr. simpl. lia.
Qed.

Lemma updatedArray_twice r l :
  updatedArray idOf r (updatedArray idOf r l) = updatedArray idOf r l.
Proof.
  unfold updatedArray.
  destruct (findIndex (hasId idOf (idOf r)) l) as [i|] eqn:Hi.
  - rewrite (findIndex_setAt_same _ _ _ r Hi (hasId_self idOf r)).
    apply setAt_setAt.
  - rewrite Hi. reflexivity.
Qed.
End Repeat.

Lemma handleTaskChange_update t s :
  handleTaskChange (mkEvent update t) s
  = recompute (setTasks (updatedArray Task.id t (tasks s)) s).
Proof. reflexivity. Qed.

Lemma handleResourceChange_update r s :
  handleResourceChange (mkEvent update r) s
  = recompute (setResources (updatedArray Resource.id r (resources s)) s).
Proof. reflexivity. Qed.

(** C6.  A realtime ['create'] or ['update'] event handled a second time by
    [handleTaskChange] or [handleResourceChange] leaves the whole store as
    the first handling left it. *)
Theorem realtime_upsert_idempotent :
  forall (t : Task.t) (r : Resource.t) (s : ProjectState),
    handleTaskChange (mkEvent create t) (handleTaskChange (mkEvent create t) s)
    = handleTaskChange (mkEvent create t) s
    /\ handleTaskChange (mkEvent update t) (handleTaskChange (mkEvent update t) s)
       = handleTaskChange (mkEvent update t) s
    /\ handleResourceChange (mkEvent create r)
         (handleResourceChange (mkEvent create r) s)
       = handleResourceChange (mkEvent create r) s
    /\ handleResourceChange (mkEvent update r)
         (handleResourceChange (mkEvent update r) s)
       = handleResourceChange (mkEvent update r) s.
Proof.
  intros t r s. repeat split.
  - pose proof (created_has Task.id (matchesTempTask t) t (tasks s)) as Hc.
    pose proof (tasks_handleTaskChange_create (mkEvent create t) s eq_refl) as E.
    simpl in E. rewrite <- E in Hc. clear E.
    set (s1 := handleTaskChange (mkEvent create t) s) in *.
    unfold handleTaskChange at 1. simpl.
    destruct (find (taskHasId (Task.id t)) (tasks s1)) eqn:Hf; [reflexivity|].
    apply find_None in Hf. unfold taskHasId in Hf. unfold hasId in Hc. simpl in Hc. lia.
  - rewrite !handleTaskChange_update. unfold recompute, setTasks. simpl.
    rewrite updatedArray_twice. reflexivity.
  - pose proof (created_has Resource.id (matchesTempResource r) r (resources s)) as Hc.
    pose proof (resources_handleResourceChange_create (mkEvent create r) s eq_refl)
      as E.
    simpl in E. rewrite <- E in Hc. clear E.
    set (s1 := handleResourceChange (mkEvent create r) s) in *.
    unfold handleResourceChange at 1. simpl.
    destruct (find (resourceHasId (Resource.id r)) (resources s1)) eqn:Hf;
      [reflexivity|].
    apply find_None in Hf. unfold resourceHasId in Hf. unfold hasId in Hc.
    simpl in Hc. lia.
  - rewrite !handleResourceChange_update. unfold recompute, setResources. simpl.
    rewrite updatedArray_twice. reflexivity.
Qed.

(** ** Realtime ['update'] events *)

(** C7, as stated, fails: an ['update'] event for a record that the store
    does not hold inserts nothing, in all three collections. *)
Lemma update_event_for_absent_record_inserts_nothing :
  count (taskHasId (Task.id designTask)) (tasks initialState) = 0%nat
  /\ tasks (handleTaskChange (mkEvent update designTask) initialState) = []
  /\ resources (handleResourceChange (mkEvent update alice) initialState) = []
  /\ allocations (handleAllocationChange (mkEvent update aliceJan1) initialState)
     = [].
Proof. repeat split. Qed.

(** C7, amended.  An ['update'] event overwrites, in place, the first record
    with the event's identifier; for an allocation with an unknown
    identifier it overwrites the first allocation with the event's
    (resource_id, date); when neither exists the collection is left as it
    was and the record is not inserted. *)
Theorem update_event_overwrites_or_ignores :
  forall (t : Task.t) (r : Resource.t) (a : Allocation.t) (s : ProjectState),
    (forall i, findIndex (taskHasId (Task.id t)) (tasks s) = Some i ->
               tasks (handleTaskChange (mkEvent update t) s) = <[i:=t]> (tasks s)
               /\ tasks (handleTaskChange (mkEvent update t) s) !! i = Some t)
    /\ (count (taskHasId (Task.id t)) (tasks s) = 0%nat ->
        tasks (handleTaskChange (mkEvent update t) s) = tasks s)
    /\ (forall i, findIndex (resourceHasId (Resource.id r)) (resources s) = Some i ->
                  resources (handleResourceChange (mkEvent update r) s)
                  = <[i:=r]> (resources s)
                  /\ resources (handleResourceChange (mkEvent update r) s) !! i
                     = Some r)
    /\ (count (resourceHasId (Resource.id r)) (resources s) = 0%nat ->
        resources (handleResourceChange (mkEvent update r) s) = resources s)
    /\ (forall i, findIndex (allocationHasId (Allocation.id a)) (allocations s)
                  = Some i ->
                  allocations (handleAllocationChange (mkEvent update a) s)
                  = <[i:=a]> (allocations s)
                  /\ allocations (handleAllocationChange (mkEvent update a) s) !! i
                     = Some a)
    /\ (count (allocationHasId (Allocation.id a)) (allocations s) = 0%nat ->
        (forall j,
            findIndex (allocationHasKey (Allocation.resource_id a) (Allocation.date a))
                      (allocations s) = Some j ->
            allocations (handleAllocationChange (mkEvent update a) s)
            = <[j:=a]> (allocations s))
        /\ (count (allocationHasKey (Allocation.resource_id a) (Allocation.date a))
                  (allocations s) = 0%nat ->
            allocations (handleAllocationChange (mkEvent update a) s)
            = allocations s)).
Proof.
  intros t r a s.
  split; [|split; [|split; [|split; [|split]]]].
  - intros i Hi. simpl. rewrite Hi. split; [reflexivity|].
    destruct (findIndex_Some _ _ _ Hi) as (x & Hx & _).
    apply (lookup_setAt _ _ x). exact Hx.
  - intros Hc. simpl. rewrite (proj2 (findIndex_None _ _) Hc). reflexivity.
  - intros i Hi. simpl. rewrite Hi. split; [reflexivity|].
    destruct (findIndex_Some _ _ _ Hi) as (x & Hx & _).
    apply (lookup_setAt _ _ x). exact Hx.
  - intros Hc. simpl. rewrite (proj2 (findIndex_None _ _) Hc). reflexivity.
  - intros i Hi. simpl. rewrite Hi. split; [reflexivity|].
    destruct (findIndex_Some _ _ _ Hi) as (x & Hx & _).
    apply (lookup_setAt _ _ x). exact Hx.
  - intros Hc. simpl. rewrite (proj2 (findIndex_None _ _) Hc). split.
    + intros j Hj. rewrite Hj. reflexivity.
    + intros Hk. rewrite (proj2 (findIndex_None _ _) Hk). reflexivity.
Qed.

(** ** Rollback of a failed update *)

Lemma covered_back {V} (stored delta : option V) :
  covered stored delta = true ->
  assignedOpt (assignedOpt stored delta) stored = stored.
Proof. destruct stored, delta; simpl; intros; congruence. Qed.

Lemma assignTask_back id t u :
  taskDeltaReversible id t u = true ->
  assignTask (assignTask t u) (taskAsPartial t) = t.
Proof.
  unfold taskDeltaReversible. rewrite !andb_true_iff.
  intros [[[[_ H1] H2] H3] H4].
  destruct t; unfold assignTask; simpl in *.
  rewrite (covered_back _ _ H1), (covered_back _ _ H2),
          (covered_back _ _ H3), (covered_back _ _ H4).
  reflexivity.
Qed.

Lemma assignTask_id id t u :
  Task.id t = id -> taskDeltaReversible id t u = true ->
  Task.id (assignTask t u) = id.
Proof.
  unfold taskDeltaReversible. rewrite !andb_true_iff.
  intros Ht [[[[H _] _] _] _]. simpl. unfold keepsId in H.
  destruct (PartialTask.id u); simpl; [apply String.eqb_eq; exact H | exact Ht].
Qed.

Lemma assignResource_back id r u :
  resourceDeltaReversible id r u = true ->
  assignResource (assignResource r u) (resourceAsPartial r) = r.
Proof.
  unfold resourceDeltaReversible. rewrite !andb_true_iff.
  intros [[[[_ H1] H2] H3] H4].
  destruct r; unfold assignResource; simpl in *.
  rewrite (covered_back _ _ H1), (covered_back _ _ H2),
          (covered_back _ _ H3), (covered_back _ _ H4).
  reflexivity.
Qed.

Lemma assignResource_id id r u :
  Resource.id r = id -> resourceDeltaReversible id r u = true ->
  Resource.id (assignResource r u) = id.
Proof.
  unfold resourceDeltaReversible. rewrite !andb_true_iff.
  intros Hr [[[[H _] _] _] _]. simpl. unfold keepsId in H.
  destruct (PartialResource.id u); simpl; [apply String.eqb_eq; exact H | exact Hr].
Qed.

Lemma upToDate_recompute s : upToDate s -> recompute s = s.
Proof. destruct s. unfold upToDate, recompute. simpl. intros <-. reflexivity. Qed.

Lemma updateTask_then_restore id u s :
  (forall t, find (taskHasId id) (tasks s) = Some t ->
             taskDeltaReversible id t u = true) ->
  let s1 := updateTask id u s in
  let s2 := match find (taskHasId id) (tasks s) with
            | Some original => updateTask id (taskAsPartial original) s1
            | None => s1
            end in
  tasks s2 = tasks s /\ resources s2 = resources s /\ allocations s2 = allocations s
  /\ error s2 = error s /\ (upToDate s -> s2 = s).
Proof.
  intros Hrev. destruct s as [pr ts rs als twd er pl sid]. simpl in *.
  rewrite find_findIndex in *. unfold updateTask. simpl.
  destruct (findIndex (taskHasId id) ts) as [i|] eqn:Hi; simpl in *.
  2:{ repeat split. }
  destruct (findIndex_Some _ _ _ Hi) as (x & Hx & Hp).
  rewrite Hx in *. simpl.
  specialize (Hrev x eq_refl).
  assert (Hid : taskHasId id (assignTask x u) = true).
  { unfold taskHasId. apply String.eqb_eq.
    apply assignTask_id; [apply String.eqb_eq; exact Hp | exact Hrev]. }
  rewrite (findIndex_setAt_same _ _ _ _ Hi Hid).
  rewrite (lookup_setAt _ _ _ _ Hx). simpl.
  rewrite (assignTask_back _ _ _ Hrev), setAt_setAt, (setAt_lookup _ _ _ Hx).
  repeat split. unfold upToDate. simpl. intros ->. reflexivity.
Qed.

Lemma updateResource_then_restore id u s :
  (forall r, find (resourceHasId id) (resources s) = Some r ->
             resourceDeltaReversible id r u = true) ->
  let s1 := updateResource id u s in
  let s2 := match find (resourceHasId id) (resources s) with
            | Some original => updateResource id (resourceAsPartial original) s1
            | None => s1
            end in
  tasks s2 = tasks s /\ resources s2 = resources s /\ allocations s2 = allocations s
  /\ error s2 = error s /\ (upToDate s -> s2 = s).
Proof.
  intros Hrev. destruct s as [pr ts rs als twd er pl sid]. simpl in *.
  rewrite find_findIndex in *. unfold updateResource. simpl.
  destruct (findIndex (resourceHasId id) rs) as [i|] eqn:Hi; simpl in *.
  2:{ repeat split. }
  destruct (findIndex_Some _ _ _ Hi) as (x & Hx & Hp).
  rewrite Hx in *. simpl.
  specialize (Hrev x eq_refl).
  assert (Hid : resourceHasId id (assignResource x u) = true).
  { unfold resourceHasId. apply String.eqb_eq.
    apply assignResource_id; [apply String.eqb_eq; exact Hp | exact Hrev]. }
  rewrite (findIndex_setAt_same _ _ _ _ Hi Hid).
  rewrite (lookup_setAt _ _ _ _ Hx). simpl.
  rewrite (assignResource_back _ _ _ Hrev), setAt_setAt, (setAt_lookup _ _ _ Hx).
  repeat split. unfold upToDate. simpl. intros ->. reflexivity.
Qed.

(** The rollback of [updateTaskAsync] and [updateResourceAsync], taken
    alone: when the remote call fails and the delta neither changes the
    record's identifier nor sets an optional property that the stored
    record lacks, the three collections are what they were when the action
    was called (same records, same order, same identifiers) and the error
    message is set. *)
Lemma rollback_restores_the_store_of_the_call :
  (forall id updates thrown s original s1,
      updateTaskAsync_begin id updates s = Some (original, s1) ->
      (forall t, find (taskHasId id) (tasks s) = Some t ->
                 taskDeltaReversible id t updates = true) ->
      let s2 := updateTaskAsync_rejected id original thrown s1 in
      tasks s2 = tasks s /\ resources s2 = resources s
      /\ allocations s2 = allocations s
      /\ error s2 = Some (errorMessage thrown "Fehler beim Aktualisieren")
      /\ (upToDate s ->
          s2 = setError (Some (errorMessage thrown "Fehler beim Aktualisieren")) s))
  /\
  (forall id updates thrown s original s1,
      updateResourceAsync_begin id updates s = Some (original, s1) ->
      (forall r, find (resourceHasId id) (resources s) = Some r ->
                 resourceDeltaReversible id r updates = true) ->
      let s2 := updateResourceAsync_rejected id original thrown s1 in
      tasks s2 = tasks s /\ resources s2 = resources s
      /\ allocations s2 = allocations s
      /\ error s2 = Some (errorMessage thrown "Fehler beim Aktualisieren")
      /\ (upToDate s ->
          s2 = setError (Some (errorMessage thrown "Fehler beim Aktualisieren")) s)).
Proof.
  split.
  - intros id updates thrown s original s1 Hb Hrev s2. subst s2.
    unfold updateTaskAsync_begin in Hb.
    destruct (isTemp id); [discriminate|]. injection Hb as <- <-.
    destruct (updateTask_then_restore id updates s Hrev) as (H1 & H2 & H3 & H4 & H5).
    unfold updateTaskAsync_rejected.
    destruct (find (taskHasId id) (tasks s)); simpl in *;
      (split; [exact H1|]; split; [exact H2|]; split; [exact H3|];
       split; [reflexivity|]; intros Hu; rewrite (H5 Hu); reflexivity).
  - intros id updates thrown s original s1 Hb Hrev s2. subst s2.
    unfold updateResourceAsync_begin in Hb.
    destruct (isTemp id); [discriminate|]. injection Hb as <- <-.
    destruct (updateResource_then_restore id updates s Hrev)
      as (H1 & H2 & H3 & H4 & H5).
    unfold updateResourceAsync_rejected.
    destruct (find (resourceHasId id) (resources s)); simpl in *;
      (split; [exact H1|]; split; [exact H2|]; split; [exact H3|];
       split; [reflexivity|]; intros Hu; rewrite (H5 Hu); reflexivity).
Qed.

(** ** One allocation per (resource, date) *)

Section KeyCounting.
Implicit Types (l : list Allocation.t) (x y : Allocation.t).

Lemma hasKey_iff R D x :
  allocationHasKey R D x = true
  <-> Allocation.resource_id x = R /\ Allocation.date x = D.
Proof.
  unfold allocationHasKey. rewrite andb_true_iff, !String.eqb_eq. tauto.
Qed.

Lemma hasKey_own x :
  allocationHasKey (Allocation.resource_id x) (Allocation.date x) x = true.
Proof. apply hasKey_iff. auto. Qed.

Lemma hasKey_same x y R D :
  allocationHasKey (Allocation.resource_id x) (Allocation.date x) y = true ->
  allocationHasKey R D y = allocationHasKey R D x.
Proof.
  intros H. apply hasKey_iff in H. destruct H as [H1 H2].
  unfold allocationHasKey. rewrite H1, H2. reflexivity.
Qed.

Lemma uniqueKeys_setAt l i x y :
  l !! i = Some x ->
  allocationHasKey (Allocation.resource_id x) (Allocation.date x) y = true ->
  uniqueKeys l -> uniqueKeys (setAt i y l).
Proof.
  intros Hx Hk Hu R D. specialize (Hu R D).
  pose proof (count_setAt (allocationHasKey R D) l i x y Hx) as H.
  rewrite (hasKey_same x y R D Hk) in H. lia.
Qed.

Lemma count_filter_le {A} (p q : A -> bool) (l : list A) :
  (count p (List.filter q l) <= count p l)%nat.
Proof.
  induction l as [|a l IH]; simpl; [lia|].
  destruct (q a); rewrite ?count_cons; lia.
Qed.

Lemma uniqueKeys_filter q l : uniqueKeys l -> uniqueKeys (List.filter q l).
Proof.
  intros Hu R D. specialize (Hu R D).
  pose proof (count_filter_le (allocationHasKey R D) q l). lia.
Qed.

Lemma count_le_implied {A} (p q : A -> bool) (l : list A) :
  (forall z : A, p z = true -> q z = true) -> (count p l <= count q l)%nat.
Proof.
  intros H. induction l as [|a l IH]; [unfold count; simpl; lia|].
  rewrite !count_cons. specialize (H a).
  destruct (p a), (q a); simpl; try lia; discriminate (H eq_refl).
Qed.

Lemma uniqueKeys_push l y :
  count (allocationHasKey (Allocation.resource_id y) (Allocation.date y)) l = 0%nat ->
  uniqueKeys l -> uniqueKeys (push l y).
Proof.
  intros H0 Hu R D. specialize (Hu R D). rewrite count_push.
  destruct (allocationHasKey R D y) eqn:E; simpl; [|lia].
  apply hasKey_iff in E. destruct E as [<- <-]. lia.
Qed.
End KeyCounting.

Lemma keepsKey_preserves s op :
  keepsKey s op = true ->
  uniqueKeys (allocations s) -> uniqueKeys (allocations (applyOp s op)).
Proof.
  intros Hk Hu.
  destruct op as [env R D pct col | R D | R D saved | R thrown | ev]; simpl.
  - (* setAllocation *)
    destruct (findIndex (allocationHasKey R D) (allocations s)) as [i|] eqn:Hi.
    + destruct (findIndex_Some _ _ _ Hi) as (x & Hx & Hp). rewrite Hx.
      apply (uniqueKeys_setAt _ _ x);
        [exact Hx | apply hasKey_iff; split; reflexivity | exact Hu].
    + apply uniqueKeys_push; [|exact Hu]. simpl. apply findIndex_None. exact Hi.
  - (* removeAllocation *)
    apply uniqueKeys_filter. exact Hu.
  - (* setAllocationAsync resolved *)
    unfold setAllocationAsync_resolved. simpl in Hk.
    destruct (isTemp R); [exact Hu|]. simpl in Hk.
    destruct (findIndex (allocationHasKey R D) (allocations s)) as [i|] eqn:Hi;
      [|exact Hu].
    destruct (findIndex_Some _ _ _ Hi) as (x & Hx & Hp). simpl.
    apply (uniqueKeys_setAt _ _ x); [exact Hx | | exact Hu].
    apply hasKey_iff in Hp. destruct Hp as [-> ->]. exact Hk.
  - (* setAllocationAsync rejected *)
    unfold setAllocationAsync_rejected. destruct (isTemp R); exact Hu.
  - (* handleAllocationChange *)
    unfold keepsKey in Hk. set (r := record ev) in *.
    destruct (action ev).
    + (* create *)
      rewrite find_findIndex.
      destruct (findIndex (sameIdOrKey r) (allocations s)) as [i|] eqn:Hi; simpl.
      * destruct (findIndex_Some _ _ _ Hi) as (x & Hx & Hp). rewrite Hx.
        destruct (String.eqb (Allocation.id x) (Allocation.id r)) eqn:He; simpl;
          [exact Hu|].
        apply (uniqueKeys_setAt _ _ x); [exact Hx | | exact Hu].
        unfold sameIdOrKey, allocationHasId in Hp. rewrite He in Hp. simpl in Hp.
        apply hasKey_iff in Hp. destruct Hp as [-> ->]. apply hasKey_own.
      * apply uniqueKeys_push; [|exact Hu].
        apply findIndex_None in Hi.
        pose proof (count_le_implied
                      (allocationHasKey (Allocation.resource_id r) (Allocation.date r))
                      (sameIdOrKey r) (allocations s)) as Hle.
        assert (forall x,
                   allocationHasKey (Allocation.resource_id r) (Allocation.date r) x
                   = true -> sameIdOrKey r x = true) as Himp.
        { intros x Hx. unfold sameIdOrKey. rewrite Hx. apply orb_true_r. }
        specialize (Hle Himp). lia.
    + (* update *)
      destruct (findIndex (allocationHasId (Allocation.id r)) (allocations s))
        as [i|] eqn:Hi.
      * destruct (findIndex_Some _ _ _ Hi) as (x & Hx & Hp).
        assert (Hf : find (allocationHasId (Allocation.id r)) (allocations s) = Some x)
          by (rewrite find_findIndex, Hi; exact Hx).
        rewrite Hf in Hk.
        apply (uniqueKeys_setAt _ _ x); [exact Hx | exact Hk | exact Hu].
      * destruct (findIndex
                    (allocationHasKey (Allocation.resource_id r) (Allocation.date r))
                    (allocations s)) as [j|] eqn:Hj; [|exact Hu].
        destruct (findIndex_Some _ _ _ Hj) as (x & Hx & Hp).
        apply (uniqueKeys_setAt _ _ x); [exact Hx | | exact Hu].
        apply hasKey_iff in Hp. destruct Hp as [-> ->]. apply hasKey_own.
    + (* delete *)
      apply uniqueKeys_filter. exact Hu.
Qed.

(** C2, as stated, fails: an ['update'] event is matched by identifier
    first, so an event that carries a stored identifier with another
    (resource_id, date) puts a second allocation under that key. *)
Lemma update_event_can_duplicate_a_key :
  allocations
    (applyOps initialState
       [Realtime (mkEvent create aliceJan1);
        Realtime (mkEvent create aliceJan3);
        Realtime (mkEvent update aliceJan1Moved)])
  = [aliceJan1Moved; aliceJan3]
  /\ count (allocationHasKey "r1" "2024-01-03") [aliceJan1Moved; aliceJan3] = 2%nat.
Proof. split; reflexivity. Qed.

(** C2, amended.  Starting from allocations with pairwise distinct
    (resource_id, date), every sequence of [setAllocation],
    [removeAllocation], [setAllocationAsync] resolutions and realtime
    allocation events in which the server records keep the key
    ([keyConsistent]) leaves at most one allocation for every resource and
    date. *)
Theorem allocation_key_unique :
  forall ops s,
    uniqueKeys (allocations s) ->
    keyConsistent s ops = true ->
    forall R D,
      (count (allocationHasKey R D) (allocations (applyOps s ops)) <= 1)%nat.
Proof.
  induction ops as [|op ops IH]; intros s Hu Hk; simpl in *.
  - exact Hu.
  - apply andb_true_iff in Hk. destruct Hk as [H1 H2].
    apply IH; [|exact H2]. apply keepsKey_preserves; assumption.
Qed.

(** ** A confirmation that resolves after a repaint *)

Lemma setAllocation_occupies env R D pct col s :
  exists i a,
    findIndex (allocationHasKey R D) (allocations (setAllocation env R D pct col s))
    = Some i
    /\ allocations (setAllocation env R D pct col s) !! i = Some a
    /\ Allocation.percentage a = pct /\ Allocation.color_hex a = col.
Proof.
  unfold setAllocation. simpl.
  destruct (findIndex (allocationHasKey R D) (allocations s)) as [i|] eqn:Hi.
  - destruct (findIndex_Some _ _ _ Hi) as (x & Hx & Hp). rewrite Hx.
    exists i,
      (Allocation.mk (Allocation.id x) (Allocation.collectionId x)
         (Allocation.collectionName x) (Allocation.created x) (Allocation.updated x)
         (Allocation.resource_id x) (Allocation.date x) pct col).
    split; [|split; [apply (lookup_setAt _ _ x); exact Hx | split; reflexivity]].
    apply findIndex_setAt_same; [exact Hi | exact Hp].
  - exists (length (allocations s)),
      (Allocation.mk (tempAllocationId (dateNow env) (random36 env)) None None
         (Some (isoCreated env)) (Some (isoUpdated env)) R D pct col).
    split; [|split; [|split; reflexivity]].
    + apply findIndex_push; [apply findIndex_None; exact Hi|].
      apply hasKey_iff. split; reflexivity.
    + unfold push. apply list_lookup_middle. reflexivity.
Qed.

(** The success callback of [setAllocationAsync] leaves the derived view
    alone: it is the one collection-changing callback without a
    [computeTasksWithData] call. *)
Lemma resolved_keeps_derived_view R D saved s :
  tasksWithData (setAllocationAsync_resolved R D saved s) = tasksWithData s.
Proof.
  unfold setAllocationAsync_resolved.
  destruct (isTemp R); [reflexivity|].
  destruct (findIndex _ _); reflexivity.
Qed.

(** C10.  When [setAllocationAsync] resolves for a stored resource, the
    server record takes the place of whatever allocation holds the
    (resource_id, date) at that moment.  So after two paints of one cell,
    the first confirmation overwrites the repainted percentage and colour
    with its own record, and the second confirmation then overwrites that
    one. *)
Theorem late_confirmation_overwrites_repaint :
  (forall R D saved s i,
      isTemp R = false ->
      findIndex (allocationHasKey R D) (allocations s) = Some i ->
      allocations (setAllocationAsync_resolved R D saved s)
      = <[i:=saved]> (allocations s)
      /\ allocations (setAllocationAsync_resolved R D saved s) !! i = Some saved)
  /\
  (forall env1 env2 R D p1 c1 p2 c2 saved1 saved2 s,
      isTemp R = false ->
      allocationHasKey R D saved1 = true ->
      let painted := setAllocationAsync_begin env1 R D p1 c1 s in
      let repainted := setAllocationAsync_begin env2 R D p2 c2 painted in
      let confirmed1 := setAllocationAsync_resolved R D saved1 repainted in
      let confirmed2 := setAllocationAsync_resolved R D saved2 confirmed1 in
      exists i a,
        findIndex (allocationHasKey R D) (allocations repainted) = Some i
        /\ allocations repainted !! i = Some a
        /\ Allocation.percentage a = p2 /\ Allocation.color_hex a = c2
        /\ allocations confirmed1 !! i = Some saved1
        /\ allocations confirmed2 !! i = Some saved2).
Proof.
  assert (Hone : forall R D saved s i,
             isTemp R = false ->
             findIndex (allocationHasKey R D) (allocations s) = Some i ->
             allocations (setAllocationAsync_resolved R D saved s)
             = <[i:=saved]> (allocations s)
             /\ allocations (setAllocationAsync_resolved R D saved s) !! i
                = Some saved).
  { intros R D saved s i Ht Hi. unfold setAllocationAsync_resolved.
    rewrite Ht, Hi. simpl. split; [reflexivity|].
    destruct (findIndex_Some _ _ _ Hi) as (x & Hx & _).
    apply (lookup_setAt _ _ x). exact Hx. }
  split; [exact Hone|].
  intros env1 env2 R D p1 c1 p2 c2 saved1 saved2 s Ht Hk
         painted repainted confirmed1 confirmed2.
  destruct (setAllocation_occupies env2 R D p2 c2 painted) as (i & a & Hi & Ha & Hp & Hc).
  exists i, a. fold repainted in Hi, Ha.
  destruct (Hone R D saved1 repainted i Ht Hi) as [E1 L1]. fold confirmed1 in E1, L1.
  assert (Hi1 : findIndex (allocationHasKey R D) (allocations confirmed1) = Some i).
  { rewrite E1. apply (findIndex_setAt_same _ _ _ _ Hi Hk). }
  destruct (Hone R D saved2 confirmed1 i Ht Hi1) as [E2 L2].
  repeat split; assumption.
Qed.

(** ** Presence staleness *)

(** C9, as stated, fails: [getOtherUsers] returns a record that is
    31 seconds stale, both when it sits in the list between two heartbeat
    ticks and when a realtime ['update'] event has just delivered it. *)
Lemma stale_presence_is_still_returned :
  isStale epochOnly 31000 stalePresence
  /\ getOtherUsers (watchingStore [stalePresence]) = [stalePresence]
  /\ getOtherUsers
       (handlePresenceChange (mkEvent update stalePresence) (watchingStore []))
     = [stalePresence].
Proof.
  split; [|split; reflexivity].
  exists 0. split; [reflexivity | lia].
Qed.

(** C9, amended.  The staleness filter runs only in the heartbeat tick and
    only while a project is loaded: after a tick at time [now] every listed
    record was seen less than 30 seconds before [now], so a record that is
    stale at the tick is not returned by [getOtherUsers] afterwards.
    [getOtherUsers] itself only leaves out the own session, and the
    ['update'] branch of [handlePresenceChange] stores the event's record
    whatever its age. *)
Theorem heartbeat_drops_stale_presence :
  forall (getTime : string -> option Z) (now : Z) (s : ProjectState) (p : Presence.t),
    (project s <> None ->
     (In p (presenceList (heartbeatTick getTime now s)) ->
      exists lastSeen, getTime (Presence.last_seen p) = Some lastSeen
                       /\ now - 30000 < lastSeen)
     /\ (isStale getTime now p ->
         ~ In p (getOtherUsers (heartbeatTick getTime now s))))
    /\ (In p (getOtherUsers s)
        <-> In p (presenceList s) /\ Presence.session_id p <> sessionId s)
    /\ (Presence.session_id p <> sessionId s ->
        In p (presenceList (handlePresenceChange (mkEvent update p) s))).
Proof.
  intros getTime now s p. split; [|split].
  - intros Hproj.
    assert (Hfresh : In p (presenceList (heartbeatTick getTime now s)) ->
                     exists lastSeen, getTime (Presence.last_seen p) = Some lastSeen
                                      /\ now - 30000 < lastSeen).
    { unfold heartbeatTick. destruct (project s); [|congruence]. simpl.
      rewrite filter_In. unfold isFresh. intros [_ H].
      destruct (getTime (Presence.last_seen p)) as [seen|]; [|discriminate].
      exists seen. split; [reflexivity|]. lia. }
    split; [exact Hfresh|].
    intros (seen & Hseen & Hlt) Hin. unfold getOtherUsers in Hin.
    apply filter_In in Hin. destruct Hin as [Hin _].
    destruct (Hfresh Hin) as (seen' & Hseen' & Hgt). rewrite Hseen in Hseen'.
    injection Hseen' as <-. lia.
  - unfold getOtherUsers. rewrite filter_In. unfold presenceHasSession.
    rewrite negb_true_iff, String.eqb_neq. tauto.
  - intros Hne. unfold handlePresenceChange. simpl.
    rewrite (proj2 (String.eqb_neq _ _) Hne). simpl.
    destruct (findIndex _ (presenceList s)) as [i|] eqn:Hi.
    + destruct (findIndex_Some _ _ _ Hi) as (x & Hx & _).
      apply list_elem_of_In. apply list_elem_of_lookup. exists i.
      apply (lookup_setAt _ _ x). exact Hx.
    + unfold push. apply in_or_app. right. left. reflexivity.
Qed.

(** ** The pending queues of the reconciler *)

Section PendingQueues.
Import Reconciler.

Lemma has_add ids x y : has ({[x]} ∪ ids) y = true <-> y = x \/ has ids y = true.
Proof. unfold has. rewrite !bool_decide_eq_true. set_solver. Qed.

Lemma has_list ids y : has (list_to_set ids) y = true <-> In y ids.
Proof.
  unfold has. rewrite bool_decide_eq_true, elem_of_list_to_set.
  apply list_elem_of_In.
Qed.

Lemma retryResources_fold l st :
  let st' := fold_left retryResource l st in
  taskIds st' = taskIds st
  /\ pendingResources st' = pendingResources st
  /\ pendingAllocations st' = pendingAllocations st
  /\ timers st' = timers st
  /\ delivered st'
     = delivered st ++ List.map onResourceChange (List.filter (knownTask (taskIds st)) l).
Proof.
  revert st. induction l as [|e l IH]; intros st; simpl.
  - rewrite app_nil_r. repeat split.
  - destruct (IH (retryResource st e)) as (H1 & H2 & H3 & H4 & H5).
    unfold retryResource in *. unfold knownTask at 1.
    destruct (has (taskIds st) (Resource.task_id (record e))) eqn:Hk.
    + rewrite H1, H2, H3, H4, H5.
      unfold trackResource. destruct (action e); simpl;
        rewrite <- app_assoc; repeat split.
    + rewrite H1, H2, H3, H4, H5. repeat split.
Qed.

Lemma processPendingResources_spec st :
  let st' := processPendingResources st in
  taskIds st' = taskIds st
  /\ pendingResources st' = []
  /\ pendingAllocations st' = pendingAllocations st
  /\ timers st' = timers st
  /\ delivered st'
     = delivered st
       ++ List.map onResourceChange
            (List.filter (knownTask (taskIds st)) (pendingResources st)).
Proof.
  unfold processPendingResources.
  exact (retryResources_fold (pendingResources st) (setPendingResources [] st)).
Qed.

Lemma retryAllocations_fold l st :
  let st' := fold_left retryAllocation l st in
  taskIds st' = taskIds st
  /\ resourceIds st' = resourceIds st
  /\ pendingResources st' = pendingResources st
  /\ pendingAllocations st' = pendingAllocations st
  /\ timers st' = timers st
  /\ delivered st'
     = delivered st
       ++ List.map onAllocationChange (List.filter (knownResource (resourceIds st)) l).
Proof.
  revert st. induction l as [|e l IH]; intros st; simpl.
  - rewrite app_nil_r. repeat split.
  - destruct (IH (retryAllocation st e)) as (H1 & H2 & H3 & H4 & H5 & H6).
    unfold retryAllocation in *. unfold knownResource at 1.
    destruct (has (resourceIds st) (Allocation.resource_id (record e))) eqn:Hk.
    + rewrite H1, H2, H3, H4, H5, H6. simpl.
      rewrite <- app_assoc. repeat split.
    + rewrite H1, H2, H3, H4, H5, H6. repeat split.
Qed.

Lemma processPendingAllocations_spec st :
  let st' := processPendingAllocations st in
  taskIds st' = taskIds st
  /\ resourceIds st' = resourceIds st
  /\ pendingResources st' = pendingResources st
  /\ pendingAllocations st' = []
  /\ timers st' = timers st
  /\ delivered st'
     = delivered st
       ++ List.map onAllocationChange
            (List.filter (knownResource (resourceIds st)) (pendingAllocations st)).
Proof.
  unfold processPendingAllocations.
  exact (retryAllocations_fold (pendingAllocations st) (setPendingAllocations [] st)).
Qed.

Lemma flushed_resource_delivered st e :
  In e (pendingResources st) -> knownTask (taskIds st) e = true ->
  In (onResourceChange e) (delivered (processPendingResources st)).
Proof.
  intros Hin Hk.
  destruct (processPendingResources_spec st) as (_ & _ & _ & _ & ->).
  apply in_or_app. right. apply in_map. apply filter_In. auto.
Qed.

Lemma flushed_resource_dropped st e :
  knownTask (taskIds st) e = false ->
  ~ In (onResourceChange e) (delivered st) ->
  ~ In (onResourceChange e) (delivered (processPendingResources st)).
Proof.
  intros Hk Hn.
  destruct (processPendingResources_spec st) as (_ & _ & _ & _ & ->).
  intros H. apply in_app_or in H. destruct H as [H|H]; [exact (Hn H)|].
  apply in_map_iff in H. destruct H as (e' & He & Hin).
  injection He as ->. apply filter_In in Hin. destruct Hin as [_ Hin]. congruence.
Qed.

Lemma flushed_allocation_delivered st e :
  In e (pendingAllocations st) -> knownResource (resourceIds st) e = true ->
  In (onAllocationChange e) (delivered (processPendingAllocations st)).
Proof.
  intros Hin Hk.
  destruct (processPendingAllocations_spec st) as (_ & _ & _ & _ & _ & ->).
  apply in_or_app. right. apply in_map. apply filter_In. auto.
Qed.

Lemma flushed_allocation_dropped st e :
  knownResource (resourceIds st) e = false ->
  ~ In (onAllocationChange e) (delivered st) ->
  ~ In (onAllocationChange e) (delivered (processPendingAllocations st)).
Proof.
  intros Hk Hn.
  destruct (processPendingAllocations_spec st) as (_ & _ & _ & _ & _ & ->).
  intros H. apply in_app_or in H. destruct H as [H|H]; [exact (Hn H)|].
  apply in_map_iff in H. destruct H as (e' & He & Hin).
  injection He as ->. apply filter_In in Hin. destruct Hin as [_ Hin]. congruence.
Qed.
End PendingQueues.

(** The subscription taken alone retries once: a queued resource event is
    discarded by the first flush that still finds its task unknown (the
    100 ms retry, or the ['create'] event of another task), so when the
    ['create'] event of its task, or [updateTaskIds] with its identifier,
    comes afterwards, nothing is handed to [onResourceChange]. *)
Lemma queued_resource_is_lost_after_a_flush :
  let queued := Reconciler.resourcesEvent lateResource (Reconciler.subscribe [] []) in
  Reconciler.pendingResources queued = [lateResource]
  /\ Reconciler.pendingResources (Reconciler.timerFires queued) = []
  /\ Reconciler.delivered
       (Reconciler.run "p1" (Reconciler.subscribe [] [])
          [Reconciler.ResourceEvent lateResource;
           Reconciler.TimerFires;
           Reconciler.TaskEvent owningTask])
     = [Reconciler.onTaskChange owningTask]
  /\ Reconciler.delivered
       (Reconciler.run "p1" (Reconciler.subscribe [] [])
          [Reconciler.ResourceEvent lateResource;
           Reconciler.TaskEvent otherTask;
           Reconciler.TaskEvent owningTask])
     = [Reconciler.onTaskChange otherTask; Reconciler.onTaskChange owningTask]
  /\ Reconciler.delivered
       (Reconciler.run "p1" (Reconciler.subscribe [] [])
          [Reconciler.ResourceEvent lateResource;
           Reconciler.TimerFires;
           Reconciler.UpdateTaskIds ["t2"]])
     = [].
Proof. vm_compute. repeat split. Qed.

(** The subscription taken alone, its callbacks recorded as a trace.  A
    resource ['create'] event whose task is unknown is appended to the
    pending queue, a retry is scheduled and nothing is delivered.  An event still in the queue is delivered to
    [onResourceChange] by the ['create'] event of its task and by
    [updateTaskIds] with its task identifier.  Every flush empties the
    queue, and an event whose task is unknown at that flush is discarded
    without being delivered.  The same holds for allocation ['create'] and
    ['update'] events, their resource, the ['create'] event of that
    resource and [updateResourceIds]. *)
Lemma pending_events_delivered_at_next_flush :
  forall (projectId : string) (st : Reconciler.t),
    (forall e : RecordSubscription Resource.t,
        (action e = create -> knownTask (Reconciler.taskIds st) e = false ->
         Reconciler.pendingResources (Reconciler.resourcesEvent e st)
         = Reconciler.pendingResources st ++ [e]
         /\ Reconciler.timers (Reconciler.resourcesEvent e st)
            = Reconciler.timers st ++ [Reconciler.retryResources]
         /\ Reconciler.delivered (Reconciler.resourcesEvent e st)
            = Reconciler.delivered st)
        /\ (In e (Reconciler.pendingResources st) ->
            (forall te : RecordSubscription Task.t,
                action te = create ->
                Task.project_id (record te) = projectId ->
                Task.id (record te) = Resource.task_id (record e) ->
                In (Reconciler.onResourceChange e)
                   (Reconciler.delivered (Reconciler.tasksEvent projectId te st)))
            /\ (forall ids, In (Resource.task_id (record e)) ids ->
                            In (Reconciler.onResourceChange e)
                               (Reconciler.delivered (Reconciler.updateTaskIds ids st))))
        /\ (knownTask (Reconciler.taskIds st) e = false ->
            ~ In (Reconciler.onResourceChange e) (Reconciler.delivered st) ->
            ~ In (Reconciler.onResourceChange e)
                 (Reconciler.delivered (Reconciler.processPendingResources st))))
    /\ Reconciler.pendingResources (Reconciler.processPendingResources st) = []
    /\ (forall e : RecordSubscription Allocation.t,
           (action e <> delete ->
            knownResource (Reconciler.resourceIds st) e = false ->
            Reconciler.pendingAllocations (Reconciler.allocationsEvent e st)
            = Reconciler.pendingAllocations st ++ [e]
            /\ Reconciler.timers (Reconciler.allocationsEvent e st)
               = Reconciler.timers st ++ [Reconciler.retryAllocations]
            /\ Reconciler.delivered (Reconciler.allocationsEvent e st)
               = Reconciler.delivered st)
           /\ (In e (Reconciler.pendingAllocations st) ->
               (forall re : RecordSubscription Resource.t,
                   action re = create ->
                   knownTask (Reconciler.taskIds st) re = true ->
                   Resource.id (record re) = Allocation.resource_id (record e) ->
                   In (Reconciler.onAllocationChange e)
                      (Reconciler.delivered (Reconciler.resourcesEvent re st)))
               /\ (forall ids, In (Allocation.resource_id (record e)) ids ->
                               In (Reconciler.onAllocationChange e)
                                  (Reconciler.delivered
                                     (Reconciler.updateResourceIds ids st))))
           /\ (knownResource (Reconciler.resourceIds st) e = false ->
               ~ In (Reconciler.onAllocationChange e) (Reconciler.delivered st) ->
               ~ In (Reconciler.onAllocationChange e)
                    (Reconciler.delivered (Reconciler.processPendingAllocations st))))
    /\ Reconciler.pendingAllocations (Reconciler.processPendingAllocations st) = [].
Proof.
  intros projectId st.
  split; [|split; [|split]].
  - intros e. split; [|split].
    + intros Ha Hk. unfold Reconciler.resourcesEvent. unfold knownTask in Hk.
      rewrite Hk, Ha. repeat split.
    + intros Hin. split.
      * intros te Hc Hp Hid. unfold Reconciler.tasksEvent.
        rewrite Hp, String.eqb_refl, Hc.
        apply flushed_resource_delivered; [exact Hin|].
        unfold knownTask. simpl. apply has_add. left. symmetry. exact Hid.
      * intros ids Hids. unfold Reconciler.updateTaskIds.
        apply flushed_resource_delivered; [exact Hin|].
        unfold knownTask. simpl. apply has_list. exact Hids.
    + apply flushed_resource_dropped.
  - apply (processPendingResources_spec st).
  - intros e. split; [|split].
    + intros Ha Hk. unfold Reconciler.allocationsEvent. unfold knownResource in Hk.
      rewrite Hk. destruct (action e); try congruence; repeat split.
    + intros Hin. split.
      * intros re Hc Hk Hid. unfold Reconciler.resourcesEvent.
        unfold knownTask in Hk. rewrite Hk, Hc.
        apply flushed_allocation_delivered; [exact Hin|].
        unfold knownResource. simpl. apply has_add. left. symmetry. exact Hid.
      * intros ids Hids. unfold Reconciler.updateResourceIds.
        apply flushed_allocation_delivered; [exact Hin|].
        unfold knownResource. simpl. apply has_list. exact Hids.
    + apply flushed_allocation_dropped.
  - apply (processPendingAllocations_spec st).
Qed.

(** ** Derived aggregation *)

(** The order of JavaScript's [<] on strings (dates are ASCII). *)
Lemma ltb_lt a b : String.ltb a b = true <-> String_as_OT.lt a b.
Proof.
  rewrite <- String_as_OT.cmp_lt. unfold String.ltb, String_as_OT.cmp.
  destruct (String.compare a b); split; congruence.
Qed.

Lemma ltb_irrefl a : String.ltb a a = false.
Proof.
  destruct (String.ltb a a) eqn:E; [|reflexivity].
  apply ltb_lt in E. exfalso. exact (String_as_OT.lt_not_eq _ _ E eq_refl).
Qed.

Lemma ltb_trans a b c :
  String.ltb a b = true -> String.ltb b c = true -> String.ltb a c = true.
Proof.
  rewrite !ltb_lt. apply String_as_OT.lt_trans.
Qed.

Section Aggregation.
Implicit Types (acc : Computed) (l : list Allocation.t).

Lemma aggregate_total l acc :
  totalEffort (fold_left aggregateAllocation l acc)
  = fold_left PrimFloat.add (List.map Allocation.percentage l) (totalEffort acc).
Proof.
  revert acc. induction l as [|a l IH]; intros acc; simpl; [reflexivity|].
  rewrite IH. reflexivity.
Qed.

Lemma aggregate_earliest l acc seen :
  Forall (fun a => Allocation.date a <> "") l ->
  truthy (startDate acc) -> isEarliest (startDate acc) seen ->
  isEarliest (startDate (fold_left aggregateAllocation l acc))
             (seen ++ List.map Allocation.date l).
Proof.
  revert acc seen. induction l as [|a l IH]; intros acc seen Hne Ht Hacc; simpl.
  - rewrite app_nil_r. exact Hacc.
  - inversion Hne as [|? ? Ha Hl]; subst.
    replace (seen ++ Allocation.date a :: List.map Allocation.date l)
      with ((seen ++ [Allocation.date a]) ++ List.map Allocation.date l)
      by (rewrite <- app_assoc; reflexivity).
    apply IH; [exact Hl | |]; simpl.
    + unfold truthy in *. destruct (takesEarlier _ _); [congruence | exact Ht].
    + unfold isEarliest, takesEarlier in *.
      destruct (startDate acc) as [e|].
      * destruct Hacc as [Hin Hmin].
        assert (He : String.eqb e "" = false).
        { apply String.eqb_neq. unfold truthy in Ht. congruence. }
        rewrite He. simpl.
        destruct (String.ltb (Allocation.date a) e) eqn:Hlt.
        -- split; [apply in_or_app; right; left; reflexivity|].
           intros d' Hd'. apply in_app_or in Hd'. destruct Hd' as [Hd'|[<-|[]]].
           ++ destruct (String.ltb d' (Allocation.date a)) eqn:E; [|reflexivity].
              rewrite <- (Hmin d' Hd'). symmetry. apply (ltb_trans _ _ _ E Hlt).
           ++ apply ltb_irrefl.
        -- split; [apply in_or_app; left; exact Hin|].
           intros d' Hd'. apply in_app_or in Hd'. destruct Hd' as [Hd'|[<-|[]]].
           ++ apply Hmin. exact Hd'.
           ++ exact Hlt.
      * subst seen. simpl. split; [left; reflexivity|].
        intros d' [<-|[]]. apply ltb_irrefl.
Qed.

Lemma aggregate_latest l acc seen :
  Forall (fun a => Allocation.date a <> "") l ->
  truthy (endDate acc) -> isLatest (endDate acc) seen ->
  isLatest (endDate (fold_left aggregateAllocation l acc))
           (seen ++ List.map Allocation.date l).
Proof.
  revert acc seen. induction l as [|a l IH]; intros acc seen Hne Ht Hacc; simpl.
  - rewrite app_nil_r. exact Hacc.
  - inversion Hne as [|? ? Ha Hl]; subst.
    replace (seen ++ Allocation.date a :: List.map Allocation.date l)
      with ((seen ++ [Allocation.date a]) ++ List.map Allocation.date l)
      by (rewrite <- app_assoc; reflexivity).
    apply IH; [exact Hl | |]; simpl.
    + unfold truthy in *. destruct (takesLater _ _); [congruence | exact Ht].
    + unfold isLatest, takesLater in *.
      destruct (endDate acc) as [e|].
      * destruct Hacc as [Hin Hmax].
        assert (He : String.eqb e "" = false).
        { apply String.eqb_neq. unfold truthy in Ht. congruence. }
        rewrite He. simpl.
        destruct (String.ltb e (Allocation.date a)) eqn:Hlt.
        -- split; [apply in_or_app; right; left; reflexivity|].
           intros d' Hd'. apply in_app_or in Hd'. destruct Hd' as [Hd'|[<-|[]]].
           ++ destruct (String.ltb (Allocation.date a) d') eqn:E; [|reflexivity].
              rewrite <- (Hmax d' Hd'). symmetry. apply (ltb_trans _ _ _ Hlt E).
           ++ apply ltb_irrefl.
        -- split; [apply in_or_app; left; exact Hin|].
           intros d' Hd'. apply in_app_or in Hd'. destruct Hd' as [Hd'|[<-|[]]].
           ++ apply Hmax. exact Hd'.
           ++ exact Hlt.
      * subst seen. simpl. split; [left; reflexivity|].
        intros d' [<-|[]]. apply ltb_irrefl.
Qed.

(** The two nested loops visit the concatenation of the resources'
    allocation arrays. *)
Lemma computeTaskAggregation_flat (rs : list ResourceWithAllocations.t) :
  computeTaskAggregation rs
  = fold_left aggregateAllocation
      (flat_map ResourceWithAllocations.allocations rs) noAggregation.
Proof.
  unfold computeTaskAggregation.
  destruct rs as [|r rs]; [reflexivity|].
  change ((length (r :: rs) =? 0)%nat) with false. cbv iota.
  generalize noAggregation. generalize (r :: rs). clear.
  intros l. induction l as [|x l IH]; intros acc; simpl; [reflexivity|].
  rewrite fold_left_app. apply IH.
Qed.

Lemma withAllocations_flat allocations (rs : list Resource.t) :
  flat_map ResourceWithAllocations.allocations
           (List.map (withAllocations allocations) rs)
  = flat_map (resourceAllocations allocations) rs.
Proof.
  induction rs as [|r rs IH]; simpl; [reflexivity|]. rewrite IH. reflexivity.
Qed.

Lemma computed_withAggregation resources allocations task :
  TaskWithAggregation.computed (withAggregation resources allocations task)
  = fold_left aggregateAllocation (taskAllocations resources allocations task)
              noAggregation.
Proof.
  unfold withAggregation. simpl.
  rewrite computeTaskAggregation_flat, withAllocations_flat. reflexivity.
Qed.
End Aggregation.

Lemma insertBySortOrder_perm x l : Permutation (x :: l) (insertBySortOrder x l).
Proof.
  induction l as [|y l IH]; simpl; [reflexivity|].
  destruct (_ <=? _); [reflexivity|].
  rewrite perm_swap. apply perm_skip. exact IH.
Qed.

Lemma sortBySortOrder_perm l : Permutation l (sortBySortOrder l).
Proof.
  induction l as [|x l IH]; simpl; [reflexivity|].
  rewrite <- insertBySortOrder_perm. apply perm_skip. exact IH.
Qed.

(** C8, as stated, fails: percentages are JavaScript numbers and need not
    be integral, and the additions are rounded.  For one resource with
    allocations of 0.1 %, 0.2 % and 0.3 % the reported [totalEffort]
    (0.6000000000000001) is not the exact sum of the three percentages, and
    the same three allocations stored in the opposite order give another
    [totalEffort] (0.6). *)
Lemma total_effort_is_not_the_exact_sum :
  let stored := [aliceTenth; aliceFifth; aliceThreeTenths] in
  let own := taskAllocations [alice] stored designTask in
  let c := TaskWithAggregation.computed (withAggregation [alice] stored designTask) in
  let c' := TaskWithAggregation.computed
              (withAggregation [alice] (rev stored) designTask) in
  own = stored
  /\ totalEffort c = 0x1.3333333333334p-1%float
  /\ exactUnits (totalEffort c) <> exactSum (List.map Allocation.percentage own)
  /\ totalEffort c' = 0x1.3333333333333p-1%float
  /\ totalEffort c' <> totalEffort c.
Proof.
  split; [reflexivity|]. split; [reflexivity|].
  split; [vm_compute; discriminate|]. split; [reflexivity|].
  vm_compute. discriminate.
Qed.

(** C8, amended.  [computeTasksWithData] yields one entry per task (the
    tasks, reordered by the sort).  The [totalEffort] of an entry is what
    adding the percentages of all allocations of all resources of its task
    to zero gives in binary64 arithmetic, resources in array order and each
    resource's allocations in array order; when the dates of those
    allocations are non-empty, as the schema requires, [startDate] and
    [endDate] are the least and the greatest of them ([null] when there is
    no allocation).  Two resources with 30% on 2024-01-01 and 50% on
    2024-01-03 give 2024-01-01, 2024-01-03 and 80; a task without
    resources gives [null], [null] and 0. *)
Theorem aggregation_is_earliest_latest_sum :
  (forall tasks resources allocations,
      (forall task, In task tasks ->
                    In (withAggregation resources allocations task)
                       (computeTasksWithData tasks resources allocations))
      /\ (forall tw, In tw (computeTasksWithData tasks resources allocations) ->
                     In (TaskWithAggregation.task tw) tasks
                     /\ tw = withAggregation resources allocations
                                             (TaskWithAggregation.task tw)))
  /\ (forall resources allocations task,
         let c := TaskWithAggregation.computed
                    (withAggregation resources allocations task) in
         let own := taskAllocations resources allocations task in
         totalEffort c = addInOrder (List.map Allocation.percentage own)
         /\ (Forall (fun a => Allocation.date a <> "") own ->
             isEarliest (startDate c) (List.map Allocation.date own)
             /\ isLatest (endDate c) (List.map Allocation.date own)))
  /\ List.map TaskWithAggregation.computed
       (computeTasksWithData [designTask] [alice; bob] [aliceJan1; bobJan3])
     = [{| startDate := Some "2024-01-01"; endDate := Some "2024-01-03";
           totalEffort := 80 |}]
  /\ (forall resources allocations task,
         taskResources resources task = [] ->
         TaskWithAggregation.computed (withAggregation resources allocations task)
         = {| startDate := None; endDate := None; totalEffort := 0 |}).
Proof.
  split; [|split; [|split]].
  - intros tasks resources allocations.
    pose proof (sortBySortOrder_perm
                  (List.map (withAggregation resources allocations) tasks)) as Hperm.
    split.
    + intros task Hin. unfold computeTasksWithData.
      apply (Permutation_in _ Hperm). apply in_map. exact Hin.
    + intros tw Hin. unfold computeTasksWithData in Hin.
      apply (Permutation_in _ (Permutation_sym Hperm)) in Hin.
      apply in_map_iff in Hin. destruct Hin as (task & <- & Hin).
      split; [exact Hin | reflexivity].
  - intros resources allocations task c own. subst c own.
    rewrite computed_withAggregation. split.
    + apply aggregate_total.
    + intros Hne. split.
      * apply (aggregate_earliest _ noAggregation [] Hne); [discriminate | reflexivity].
      * apply (aggregate_latest _ noAggregation [] Hne); [discriminate | reflexivity].
  - reflexivity.
  - intros resources allocations task Hnone. unfold withAggregation. rewrite Hnone.
    reflexivity.
Qed.

(** ** The derived view across the store actions *)

(** Every modelled action that changes a collection recomputes the derived
    view in the same update. *)
Lemma actions_recompute_derived_view :
  forall s,
    (forall task, upToDate (addTask task s))
    /\ (forall tid newTask, upToDate (createTaskAsync_resolved tid newTask s))
    /\ (forall id, upToDate (deleteTask id s))
    /\ (forall resource, upToDate (addResource resource s))
    /\ (forall tid newResource,
           upToDate (createResourceAsync_resolved tid newResource s))
    /\ (forall env R D pct col, upToDate (setAllocation env R D pct col s))
    /\ (forall R D, upToDate (removeAllocation R D s))
    /\ (forall ev, upToDate (handleAllocationChange ev s))
    /\ (forall ev, action ev <> create -> upToDate (handleTaskChange ev s))
    /\ (forall ev, action ev <> create -> upToDate (handleResourceChange ev s)).
Proof.
  intros s. repeat split; try reflexivity.
  - intros ev Ha. unfold handleTaskChange.
    destruct (action ev); [congruence | reflexivity | reflexivity].
  - intros ev Ha. unfold handleResourceChange.
    destruct (action ev); [congruence | reflexivity | reflexivity].
Qed.

(** The success callback of [setAllocationAsync] is the exception: after a
    paint at 30%, a repaint at 80% and the first confirmation, the
    collection holds 30% while the derived view still reports 80. *)
Lemma confirmation_leaves_derived_view_behind :
  let repainted :=
    setAllocation secondStroke "r1" "2024-01-01" 80%float "#216E39"
      (setAllocation firstStroke "r1" "2024-01-01" 30%float "#30A14E" paintingStore) in
  let confirmed := setAllocationAsync_resolved "r1" "2024-01-01" aliceJan1 repainted in
  allocations confirmed = [aliceJan1]
  /\ List.map (fun tw => totalEffort (TaskWithAggregation.computed tw))
              (tasksWithData confirmed) = [80%float]
  /\ List.map (fun tw => totalEffort (TaskWithAggregation.computed tw))
              (computeTasksWithData (tasks confirmed) (resources confirmed)
                                    (allocations confirmed)) = [30%float].
Proof. repeat split. Qed.

(** ** Instances

    Each theorem that has premises, applied to a concrete store. *)


Lemma allocation_key_unique_witness :
  (count (allocationHasKey "r1" "2024-01-01")
         (allocations (applyOps initialState sampleOps)) <= 1)%nat.
Proof.
  refine (allocation_key_unique sampleOps initialState _ eq_refl "r1" "2024-01-01").
  intros R D. vm_compute. lia.
Defined.

Lemma smallStore_noOrphans : noOrphans smallStore.
Proof.
  split.
  - intros r [<-|[]]. exists designTask. split; [left|]; reflexivity.
  - intros a [<-|[]]. exists alice. split; [left|]; reflexivity.
Qed.

Lemma delete_task_cascades_witness :
  noOrphans (deleteTask "t1" smallStore)
  /\ handleTaskChange (mkEvent delete designTask) smallStore = deleteTask "t1" smallStore.
Proof.
  pose proof (delete_task_cascades "t1" smallStore) as (_ & _ & _ & _ & Ho & He).
  split; [exact (Ho smallStore_noOrphans) | exact (He designTask eq_refl)].
Defined.

Lemma pending_events_delivered_at_next_flush_witness :
  let queued := Reconciler.resourcesEvent lateResource (Reconciler.subscribe [] []) in
  In (Reconciler.onResourceChange lateResource)
     (Reconciler.delivered (Reconciler.tasksEvent "p1" owningTask queued)).
Proof.
  refine (proj1 (proj1 (proj2 (proj1
            (pending_events_delivered_at_next_flush "p1"
               (Reconciler.resourcesEvent lateResource (Reconciler.subscribe [] [])))
            lateResource)) _) owningTask eq_refl eq_refl eq_refl).
  left. reflexivity.
Defined.

Lemma update_event_overwrites_or_ignores_witness :
  tasks (handleTaskChange (mkEvent update renamedTask) smallStore) = [renamedTask].
Proof.
  refine (proj1 (proj1 (update_event_overwrites_or_ignores renamedTask alice aliceJan1
                          smallStore) 0%nat eq_refl)).
Defined.

Lemma aggregation_is_earliest_latest_sum_witness :
  isEarliest (Some "2024-01-01") ["2024-01-01"; "2024-01-03"]
  /\ isLatest (Some "2024-01-03") ["2024-01-01"; "2024-01-03"].
Proof.
  refine (proj2 (proj1 (proj2 aggregation_is_earliest_latest_sum)
                   [alice; bob] [aliceJan1; bobJan3] designTask) _).
  repeat constructor; discriminate.
Defined.

Lemma heartbeat_drops_stale_presence_witness :
  ~ In stalePresence (getOtherUsers (heartbeatTick epochOnly 31000 watchingOpenProject)).
Proof.
  refine (proj2 (proj1 (heartbeat_drops_stale_presence epochOnly 31000
                          watchingOpenProject stalePresence) _) _).
  - discriminate.
  - exists 0. split; [reflexivity | lia].
Defined.

Lemma late_confirmation_overwrites_repaint_witness :
  exists i a,
    allocations
      (setAllocationAsync_begin secondStroke "r1" "2024-01-01" 80%float "#216E39"
         (setAllocationAsync_begin firstStroke "r1" "2024-01-01" 30%float "#30A14E"
            paintingStore)) !! i = Some a
    /\ Allocation.percentage a = 80%float
    /\ allocations
         (setAllocationAsync_resolved "r1" "2024-01-01" aliceJan1
            (setAllocationAsync_begin secondStroke "r1" "2024-01-01" 80%float "#216E39"
               (setAllocationAsync_begin firstStroke "r1" "2024-01-01" 30%float "#30A14E"
                  paintingStore))) !! i = Some aliceJan1.
Proof.
  destruct (proj2 late_confirmation_overwrites_repaint firstStroke secondStroke
              "r1" "2024-01-01" 30%float "#30A14E" 80%float "#216E39" aliceJan1 confirmedRepaint
              paintingStore eq_refl eq_refl)
    as (i & a & _ & Ha & Hp & _ & H1 & _).
  exists i, a. split; [exact Ha|]. split; [exact Hp | exact H1].
Defined.

(** * Further properties of the store: failed remote calls *)

Section FilterFacts.
Context {A : Type}.
Implicit Types (p q : A -> bool) (l : list A) (x : A).

Lemma filter_none p l :
  count p l = 0%nat -> List.filter (fun x => negb (p x)) l = l.
Proof.
  induction l as [|a l IH]; simpl; [reflexivity|].
  rewrite count_cons. destruct (p a); simpl; [lia|].
  intros H. f_equal. apply IH. exact H.
Qed.

Lemma filter_push p l x :
  List.filter p (push l x) = List.filter p l ++ (if p x then [x] else []).
Proof. unfold push. rewrite List.filter_app. simpl. destruct (p x); reflexivity. Qed.

Lemma filter_drops_pushed p l x :
  p x = true -> count p l = 0%nat ->
  List.filter (fun y => negb (p y)) (push l x) = l.
Proof.
  intros Hx H0. rewrite filter_push, Hx. simpl.
  rewrite app_nil_r. apply filter_none. exact H0.
Qed.

Lemma filter_split_perm p l :
  Permutation (List.filter (fun x => negb (p x)) l ++ List.filter p l) l.
Proof.
  induction l as [|a l IH]; simpl; [constructor|].
  destruct (p a); simpl.
  - symmetry. apply Permutation_cons_app. symmetry. exact IH.
  - constructor. exact IH.
Qed.

Lemma filter_single p l x :
  count p l = 1%nat -> find p l = Some x -> List.filter p l = [x].
Proof.
  induction l as [|a l IH]; simpl; [discriminate|].
  rewrite count_cons. destruct (p a) eqn:Ha; simpl.
  - intros Hc [= ->]. f_equal.
    assert (H0 : count p l = 0%nat) by lia.
    unfold count in H0. destruct (List.filter p l); [reflexivity|discriminate].
  - intros Hc Hf. apply IH; assumption.
Qed.

Lemma find_at_most_one p l x :
  (count p l <= 1)%nat -> find p l = Some x -> List.filter p l = [x].
Proof.
  intros Hle Hf. apply filter_single; [|exact Hf].
  destruct (count p l) as [|[|n]] eqn:Hc; [|reflexivity|lia].
  apply find_None in Hc. congruence.
Qed.

Lemma find_push p l x :
  find p (push l x) = match find p l with Some y => Some y | None => find p [x] end.
Proof.
  unfold push. induction l as [|a l IH]; simpl; [reflexivity|].
  destruct (p a); [reflexivity|exact IH].
Qed.

Lemma find_filter_implied p q l :
  (forall x, p x = true -> q x = true) -> find p (List.filter q l) = find p l.
Proof.
  intros H. induction l as [|a l IH]; simpl; [reflexivity|].
  destruct (q a) eqn:Hq; simpl.
  - destruct (p a); [reflexivity|exact IH].
  - destruct (p a) eqn:Hp; [|exact IH]. rewrite (H a Hp) in Hq. discriminate.
Qed.

Lemma find_setAt_other p l i x y :
  l !! i = Some x -> p x = false -> p y = false -> find p (setAt i y l) = find p l.
Proof.
  unfold setAt. revert i. induction l as [|a l IH]; intros [|i]; simpl; try discriminate.
  - intros [= ->] Hx Hy. rewrite Hx, Hy. reflexivity.
  - intros Hl Hx Hy. destruct (p a); [reflexivity|]. apply (IH i); assumption.
Qed.

Lemma find_setAt_first p l i y :
  findIndex p l = Some i -> p y = true -> find p (setAt i y l) = Some y.
Proof.
  unfold setAt. revert i. induction l as [|a l IH]; intros i; simpl; [discriminate|].
  destruct (p a) eqn:Ha.
  - intros [= <-] Hy. simpl. rewrite Hy. reflexivity.
  - destruct (findIndex p l) as [j|] eqn:Hj; simpl; [|discriminate].
    intros [= <-] Hy. simpl. rewrite Ha. apply IH; [reflexivity|exact Hy].
Qed.
End FilterFacts.

Lemma upToDate_setError e s : upToDate (setError e (recompute s)).
Proof. reflexivity. Qed.

(** X1.  A create whose remote call fails leaves no trace but the error: if no
    stored record had the temporary identifier, the collections are what
    they were before [createTaskAsync] (resp. [createResourceAsync]) was
    called, and a store whose derived view was up to date is, apart from
    the error message, the store before the call. *)
Theorem failed_create_leaves_only_the_error :
  forall env thrown s,
    (forall projectId displayId name,
        count (taskHasId (tempId (dateNow env))) (tasks s) = 0%nat ->
        let s' :=
          createTaskAsync_rejected (tempId (dateNow env)) thrown
            (createTaskAsync_begin env projectId displayId name s) in
        tasks s' = tasks s /\ resources s' = resources s
        /\ allocations s' = allocations s /\ upToDate s'
        /\ error s' = Some (errorMessage thrown "Fehler beim Erstellen")
        /\ (upToDate s ->
            s' = setError (Some (errorMessage thrown "Fehler beim Erstellen")) s))
    /\ (forall taskId name,
           count (resourceHasId (tempId (dateNow env))) (resources s) = 0%nat ->
           let s' :=
             createResourceAsync_rejected (tempId (dateNow env)) thrown
               (createResourceAsync_begin env taskId name s) in
           tasks s' = tasks s /\ resources s' = resources s
           /\ allocations s' = allocations s /\ upToDate s'
           /\ error s' = Some (errorMessage thrown "Fehler beim Erstellen")
           /\ (upToDate s ->
               s' = setError (Some (errorMessage thrown "Fehler beim Erstellen")) s)).
Proof.
  intros env thrown s. split.
  - intros projectId displayId name H0 s'.
    assert (Ht : tasks s' = tasks s).
    { subst s'. unfold createTaskAsync_rejected, createTaskAsync_begin, addTask. simpl.
      apply filter_drops_pushed; [|exact H0].
      unfold taskHasId, tempTask. simpl. apply String.eqb_refl. }
    split; [exact Ht|]. split; [reflexivity|]. split; [reflexivity|].
    split; [reflexivity|]. split; [reflexivity|].
    intros Hu. destruct s as [pr ts rs als twd er pl sid].
    unfold upToDate in Hu. simpl in *. subst twd.
    subst s'. unfold createTaskAsync_rejected, setError, recompute, setTasks in *.
    simpl in *. rewrite Ht. reflexivity.
  - intros taskId name H0 s'.
    assert (Hr : resources s' = resources s).
    { subst s'. unfold createResourceAsync_rejected, createResourceAsync_begin,
        addResource. simpl.
      apply filter_drops_pushed; [|exact H0].
      unfold resourceHasId, tempResource. simpl. apply String.eqb_refl. }
    split; [reflexivity|]. split; [exact Hr|]. split; [reflexivity|].
    split; [reflexivity|]. split; [reflexivity|].
    intros Hu. destruct s as [pr ts rs als twd er pl sid].
    unfold upToDate in Hu. simpl in *. subst twd.
    subst s'. unfold createResourceAsync_rejected, setError, recompute, setResources in *.
    simpl in *. rewrite Hr. reflexivity.
Qed.

Lemma failed_create_leaves_only_the_error_witness :
  createTaskAsync_rejected (tempId (dateNow firstStroke)) None
    (createTaskAsync_begin firstStroke "p1" "2" "Build" smallStore)
  = setError (Some "Fehler beim Erstellen") smallStore.
Proof.
  refine (proj2 (proj2 (proj2 (proj2 (proj2
            (proj1 (failed_create_leaves_only_the_error firstStroke None smallStore)
                   "p1" "2" "Build" _))))) _); reflexivity.
Defined.

(** X2.  The rollback of a failed create removes every record that has the
    temporary identifier.  The identifier is [temp_] followed by the
    millisecond clock, so of two tasks created within the same millisecond
    both share it, and the failure of either create removes both. *)
Theorem failed_create_removes_same_millisecond_sibling :
  forall first second thrown s p1 d1 n1 p2 d2 n2,
    dateNow first = dateNow second ->
    count (taskHasId (tempId (dateNow first))) (tasks s) = 0%nat ->
    tasks (createTaskAsync_rejected (tempId (dateNow first)) thrown
             (createTaskAsync_begin second p2 d2 n2
                (createTaskAsync_begin first p1 d1 n1 s)))
    = tasks s.
Proof.
  intros first second thrown s p1 d1 n1 p2 d2 n2 Hnow H0.
  unfold createTaskAsync_rejected, createTaskAsync_begin, addTask. cbn [tasks setError recompute setTasks].
  rewrite filter_push.
  replace (taskHasId (tempId (dateNow first)) _) with true
    by (unfold taskHasId, tempTask; cbn [Task.id]; rewrite Hnow; symmetry; apply String.eqb_refl).
  cbn [negb]. rewrite app_nil_r.
  apply filter_drops_pushed; [|exact H0].
  unfold taskHasId, tempTask. cbn [Task.id]. apply String.eqb_refl.
Qed.

Lemma failed_create_removes_same_millisecond_sibling_witness :
  tasks (createTaskAsync_rejected (tempId (dateNow firstStroke)) None
           (createTaskAsync_begin firstStroke "p1" "3" "Test"
              (createTaskAsync_begin firstStroke "p1" "2" "Build" smallStore)))
  = [designTask].
Proof.
  apply (failed_create_removes_same_millisecond_sibling
           firstStroke firstStroke None smallStore); reflexivity.
Defined.

(** ** Deleting a resource *)

Lemma resources_deleteResource id s r :
  In r (resources (deleteResource id s)) <-> In r (resources s) /\ Resource.id r <> id.
Proof.
  unfold deleteResource. simpl. rewrite List.filter_In. unfold resourceHasId.
  rewrite Bool.negb_true_iff, String.eqb_neq. reflexivity.
Qed.

Lemma allocations_deleteResource id s a :
  In a (allocations (deleteResource id s))
  <-> In a (allocations s) /\ Allocation.resource_id a <> id.
Proof.
  unfold deleteResource. simpl. rewrite List.filter_In.
  rewrite Bool.negb_true_iff, String.eqb_neq. reflexivity.
Qed.

(** X3.  [deleteResource id], and the realtime ['delete'] event for the same
    resource, are one state update: exactly the resources with that
    identifier and the allocations of that resource are gone, the tasks are
    untouched, the derived view is recomputed, and a store without orphans
    stays without orphans. *)
Theorem delete_resource_cascades :
  forall id s,
    let s' := deleteResource id s in
    (forall r, In r (resources s') <-> In r (resources s) /\ Resource.id r <> id)
    /\ (forall a, In a (allocations s')
                  <-> In a (allocations s) /\ Allocation.resource_id a <> id)
    /\ tasks s' = tasks s
    /\ upToDate s'
    /\ (noOrphans s -> noOrphans s')
    /\ (forall record, Resource.id record = id ->
                       handleResourceChange (mkEvent delete record) s = s').
Proof.
  intros id s s'. subst s'.
  split; [intros r; apply resources_deleteResource|].
  split; [intros a; apply allocations_deleteResource|].
  split; [reflexivity|]. split; [reflexivity|]. split.
  - intros [Hr Ha]. split.
    + intros r Hin. apply resources_deleteResource in Hin. destruct Hin as [Hin _].
      exact (Hr r Hin).
    + intros a Hin. apply allocations_deleteResource in Hin. destruct Hin as [Hin Hn].
      destruct (Ha a Hin) as (r & Hrin & He). exists r. split; [|exact He].
      apply resources_deleteResource. split; [exact Hrin | congruence].
  - intros record <-. reflexivity.
Qed.

Lemma delete_resource_cascades_witness :
  noOrphans (deleteResource "r1" smallStore)
  /\ handleResourceChange (mkEvent delete alice) smallStore = deleteResource "r1" smallStore.
Proof.
  pose proof (delete_resource_cascades "r1" smallStore) as (_ & _ & _ & _ & Ho & He).
  split; [exact (Ho smallStore_noOrphans) | exact (He alice eq_refl)].
Defined.

(** ** Failed deletes *)

Lemma resources_of_task_split id (l : list Resource.t) :
  Permutation
    (List.filter (fun r => negb (String.eqb (Resource.task_id r) id)) l
     ++ List.filter (fun r => String.eqb (Resource.task_id r) id) l) l.
Proof. apply (filter_split_perm (fun r => String.eqb (Resource.task_id r) id)). Qed.

(** X4.  A task delete whose remote call fails is undone: when the task was
    stored once under a non-temporary identifier, the rollback puts back
    the task, its resources and their allocations, so that each collection
    holds the records it held before [deleteTaskAsync] was called (the
    restored ones now at the end), the derived view is recomputed and the
    error message is set.  When no task had the identifier, the rollback
    does nothing: the resources and allocations that the optimistic cascade
    removed stay removed and no error message is set. *)
Theorem failed_task_delete_restores :
  forall id thrown s saved s1,
    isTemp id = false ->
    deleteTaskAsync_begin id s = (Some saved, s1) ->
    let s' := deleteTaskAsync_rejected saved thrown s1 in
    (count (taskHasId id) (tasks s) = 1%nat ->
     Permutation (tasks s') (tasks s)
     /\ Permutation (resources s') (resources s)
     /\ Permutation (allocations s') (allocations s)
     /\ upToDate s'
     /\ error s' = Some (errorMessage thrown "Fehler beim Löschen"))
    /\ (count (taskHasId id) (tasks s) = 0%nat -> s' = deleteTask id s).
Proof.
  intros id thrown s saved s1 Htemp Hb s'.
  unfold deleteTaskAsync_begin in Hb. rewrite Htemp in Hb.
  injection Hb as <- <-. subst s'. unfold deleteTaskAsync_rejected.
  cbn [originalTask originalResources originalAllocations].
  split.
  - intros H1.
    destruct (find (taskHasId id) (tasks s)) as [task|] eqn:Hf;
      [|apply find_None in Hf; lia].
    split; [|split; [|split; [|split]]]; try reflexivity.
    + cbn. unfold push. rewrite <- (filter_single _ _ _ H1 Hf).
      apply filter_split_perm.
    + cbn. apply resources_of_task_split.
    + cbn.
      apply (filter_split_perm
               (fun a => includes
                           (List.map Resource.id
                              (List.filter (fun r => String.eqb (Resource.task_id r) id)
                                           (resources s)))
                           (Allocation.resource_id a))).
  - intros H0. apply find_None in H0. rewrite H0. reflexivity.
Qed.

Lemma failed_task_delete_restores_witness :
  exists saved s1,
    deleteTaskAsync_begin "t1" smallStore = (Some saved, s1)
    /\ Permutation (allocations (deleteTaskAsync_rejected saved None s1))
                   (allocations smallStore).
Proof.
  eexists. eexists. split; [reflexivity|].
  refine (proj1 (proj2 (proj2
            (proj1 (failed_task_delete_restores "t1" None smallStore _ _
                      eq_refl eq_refl) _)))).
  reflexivity.
Defined.

(** X5.  The same for [deleteResourceAsync]: after a failed remote delete of a
    resource that was stored once, resources and allocations hold the
    records they held before the call, the tasks were never touched, the
    derived view is recomputed and the error message is set; when no
    resource had the identifier, the allocations that referred to it stay
    removed and no error message is set. *)
Theorem failed_resource_delete_restores :
  forall id thrown s saved s1,
    isTemp id = false ->
    deleteResourceAsync_begin id s = (Some saved, s1) ->
    let s' := deleteResourceAsync_rejected saved thrown s1 in
    (count (resourceHasId id) (resources s) = 1%nat ->
     tasks s' = tasks s
     /\ Permutation (resources s') (resources s)
     /\ Permutation (allocations s') (allocations s)
     /\ upToDate s'
     /\ error s' = Some (errorMessage thrown "Fehler beim Löschen"))
    /\ (count (resourceHasId id) (resources s) = 0%nat -> s' = deleteResource id s).
Proof.
  intros id thrown s saved s1 Htemp Hb s'.
  unfold deleteResourceAsync_begin in Hb. rewrite Htemp in Hb.
  injection Hb as <- <-. subst s'. unfold deleteResourceAsync_rejected.
  cbn [originalResource resourceAllocationsSaved].
  split.
  - intros H1.
    destruct (find (resourceHasId id) (resources s)) as [resource|] eqn:Hf;
      [|apply find_None in Hf; lia].
    split; [|split; [|split; [|split]]]; try reflexivity.
    + cbn. unfold push. rewrite <- (filter_single _ _ _ H1 Hf).
      apply filter_split_perm.
    + cbn. apply (filter_split_perm (fun a => String.eqb (Allocation.resource_id a) id)).
  - intros H0. apply find_None in H0. rewrite H0. reflexivity.
Qed.

Lemma failed_resource_delete_restores_witness :
  exists saved s1,
    deleteResourceAsync_begin "r1" smallStore = (Some saved, s1)
    /\ Permutation (resources (deleteResourceAsync_rejected saved None s1))
                   (resources smallStore).
Proof.
  eexists. eexists. split; [reflexivity|].
  refine (proj1 (proj2
            (proj1 (failed_resource_delete_restores "r1" None smallStore _ _
                      eq_refl eq_refl) _))).
  reflexivity.
Defined.

(** X6.  An erase whose remote delete fails is neither rolled back nor
    reported.  [api.deleteAllocationByKey] answers [false] instead of
    rejecting, so the [catch] block of [removeAllocationAsync] is not
    reached: whatever the two remote calls do, the store is left as
    [removeAllocation] left it, with no allocation under the key, the
    error message untouched and the derived view recomputed. *)
Theorem failed_erase_is_not_rolled_back :
  forall R D lookup deletion s,
    let s' := removeAllocationAsync R D lookup deletion s in
    s' = removeAllocation R D s
    /\ find (allocationHasKey R D) (allocations s') = None
    /\ error s' = error s
    /\ upToDate s'.
Proof.
  intros R D lookup deletion s s'.
  assert (H : s' = removeAllocation R D s).
  { subst s'. unfold removeAllocationAsync, removeAllocationAsync_begin.
    destruct (isTemp R); [reflexivity|].
    destruct lookup as [found|thrown]; [destruct deletion|]; reflexivity. }
  rewrite H. split; [reflexivity|]. split; [|split; reflexivity].
  apply find_None. apply count_filter_false.
Qed.

(** * The derived view *)

Lemma buildAllocationMap_push l a :
  buildAllocationMap (l ++ [a]) = <[Allocation.date a := a]> (buildAllocationMap l).
Proof. unfold buildAllocationMap. rewrite fold_left_app. reflexivity. Qed.

Lemma buildAllocationMap_lookup l d :
  buildAllocationMap l !! d
  = find (fun a => String.eqb (Allocation.date a) d) (rev l).
Proof.
  induction l as [|a l IH] using rev_ind; [reflexivity|].
  rewrite buildAllocationMap_push, rev_unit. simpl.
  destruct (String.eqb (Allocation.date a) d) eqn:E.
  - apply String.eqb_eq in E. subst d. apply lookup_insert_eq.
  - apply String.eqb_neq in E. rewrite lookup_insert_ne by exact E. exact IH.
Qed.

Lemma find_In {A} (p : A -> bool) (l : list A) (x : A) :
  find p l = Some x -> In x l.
Proof.
  induction l as [|a l IH]; simpl; [discriminate|].
  destruct (p a); [intros [= ->]; left; reflexivity | intros H; right; exact (IH H)].
Qed.

(** X7.  [buildAllocationMap]: the map holds, under every date, the last
    allocation of the array that has this date (a later [Map.set]
    overwrites an earlier one); so every entry is an allocation of the
    array, filed under its own date, and the date of every allocation of
    the array has an entry. *)
Theorem allocation_map_last_write_wins :
  forall l,
    (forall d, buildAllocationMap l !! d
               = find (fun a => String.eqb (Allocation.date a) d) (rev l))
    /\ (forall d a, buildAllocationMap l !! d = Some a ->
                    In a l /\ Allocation.date a = d)
    /\ (forall a, In a l ->
                  exists b, buildAllocationMap l !! Allocation.date a = Some b).
Proof.
  intros l. split; [intros d; apply buildAllocationMap_lookup|]. split.
  - intros d a. rewrite buildAllocationMap_lookup. intros H. split.
    + apply in_rev. exact (find_In _ _ _ H).
    + apply find_Some in H. apply String.eqb_eq. exact H.
  - intros a Hin. rewrite buildAllocationMap_lookup.
    destruct (find _ (rev l)) as [b|] eqn:Hf; [exists b; reflexivity|].
    apply find_None in Hf. exfalso.
    assert (H : (0 < count (fun x => String.eqb (Allocation.date x) (Allocation.date a))
                           (rev l))%nat).
    { apply in_rev in Hin. apply In_nth_error in Hin. destruct Hin as [i Hi].
      apply (count_lookup _ _ i a); [|apply String.eqb_refl].
      rewrite <- Hi. clear. revert i.
      induction (rev l) as [|y r IH]; intros [|i]; simpl; try reflexivity. apply IH. }
    lia.
Qed.

Lemma allocation_map_last_write_wins_witness :
  exists b, buildAllocationMap [aliceJan1; aliceJan3] !! "2024-01-01" = Some b.
Proof.
  refine (proj2 (proj2 (allocation_map_last_write_wins [aliceJan1; aliceJan3]))
                aliceJan1 _).
  left. reflexivity.
Defined.

Lemma insertBySortOrder_sorted x l :
  StronglySorted (fun a b => sortOrderOf a <= sortOrderOf b) l ->
  StronglySorted (fun a b => sortOrderOf a <= sortOrderOf b) (insertBySortOrder x l).
Proof.
  induction 1 as [|y r Hs IH Hall]; simpl; [repeat constructor|].
  fold (sortOrderOf x) (sortOrderOf y).
  destruct (Z.leb_spec (sortOrderOf x) (sortOrderOf y)) as [Hle|Hlt].
  - constructor; [constructor; assumption|].
    constructor; [exact Hle|].
    eapply Forall_impl; [exact Hall|]. simpl. intros z Hz. lia.
  - constructor; [exact IH|].
    eapply Permutation_Forall; [apply insertBySortOrder_perm|].
    constructor; [simpl; lia | exact Hall].
Qed.

Lemma sortBySortOrder_sorted l :
  StronglySorted (fun a b => sortOrderOf a <= sortOrderOf b) (sortBySortOrder l).
Proof.
  induction l as [|x l IH]; simpl; [constructor|].
  apply insertBySortOrder_sorted. exact IH.
Qed.

Lemma insertBySortOrder_filter k x l :
  List.filter (fun tw => sortOrderOf tw =? k) (insertBySortOrder x l)
  = List.filter (fun tw => sortOrderOf tw =? k) (x :: l).
Proof.
  induction l as [|y r IH]; [reflexivity|].
  cbn [insertBySortOrder]. fold (sortOrderOf x) (sortOrderOf y).
  destruct (Z.leb_spec (sortOrderOf x) (sortOrderOf y)) as [Hle|Hlt]; [reflexivity|].
  cbn [List.filter]. rewrite IH. cbn [List.filter].
  destruct (Z.eqb_spec (sortOrderOf y) k), (Z.eqb_spec (sortOrderOf x) k);
    try reflexivity; lia.
Qed.

Lemma sortBySortOrder_filter k l :
  List.filter (fun tw => sortOrderOf tw =? k) (sortBySortOrder l)
  = List.filter (fun tw => sortOrderOf tw =? k) l.
Proof.
  induction l as [|x l IH]; [reflexivity|].
  cbn [sortBySortOrder fold_right]. rewrite insertBySortOrder_filter.
  cbn [List.filter]. fold (sortBySortOrder l). rewrite IH. reflexivity.
Qed.

Lemma task_withAggregation rs als ts :
  List.map TaskWithAggregation.task (List.map (withAggregation rs als) ts) = ts.
Proof. induction ts as [|t ts IH]; simpl; [reflexivity|]. rewrite IH. reflexivity. Qed.

Lemma filter_map_comm {A B} (f : A -> B) (p : B -> bool) (l : list A) :
  List.filter p (List.map f l) = List.map f (List.filter (fun x => p (f x)) l).
Proof.
  induction l as [|a l IH]; simpl; [reflexivity|].
  destruct (p (f a)); simpl; rewrite IH; reflexivity.
Qed.

(** X8.  The derived view lists the tasks by ascending [sort_order]; it has one
    entry per task, tasks with the same [sort_order] stay in the order of
    the tasks array (the sort is stable), and every entry is the
    aggregation of its own task. *)
Theorem derived_view_sorted_and_stable :
  forall ts rs als,
    let view := computeTasksWithData ts rs als in
    StronglySorted (fun a b => sortOrderOf a <= sortOrderOf b) view
    /\ Permutation (List.map TaskWithAggregation.task view) ts
    /\ (forall k,
           List.filter (fun t => Task.sort_order t =? k)
                       (List.map TaskWithAggregation.task view)
           = List.filter (fun t => Task.sort_order t =? k) ts)
    /\ (forall tw, In tw view -> tw = withAggregation rs als (TaskWithAggregation.task tw)).
Proof.
  intros ts rs als view. subst view. unfold computeTasksWithData.
  split; [apply sortBySortOrder_sorted|].
  split.
  - rewrite <- (task_withAggregation rs als ts) at 2.
    apply Permutation_map. symmetry. apply sortBySortOrder_perm.
  - split.
    + intros k. rewrite filter_map_comm.
      change (fun x => Task.sort_order (TaskWithAggregation.task x) =? k)
        with (fun x => sortOrderOf x =? k).
      rewrite sortBySortOrder_filter. unfold sortOrderOf.
      rewrite <- (filter_map_comm TaskWithAggregation.task
                    (fun t => Task.sort_order t =? k)).
      rewrite task_withAggregation. reflexivity.
    + intros tw Hin.
      apply (Permutation_in _ (Permutation_sym (sortBySortOrder_perm _))) in Hin.
      apply in_map_iff in Hin. destruct Hin as (t & <- & _). reflexivity.
Qed.

Lemma derived_view_sorted_and_stable_witness :
  withAggregation [alice] [aliceJan1] designTask
  = withAggregation [alice] [aliceJan1]
      (TaskWithAggregation.task (withAggregation [alice] [aliceJan1] designTask)).
Proof.
  refine (proj2 (proj2 (proj2
            (derived_view_sorted_and_stable [designTask] [alice] [aliceJan1])))
            (withAggregation [alice] [aliceJan1] designTask) _).
  left. reflexivity.
Defined.

Section CellFacts.
Context {A : Type}.
Implicit Types (p q : A -> bool) (l : list A).

Lemma find_head_filter p l : find p l = head (List.filter p l).
Proof.
  induction l as [|a l IH]; simpl; [reflexivity|].
  destruct (p a); [reflexivity|exact IH].
Qed.

Lemma filter_rev_comm p l : List.filter p (rev l) = rev (List.filter p l).
Proof.
  induction l as [|a l IH]; simpl; [reflexivity|].
  rewrite List.filter_app, IH. simpl. destruct (p a); simpl; [reflexivity|].
  apply app_nil_r.
Qed.

Lemma filter_filter_and p q l :
  List.filter p (List.filter q l) = List.filter (fun x => q x && p x) l.
Proof.
  induction l as [|a l IH]; simpl; [reflexivity|].
  destruct (q a); simpl; [|exact IH]. destruct (p a); rewrite IH; reflexivity.
Qed.

Lemma find_rev_at_most_one p l :
  (count p l <= 1)%nat -> find p (rev l) = find p l.
Proof.
  intros Hle. destruct (find p l) as [x|] eqn:Hf.
  - rewrite find_head_filter, filter_rev_comm, (find_at_most_one _ _ _ Hle Hf).
    reflexivity.
  - apply find_None in Hf. rewrite find_head_filter, filter_rev_comm.
    unfold count in Hf. destruct (List.filter p l); [reflexivity|discriminate].
Qed.
End CellFacts.

(** What the grid shows in the cell of resource [r] and date [d]: the map
    entry is the last stored allocation with this key, the first one when
    the key is stored once. *)
Lemma cell_of_view als r d :
  ResourceWithAllocations.allocationMap (withAllocations als r) !! d
  = find (allocationHasKey (Resource.id r) d) (rev als).
Proof.
  unfold withAllocations. cbn [ResourceWithAllocations.allocationMap].
  rewrite buildAllocationMap_lookup. unfold resourceAllocations.
  rewrite !find_head_filter, <- filter_rev_comm, filter_filter_and. reflexivity.
Qed.

Lemma view_has_cell ts rs als t r :
  In t ts -> In r rs -> Resource.task_id r = Task.id t ->
  exists tw rw,
    In tw (computeTasksWithData ts rs als)
    /\ TaskWithAggregation.task tw = t
    /\ In rw (TaskWithAggregation.resources tw)
    /\ rw = withAllocations als r.
Proof.
  intros Ht Hr He. exists (withAggregation rs als t), (withAllocations als r).
  split; [|split; [reflexivity|split; [|reflexivity]]].
  - unfold computeTasksWithData.
    apply (Permutation_in _ (sortBySortOrder_perm _)). apply in_map. exact Ht.
  - cbn. apply in_map. unfold taskResources. apply List.filter_In.
    split; [exact Hr|]. apply String.eqb_eq. exact He.
Qed.

(** X9.  Painting a cell shows in the derived view: when every key is stored at
    most once, after [setAllocation] the allocation map of the resource, in
    the entry of its task, holds under the painted date an allocation with
    the painted percentage and colour; and after [removeAllocation] no
    allocation map of that resource has an entry under the date. *)
Theorem painted_cell_shows_in_view :
  forall env D pct col s t r,
    uniqueKeys (allocations s) ->
    In t (tasks s) -> In r (resources s) -> Resource.task_id r = Task.id t ->
    (exists tw rw a,
        In tw (tasksWithData (setAllocation env (Resource.id r) D pct col s))
        /\ TaskWithAggregation.task tw = t
        /\ In rw (TaskWithAggregation.resources tw)
        /\ ResourceWithAllocations.resource rw = r
        /\ ResourceWithAllocations.allocationMap rw !! D = Some a
        /\ Allocation.percentage a = pct /\ Allocation.color_hex a = col)
    /\ (forall tw rw,
           In tw (tasksWithData (removeAllocation (Resource.id r) D s)) ->
           In rw (TaskWithAggregation.resources tw) ->
           Resource.id (ResourceWithAllocations.resource rw) = Resource.id r ->
           ResourceWithAllocations.allocationMap rw !! D = None).
Proof.
  intros env D pct col s t r Hu Ht Hr He. split.
  - set (s' := setAllocation env (Resource.id r) D pct col s).
    destruct (setAllocation_occupies env (Resource.id r) D pct col s)
      as (i & a & Hi & Ha & Hp & Hc).
    fold s' in Hi, Ha.
    assert (Hu' : uniqueKeys (allocations s')).
    { apply (keepsKey_preserves s (Paint env (Resource.id r) D pct col));
        [reflexivity|exact Hu]. }
    destruct (view_has_cell (tasks s') (resources s') (allocations s') t r Ht Hr He)
      as (tw & rw & Htw & Htask & Hrw & ->).
    exists tw, (withAllocations (allocations s') r), a.
    split; [exact Htw|]. split; [exact Htask|]. split; [exact Hrw|].
    split; [reflexivity|]. split; [|split; assumption].
    rewrite cell_of_view, (find_rev_at_most_one _ _ (Hu' _ _)).
    rewrite find_findIndex, Hi. exact Ha.
  - intros tw rw Htw Hrw Hid.
    unfold removeAllocation in Htw. cbn in Htw.
    set (als' := List.filter _ (allocations s)) in Htw.
    unfold computeTasksWithData in Htw.
    apply (Permutation_in _ (Permutation_sym (sortBySortOrder_perm _))) in Htw.
    apply in_map_iff in Htw. destruct Htw as (t0 & <- & _).
    cbn in Hrw. apply in_map_iff in Hrw. destruct Hrw as (r0 & <- & _).
    cbn in Hid. rewrite cell_of_view, Hid.
    rewrite find_head_filter, filter_rev_comm.
    pose proof (count_filter_false (allocationHasKey (Resource.id r) D) (allocations s))
      as H0.
    fold als' in H0. unfold count in H0.
    destruct (List.filter _ als'); [reflexivity|discriminate].
Qed.

Lemma painted_cell_shows_in_view_witness :
  exists tw rw a,
    In tw (tasksWithData (setAllocation firstStroke "r1" "2024-01-02" 75%float "#216E39"
                                        smallStore))
    /\ TaskWithAggregation.task tw = designTask
    /\ In rw (TaskWithAggregation.resources tw)
    /\ ResourceWithAllocations.resource rw = alice
    /\ ResourceWithAllocations.allocationMap rw !! "2024-01-02" = Some a
    /\ Allocation.percentage a = 75%float /\ Allocation.color_hex a = "#216E39".
Proof.
  refine (proj1 (painted_cell_shows_in_view firstStroke "2024-01-02" 75%float "#216E39"
                   smallStore designTask alice _ _ _ eq_refl)).
  - intros R D. unfold count. simpl.
    destruct (allocationHasKey R D aliceJan1); simpl; lia.
  - left. reflexivity.
  - left. reflexivity.
Defined.

(** * Invariants of the store *)

Ltac by_cases_of_the_action :=
  repeat match goal with
         | |- context [match ?x with _ => _ end] => destruct x eqn:?
         end;
  try reflexivity.

Lemma upToDate_updateTask id u s : upToDate s -> upToDate (updateTask id u s).
Proof. intros H. unfold updateTask. by_cases_of_the_action; exact H. Qed.

Lemma upToDate_updateResource id u s : upToDate s -> upToDate (updateResource id u s).
Proof. intros H. unfold updateResource. by_cases_of_the_action; exact H. Qed.

Lemma upToDate_step getTime s op :
  isConfirmation op = false -> upToDate s -> upToDate (applyStoreOp getTime s op).
Proof.
  intros Hc H. destruct op; try discriminate Hc; cbn [applyStoreOp];
    try reflexivity.
  - apply upToDate_updateTask, H.
  - unfold updateTaskAsync_rejected. destruct original; [|exact H].
    apply (upToDate_updateTask id _ s H).
  - unfold deleteTaskAsync_rejected. destruct (originalTask saved); [reflexivity|exact H].
  - apply upToDate_updateResource, H.
  - unfold updateResourceAsync_rejected. destruct original; [|exact H].
    apply (upToDate_updateResource id _ s H).
  - unfold deleteResourceAsync_rejected.
    destruct (originalResource saved); [reflexivity|exact H].
  - unfold setAllocationAsync_rejected. destruct (isTemp resourceId); exact H.
  - unfold removeAllocationAsync_settled.
    destruct outcome; [exact H|]. destruct original; [reflexivity|exact H].
  - unfold handleTaskChange. by_cases_of_the_action; exact H.
  - unfold handleResourceChange. by_cases_of_the_action; exact H.
  - unfold handlePresenceChange. by_cases_of_the_action; exact H.
  - unfold heartbeatTick. by_cases_of_the_action; exact H.
  - exact H.
Qed.

(** X10.  The derived view agrees with the three collections after every run of
    store actions, failed remote calls, realtime events and heartbeats that
    starts from a store where it does, as long as the run contains no
    confirmation of [setAllocationAsync] (the one callback that writes a
    collection without recomputing the view). *)
Theorem derived_view_stays_up_to_date :
  forall getTime ops s,
    upToDate s ->
    forallb (fun op => negb (isConfirmation op)) ops = true ->
    upToDate (runStore getTime s ops).
Proof.
  intros getTime ops. unfold runStore.
  induction ops as [|op ops IH]; intros s H Hall; [exact H|].
  cbn [forallb] in Hall. apply andb_prop in Hall. destruct Hall as [Hop Hall].
  cbn [fold_left]. apply IH; [|exact Hall].
  apply upToDate_step; [|exact H]. destruct (isConfirmation op); [discriminate|reflexivity].
Qed.

Lemma derived_view_stays_up_to_date_witness :
  upToDate (runStore epochOnly smallStore editingSession).
Proof.
  apply derived_view_stays_up_to_date; reflexivity.
Defined.

(** ** Presence *)

Lemma sessionId_step getTime s op :
  sessionId (applyStoreOp getTime s op) = sessionId s.
Proof.
  destruct op; cbn [applyStoreOp]; try reflexivity.
  - unfold updateTask. by_cases_of_the_action.
  - unfold updateTaskAsync_rejected, updateTask. by_cases_of_the_action.
  - unfold deleteTaskAsync_rejected. by_cases_of_the_action.
  - unfold updateResource. by_cases_of_the_action.
  - unfold updateResourceAsync_rejected, updateResource. by_cases_of_the_action.
  - unfold deleteResourceAsync_rejected. by_cases_of_the_action.
  - unfold setAllocationAsync_resolved. by_cases_of_the_action.
  - unfold setAllocationAsync_rejected. by_cases_of_the_action.
  - unfold removeAllocationAsync_settled. by_cases_of_the_action.
  - unfold handleTaskChange. by_cases_of_the_action.
  - unfold handleResourceChange. by_cases_of_the_action.
  - unfold handlePresenceChange. by_cases_of_the_action.
  - unfold heartbeatTick. by_cases_of_the_action.
Qed.

Lemma presenceList_step getTime s op :
  match op with
  | OpPresenceEvent _ | OpHeartbeat _ | OpStopPresence => True
  | _ => presenceList (applyStoreOp getTime s op) = presenceList s
  end.
Proof.
  destruct op; cbn [applyStoreOp]; try exact I; try reflexivity.
  - unfold updateTask. by_cases_of_the_action.
  - unfold updateTaskAsync_rejected, updateTask. by_cases_of_the_action.
  - unfold deleteTaskAsync_rejected. by_cases_of_the_action.
  - unfold updateResource. by_cases_of_the_action.
  - unfold updateResourceAsync_rejected, updateResource. by_cases_of_the_action.
  - unfold deleteResourceAsync_rejected. by_cases_of_the_action.
  - unfold setAllocationAsync_resolved. by_cases_of_the_action.
  - unfold setAllocationAsync_rejected. by_cases_of_the_action.
  - unfold removeAllocationAsync_settled. by_cases_of_the_action.
  - unfold handleTaskChange. by_cases_of_the_action.
  - unfold handleResourceChange. by_cases_of_the_action.
Qed.

Lemma count_filter_zero {A} (p q : A -> bool) (l : list A) :
  count p l = 0%nat -> count p (List.filter q l) = 0%nat.
Proof. intros H. pose proof (count_filter_le p q l). lia. Qed.

Lemma presenceHasSession_iff sid p :
  presenceHasSession sid p = true <-> Presence.session_id p = sid.
Proof. unfold presenceHasSession. apply String.eqb_eq. Qed.

Lemma presenceHasSession_same sid x r :
  Presence.session_id x = Presence.session_id r ->
  presenceHasSession sid x = presenceHasSession sid r.
Proof. unfold presenceHasSession. intros ->. reflexivity. Qed.

(** What [handlePresenceChange] does to the number of records of a
    session, for an event of another session than the own. *)
Lemma presence_event_counts sid ev s :
  String.eqb (Presence.session_id (record ev)) (sessionId s) = false ->
  let before := count (presenceHasSession sid) (presenceList s) in
  let after := count (presenceHasSession sid) (presenceList (handlePresenceChange ev s)) in
  (after <= before)%nat
  \/ (before = 0 /\ after = 1 /\ sid = Presence.session_id (record ev))%nat.
Proof.
  intros Hother before after. subst before after.
  unfold handlePresenceChange. rewrite Hother. cbn [presenceList setPresenceList].
  set (r := record ev).
  destruct (action ev).
  - destruct (find _ _) eqn:Hf; [left; lia|].
    apply find_None in Hf. rewrite count_push.
    destruct (presenceHasSession sid r) eqn:Hr; cbn [indicator]; [|left; lia].
    apply presenceHasSession_iff in Hr. subst sid. right. repeat split; lia.
  - destruct (findIndex _ _) as [i|] eqn:Hi.
    + destruct (findIndex_Some _ _ _ Hi) as (x & Hx & Hp).
      apply presenceHasSession_iff in Hp.
      pose proof (count_setAt (presenceHasSession sid) _ _ _ r Hx) as Hc.
      rewrite (presenceHasSession_same sid x r Hp) in Hc. left. lia.
    + apply findIndex_None in Hi. rewrite count_push.
      destruct (presenceHasSession sid r) eqn:Hr; cbn [indicator]; [|left; lia].
      apply presenceHasSession_iff in Hr. subst sid.
      right. repeat split; lia.
  - left. apply count_filter_le.
Qed.

Lemma ownSessionAbsent_step getTime s op :
  ownSessionAbsent s -> ownSessionAbsent (applyStoreOp getTime s op).
Proof.
  unfold ownSessionAbsent. intros H. rewrite sessionId_step.
  pose proof (presenceList_step getTime s op) as Hp.
  destruct op; try (rewrite Hp; exact H); clear Hp; cbn [applyStoreOp].
  - destruct (String.eqb (Presence.session_id (record event)) (sessionId s)) eqn:He.
    + unfold handlePresenceChange. rewrite He. exact H.
    + pose proof (presence_event_counts (sessionId s) event s He) as [Hle|(_ & _ & Hs)];
        [cbv zeta in Hle; lia|].
      rewrite Hs, String.eqb_refl in He. discriminate.
  - unfold heartbeatTick. destruct (project s); [|exact H].
    apply count_filter_zero. exact H.
  - reflexivity.
Qed.

Lemma sessionsDistinct_step getTime s op :
  sessionsDistinct (presenceList s) ->
  sessionsDistinct (presenceList (applyStoreOp getTime s op)).
Proof.
  intros H. pose proof (presenceList_step getTime s op) as Hp.
  destruct op; try (rewrite Hp; exact H); clear Hp; cbn [applyStoreOp].
  - destruct (String.eqb (Presence.session_id (record event)) (sessionId s)) eqn:He.
    + unfold handlePresenceChange. rewrite He. exact H.
    + intros sid. specialize (H sid).
      pose proof (presence_event_counts sid event s He) as [Hle|(H0 & H1 & _)];
        cbv zeta in *; lia.
  - unfold heartbeatTick. destruct (project s); [|exact H].
    intros sid. specialize (H sid). cbn [presenceList setPresenceList].
    pose proof (count_filter_le (presenceHasSession sid) (isFresh getTime now)
                  (presenceList s)). lia.
  - intros sid. unfold count. cbn. lia.
Qed.

(** X11.  The own session is never in the presence list: [startPresence] filters
    it out of the fetched list, [handlePresenceChange] ignores its events,
    and no other action adds a record; so after every run of actions,
    events, heartbeats and [stopPresence] the filter in [getOtherUsers]
    removes nothing,
    and the session identifier is the one the run started with. *)
Theorem own_session_never_listed :
  forall getTime fetched ops s,
    let s' := runStore getTime (startPresence_fetched (sessionId s) fetched s) ops in
    sessionId s' = sessionId s
    /\ ownSessionAbsent s'
    /\ getOtherUsers s' = presenceList s'.
Proof.
  intros getTime fetched ops s.
  assert (Hinv : forall s0, ownSessionAbsent s0 ->
            sessionId (runStore getTime s0 ops) = sessionId s0
            /\ ownSessionAbsent (runStore getTime s0 ops)).
  { unfold runStore. induction ops as [|op ops IH]; intros s0 H0; [split; [reflexivity|exact H0]|].
    cbn [fold_left].
    destruct (IH (applyStoreOp getTime s0 op) (ownSessionAbsent_step getTime s0 op H0))
      as [Hs Ha].
    split; [rewrite Hs; apply sessionId_step | exact Ha]. }
  intros s'. subst s'.
  destruct (Hinv (startPresence_fetched (sessionId s) fetched s)) as [Hs Ha].
  { unfold ownSessionAbsent, startPresence_fetched. cbn [sessionId presenceList setPresenceList].
    apply count_filter_false. }
  split; [exact Hs|]. split; [exact Ha|].
  unfold getOtherUsers. apply filter_none. exact Ha.
Qed.

(** X12.  At most one presence record per session: no event, heartbeat or other
    action of the store adds a second record of a session to a presence
    list that has at most one of each. *)
Theorem one_presence_record_per_session :
  forall getTime ops s,
    sessionsDistinct (presenceList s) ->
    sessionsDistinct (presenceList (runStore getTime s ops)).
Proof.
  intros getTime ops. unfold runStore.
  induction ops as [|op ops IH]; intros s H; [exact H|].
  cbn [fold_left]. apply IH. apply sessionsDistinct_step. exact H.
Qed.

Lemma one_presence_record_per_session_witness :
  sessionsDistinct
    (presenceList (runStore epochOnly (watchingStore [stalePresence]) presenceTraffic)).
Proof.
  apply one_presence_record_per_session.
  intros sid. unfold count. simpl.
  destruct (presenceHasSession sid stalePresence); simpl; lia.
Defined.

(** * Further properties of the reconciler *)

Section Subscription.
Import Reconciler.

Lemma map_filter_submseteq {A B} (f : A -> B) (p : A -> bool) (l : list A) :
  List.map f (List.filter p l) ⊆+ List.map f l.
Proof.
  induction l as [|a l IH]; simpl; [constructor|].
  destruct (p a); simpl; [apply submseteq_skip | apply submseteq_cons]; exact IH.
Qed.

Lemma Forall_map_filter {A B} (f : A -> B) (p : A -> bool) (Q : B -> Prop)
    (l : list A) :
  (forall a, p a = true -> Q (f a)) -> Forall Q (List.map f (List.filter p l)).
Proof.
  intros H. induction l as [|a l IH]; simpl; [constructor|].
  destruct (p a) eqn:Hp; simpl; [constructor; [apply H, Hp|exact IH] | exact IH].
Qed.

Lemma flushed_resources_admitted projectId st :
  exists new,
    delivered (processPendingResources st) = delivered st ++ new
    /\ Forall (fun d => admitted projectId (processPendingResources st) d = true) new.
Proof.
  destruct (processPendingResources_spec st) as (Ht & _ & _ & _ & Hd).
  eexists. split; [exact Hd|].
  apply Forall_map_filter. intros e He. cbn [admitted]. rewrite Ht. exact He.
Qed.

Lemma flushed_allocations_admitted projectId st :
  exists new,
    delivered (processPendingAllocations st) = delivered st ++ new
    /\ Forall (fun d => admitted projectId (processPendingAllocations st) d = true) new.
Proof.
  destruct (processPendingAllocations_spec st) as (_ & Hr & _ & _ & _ & Hd).
  eexists. split; [exact Hd|].
  apply Forall_map_filter. intros e He. cbn [admitted]. rewrite Hr. exact He.
Qed.

Lemma nothing_new (P : Delivery -> Prop) (l : list Delivery) :
  exists new, l = l ++ new /\ Forall P new.
Proof. exists []. split; [symmetry; apply app_nil_r | constructor]. Qed.

Lemma held_flushed_resources st : held (processPendingResources st) ⊆+ held st.
Proof.
  unfold held.
  destruct (processPendingResources_spec st) as (_ & -> & -> & _ & ->).
  simpl. rewrite <- app_assoc.
  apply submseteq_app; [reflexivity|].
  apply submseteq_app; [|reflexivity].
  apply map_filter_submseteq.
Qed.

Lemma held_flushed_allocations st : held (processPendingAllocations st) ⊆+ held st.
Proof.
  unfold held.
  destruct (processPendingAllocations_spec st) as (_ & _ & -> & -> & _ & ->).
  simpl. rewrite app_nil_r.
  transitivity
    (delivered st
     ++ List.map onAllocationChange
          (List.filter (knownResource (resourceIds st)) (pendingAllocations st))
     ++ List.map onResourceChange (pendingResources st)); [solve_submseteq|].
  transitivity
    (delivered st ++ List.map onAllocationChange (pendingAllocations st)
     ++ List.map onResourceChange (pendingResources st)); [|solve_submseteq].
  apply submseteq_app; [reflexivity|].
  apply submseteq_app; [|reflexivity].
  apply map_filter_submseteq.
Qed.

Lemma retriesScheduled_flushed_resources st :
  pendingAllocations st = [] \/ In retryAllocations (timers st) ->
  retriesScheduled (processPendingResources st).
Proof.
  intros H. unfold retriesScheduled.
  destruct (processPendingResources_spec st) as (_ & -> & -> & -> & _).
  split; [left; reflexivity | exact H].
Qed.

Lemma retriesScheduled_flushed_allocations st :
  pendingResources st = [] \/ In retryResources (timers st) ->
  retriesScheduled (processPendingAllocations st).
Proof.
  intros H. unfold retriesScheduled.
  destruct (processPendingAllocations_spec st) as (_ & _ & -> & -> & -> & _).
  split; [exact H | left; reflexivity].
Qed.
End Subscription.

(** X13.  The subscription invokes a callback only for a task of its project,
    for a resource whose task is in its task set and for an allocation
    whose resource is in its resource set (the sets as they are when the
    step ends); a step only appends to the invocations made so far. *)
Theorem reconciler_delivers_only_known_parents :
  forall projectId st x,
    exists new,
      Reconciler.delivered (Reconciler.step projectId st x)
      = Reconciler.delivered st ++ new
      /\ Forall (fun d => admitted projectId (Reconciler.step projectId st x) d = true)
                new.
Proof.
  intros projectId st x. destruct x as [e|e|e| |ids|ids]; cbn [Reconciler.step].
  - unfold Reconciler.tasksEvent.
    destruct (String.eqb (Task.project_id (record e)) projectId) eqn:Hp;
      [|apply nothing_new].
    destruct (action e).
    + match goal with |- context [Reconciler.processPendingResources ?a] =>
        destruct (flushed_resources_admitted projectId a) as (new & Hd & Hall) end.
      exists (Reconciler.onTaskChange e :: new). split.
      * rewrite Hd. cbn. rewrite <- app_assoc. reflexivity.
      * constructor; [exact Hp | exact Hall].
    + exists [Reconciler.onTaskChange e]. split; [reflexivity|].
      constructor; [exact Hp | constructor].
    + exists [Reconciler.onTaskChange e]. split; [reflexivity|].
      constructor; [exact Hp | constructor].
  - unfold Reconciler.resourcesEvent.
    destruct (Reconciler.has (Reconciler.taskIds st) (Resource.task_id (record e)))
      eqn:Hk.
    + destruct (action e).
      * match goal with |- context [Reconciler.processPendingAllocations ?a] =>
          destruct (flushed_allocations_admitted projectId a) as (new & Hd & Hall);
          destruct (processPendingAllocations_spec a) as (Ht & _)
        end.
        exists (Reconciler.onResourceChange e :: new). split.
        -- rewrite Hd. cbn. rewrite <- app_assoc. reflexivity.
        -- constructor; [|exact Hall]. cbn [admitted]. rewrite Ht. exact Hk.
      * exists [Reconciler.onResourceChange e]. split; [reflexivity|].
        constructor; [exact Hk | constructor].
      * exists [Reconciler.onResourceChange e]. split; [reflexivity|].
        constructor; [exact Hk | constructor].
    + destruct (action e); apply nothing_new.
  - unfold Reconciler.allocationsEvent.
    destruct (Reconciler.has (Reconciler.resourceIds st)
                (Allocation.resource_id (record e))) eqn:Hk.
    + exists [Reconciler.onAllocationChange e]. split; [reflexivity|].
      constructor; [exact Hk | constructor].
    + destruct (action e); apply nothing_new.
  - unfold Reconciler.timerFires.
    destruct (Reconciler.timers st) as [|[|] rest]; [apply nothing_new| |].
    + apply (flushed_resources_admitted projectId (Reconciler.setTimers rest st)).
    + apply (flushed_allocations_admitted projectId (Reconciler.setTimers rest st)).
  - apply (flushed_resources_admitted projectId
             (Reconciler.setTaskIds (list_to_set ids) st)).
  - apply (flushed_allocations_admitted projectId
             (Reconciler.setResourceIds (list_to_set ids) st)).
Qed.

Lemma held_step projectId st x :
  held (Reconciler.step projectId st x) ⊆+ held st ++ received x.
Proof.
  destruct x as [e|e|e| |ids|ids]; cbn [Reconciler.step received].
  - unfold Reconciler.tasksEvent.
    destruct (String.eqb (Task.project_id (record e)) projectId);
      [|apply submseteq_inserts_r; reflexivity].
    destruct (action e).
    + etransitivity; [apply held_flushed_resources|].
      unfold held. cbn. solve_submseteq.
    + unfold held. cbn. solve_submseteq.
    + unfold held. cbn. solve_submseteq.
  - unfold Reconciler.resourcesEvent.
    destruct (Reconciler.has _ _).
    + destruct (action e).
      * etransitivity; [apply held_flushed_allocations|].
        unfold held. cbn. solve_submseteq.
      * unfold held. cbn. solve_submseteq.
      * unfold held. cbn. solve_submseteq.
    + destruct (action e); unfold held; cbn; rewrite ?map_app; cbn; solve_submseteq.
  - unfold Reconciler.allocationsEvent.
    destruct (Reconciler.has _ _).
    + unfold held. cbn. solve_submseteq.
    + destruct (action e); unfold held; cbn; rewrite ?map_app; cbn; solve_submseteq.
  - rewrite app_nil_r. unfold Reconciler.timerFires.
    destruct (Reconciler.timers st) as [|[|] rest]; [reflexivity| |].
    + etransitivity; [apply held_flushed_resources|]. reflexivity.
    + etransitivity; [apply held_flushed_allocations|]. reflexivity.
  - rewrite app_nil_r. etransitivity; [apply held_flushed_resources|]. reflexivity.
  - rewrite app_nil_r. etransitivity; [apply held_flushed_allocations|]. reflexivity.
Qed.

(** X14.  The subscription neither duplicates nor invents an event: after every
    run, the callback invocations made, together with the events still
    queued, are a sub-multiset of what was there before the run together
    with the events received during it.  So an event is handed to the
    store at most as often as it was received. *)
Theorem reconciler_hands_over_each_event_at_most_once :
  forall projectId xs st,
    held (Reconciler.run projectId st xs) ⊆+ held st ++ concat (List.map received xs).
Proof.
  intros projectId xs. unfold Reconciler.run.
  induction xs as [|x xs IH]; intros st; cbn [fold_left List.map concat].
  - rewrite app_nil_r. reflexivity.
  - etransitivity; [apply IH|].
    rewrite (app_assoc (held st)).
    apply submseteq_app; [apply held_step | reflexivity].
Qed.

Lemma retriesScheduled_step projectId st x :
  retriesScheduled st -> retriesScheduled (Reconciler.step projectId st x).
Proof.
  intros [Hr Ha]. destruct x as [e|e|e| |ids|ids]; cbn [Reconciler.step].
  - unfold Reconciler.tasksEvent.
    destruct (String.eqb _ _); [|split; assumption].
    destruct (action e); [|split; assumption|split; assumption].
    apply retriesScheduled_flushed_resources. exact Ha.
  - unfold Reconciler.resourcesEvent. destruct (Reconciler.has _ _).
    + destruct (action e); [|split; assumption|split; assumption].
      apply retriesScheduled_flushed_allocations. exact Hr.
    + destruct (action e); [|split; assumption|split; assumption].
      split; cbn.
      * right. apply in_or_app. right. left. reflexivity.
      * destruct Ha as [Ha|Ha]; [left; exact Ha|right; apply in_or_app; left; exact Ha].
  - unfold Reconciler.allocationsEvent. destruct (Reconciler.has _ _);
      [split; assumption|].
    destruct (action e); [| |split; assumption].
    + split; cbn.
      * destruct Hr as [Hr|Hr]; [left; exact Hr|right; apply in_or_app; left; exact Hr].
      * right. apply in_or_app. right. left. reflexivity.
    + split; cbn.
      * destruct Hr as [Hr|Hr]; [left; exact Hr|right; apply in_or_app; left; exact Hr].
      * right. apply in_or_app. right. left. reflexivity.
  - unfold Reconciler.timerFires.
    destruct (Reconciler.timers st) as [|[|] rest] eqn:Ht;
      [unfold retriesScheduled; rewrite Ht; split; assumption| |].
    + apply retriesScheduled_flushed_resources. cbn.
      destruct Ha as [Ha|[Ha|Ha]]; [left; exact Ha|discriminate Ha|right; exact Ha].
    + apply retriesScheduled_flushed_allocations. cbn.
      destruct Hr as [Hr|[Hr|Hr]]; [left; exact Hr|discriminate Hr|right; exact Hr].
  - apply retriesScheduled_flushed_resources. exact Ha.
  - apply retriesScheduled_flushed_allocations. exact Hr.
Qed.

(** X15.  A queued event never waits without a retry: from the moment of
    subscribing, after every run of events, timer callbacks and
    membership updates, each of the two queues is empty or its retry
    callback is among the scheduled timers.  So an event is delivered or
    discarded at the latest when the timer that it scheduled runs. *)
Theorem queued_events_have_a_retry_scheduled :
  forall projectId initialTaskIds initialResourceIds xs,
    retriesScheduled
      (Reconciler.run projectId
         (Reconciler.subscribe initialTaskIds initialResourceIds) xs).
Proof.
  intros projectId its irs xs.
  assert (H : forall st, retriesScheduled st ->
                         retriesScheduled (Reconciler.run projectId st xs)).
  { unfold Reconciler.run. induction xs as [|x xs IH]; intros st Hst; [exact Hst|].
    cbn [fold_left]. apply IH. apply retriesScheduled_step. exact Hst. }
  apply H. split; left; reflexivity.
Qed.

(** * Further properties of the allocation actions and the realtime merge *)

Lemma other_key_misses R D R' D' (x : Allocation.t) :
  (R', D') <> (R, D) -> allocationHasKey R D x = true ->
  allocationHasKey R' D' x = false.
Proof.
  intros Hne Hx. apply hasKey_iff in Hx. destruct Hx as [<- <-].
  destruct (allocationHasKey R' D' x) eqn:E; [|reflexivity].
  apply hasKey_iff in E. destruct E as [<- <-]. contradiction Hne. reflexivity.
Qed.

(** X16.  Painting and erasing touch one cell.  After [setAllocation] the first
    allocation found under the painted key has the painted percentage and
    colour; [removeAllocation] leaves none under the erased key; under
    every other key both leave the lookup as it was; neither touches tasks
    or resources; and painting adds an allocation only when the cell was
    empty. *)
Theorem paint_and_erase_touch_one_cell :
  forall env R D pct col s,
    let painted := setAllocation env R D pct col s in
    let erased := removeAllocation R D s in
    (exists a, find (allocationHasKey R D) (allocations painted) = Some a
               /\ Allocation.percentage a = pct /\ Allocation.color_hex a = col)
    /\ find (allocationHasKey R D) (allocations erased) = None
    /\ (forall R' D', (R', D') <> (R, D) ->
           find (allocationHasKey R' D') (allocations painted)
           = find (allocationHasKey R' D') (allocations s)
           /\ find (allocationHasKey R' D') (allocations erased)
              = find (allocationHasKey R' D') (allocations s))
    /\ length (allocations painted)
       = (length (allocations s)
          + match find (allocationHasKey R D) (allocations s) with
            | Some _ => 0 | None => 1 end)%nat
    /\ tasks painted = tasks s /\ resources painted = resources s
    /\ tasks erased = tasks s /\ resources erased = resources s.
Proof.
  intros env R D pct col s painted erased.
  split.
  { destruct (setAllocation_occupies env R D pct col s) as (i & a & Hi & Ha & Hp & Hc).
    exists a. split; [|split; assumption].
    rewrite find_findIndex. fold painted in Hi. rewrite Hi. exact Ha. }
  split.
  { apply find_None. apply count_filter_false. }
  split.
  { intros R' D' Hne. split.
    - subst painted. unfold setAllocation. cbn [allocations recompute setAllocations].
      destruct (findIndex (allocationHasKey R D) (allocations s)) as [i|] eqn:Hi.
      + destruct (findIndex_Some _ _ _ Hi) as (x & Hx & Hp). rewrite Hx.
        apply (find_setAt_other _ _ _ x); [exact Hx| |].
        * exact (other_key_misses R D R' D' x Hne Hp).
        * apply (other_key_misses R D R' D'); [exact Hne|].
          apply hasKey_iff in Hp. apply hasKey_iff. exact Hp.
      + rewrite find_push. destruct (find (allocationHasKey R' D') (allocations s));
          [reflexivity|].
        cbn [find].
        rewrite (other_key_misses R D R' D'); [reflexivity|exact Hne|].
        apply hasKey_iff. split; reflexivity.
    - subst erased. unfold removeAllocation. cbn [allocations recompute setAllocations].
      apply find_filter_implied. intros x Hx.
      destruct (allocationHasKey R D x) eqn:E; [|reflexivity].
      rewrite (other_key_misses R D R' D' x Hne E) in Hx. discriminate. }
  split.
  { subst painted. unfold setAllocation. cbn [allocations recompute setAllocations].
    rewrite find_findIndex.
    destruct (findIndex (allocationHasKey R D) (allocations s)) as [i|] eqn:Hi.
    - destruct (findIndex_Some _ _ _ Hi) as (x & Hx & _). cbn. rewrite Hx.
      unfold setAt. rewrite length_insert. lia.
    - cbn. unfold push. rewrite length_app. reflexivity. }
  repeat split.
Qed.

Lemma paint_and_erase_touch_one_cell_witness :
  find (allocationHasKey "r1" "2024-01-01")
       (allocations (setAllocation firstStroke "r1" "2024-01-02" 75%float "#216E39" smallStore))
  = find (allocationHasKey "r1" "2024-01-01") (allocations smallStore).
Proof.
  refine (proj1 (proj1 (proj2 (proj2
            (paint_and_erase_touch_one_cell firstStroke "r1" "2024-01-02" 75%float "#216E39"
               smallStore))) "r1" "2024-01-01" _)).
  discriminate.
Defined.

Section Twice.
Context {A : Type}.
Implicit Types (p : A -> bool) (l : list A).

Lemma filter_idem p l : List.filter p (List.filter p l) = List.filter p l.
Proof.
  induction l as [|a l IH]; simpl; [reflexivity|].
  destruct (p a) eqn:Ha; simpl; rewrite ?Ha, IH; reflexivity.
Qed.

Lemma filter_complement p l :
  List.filter p (List.filter (fun x => negb (p x)) l) = [].
Proof.
  induction l as [|a l IH]; simpl; [reflexivity|].
  destruct (p a) eqn:Ha; simpl; rewrite ?Ha; exact IH.
Qed.

Lemma filter_all l : List.filter (fun _ : A => true) l = l.
Proof. induction l as [|a l IH]; simpl; [reflexivity|]. rewrite IH. reflexivity. Qed.

Lemma findIndex_setAt_fresh p l i x y :
  count p l = 0%nat -> l !! i = Some x -> p y = true ->
  findIndex p (setAt i y l) = Some i.
Proof.
  unfold setAt. revert i. induction l as [|a l IH]; intros [|i]; simpl; try discriminate.
  - intros _ _ Hy. rewrite Hy. reflexivity.
  - rewrite count_cons. destruct (p a); simpl; [lia|].
    intros Hc Hl Hy. rewrite (IH i Hc Hl Hy). reflexivity.
Qed.

Lemma find_Some_findIndex p l x :
  find p l = Some x -> exists i, findIndex p l = Some i /\ l !! i = Some x.
Proof.
  rewrite find_findIndex. destruct (findIndex p l) as [i|]; [|discriminate].
  intros H. exists i. split; [reflexivity|exact H].
Qed.
End Twice.

Lemma sameIdOrKey_self r : sameIdOrKey r r = true.
Proof. unfold sameIdOrKey, allocationHasId. rewrite String.eqb_refl. reflexivity. Qed.

Lemma settled_allocations s X :
  upToDate s -> X = allocations s -> recompute (setAllocations X s) = s.
Proof. intros Hu ->. destruct s. unfold upToDate in Hu. cbn in *. subst. reflexivity. Qed.

Lemma allocation_event_twice ev s :
  handleAllocationChange ev (handleAllocationChange ev s) = handleAllocationChange ev s.
Proof.
  unfold handleAllocationChange at 1.
  apply settled_allocations; [reflexivity|].
  unfold handleAllocationChange. cbn [allocations recompute setAllocations].
  set (r := record ev). set (l := allocations s).
  destruct (action ev).
  - destruct (find (sameIdOrKey r) l) as [found|] eqn:Hf.
    + destruct (negb (String.eqb (Allocation.id found) (Allocation.id r))) eqn:Hid.
      * destruct (find_Some_findIndex _ _ _ Hf) as (i & Hi & _). rewrite Hi.
        rewrite (find_setAt_first _ _ _ r Hi (sameIdOrKey_self r)).
        rewrite String.eqb_refl. reflexivity.
      * rewrite Hf, Hid. reflexivity.
    + rewrite find_push, Hf. cbn [find]. rewrite sameIdOrKey_self.
      rewrite String.eqb_refl. reflexivity.
  - assert (Hr : allocationHasId (Allocation.id r) r = true)
      by apply String.eqb_refl.
    destruct (findIndex (allocationHasId (Allocation.id r)) l) as [i|] eqn:Hi.
    + rewrite (findIndex_setAt_same _ _ _ r Hi Hr). apply setAt_setAt.
    + destruct (findIndex (allocationHasKey _ _) l) as [j|] eqn:Hj.
      * destruct (findIndex_Some _ _ _ Hj) as (x & Hx & _).
        apply findIndex_None in Hi.
        rewrite (findIndex_setAt_fresh _ _ _ x r Hi Hx Hr). apply setAt_setAt.
      * rewrite Hi, Hj. reflexivity.
  - apply filter_idem.
Qed.

Lemma presence_event_twice ev s :
  handlePresenceChange ev (handlePresenceChange ev s) = handlePresenceChange ev s.
Proof.
  assert (Hsid : sessionId (handlePresenceChange ev s) = sessionId s).
  { unfold handlePresenceChange. destruct (String.eqb _ _); reflexivity. }
  unfold handlePresenceChange at 1. rewrite Hsid.
  destruct (String.eqb (Presence.session_id (record ev)) (sessionId s)) eqn:Hown;
    [reflexivity|].
  assert (Hset : forall X s0, X = presenceList s0 -> setPresenceList X s0 = s0)
    by (intros X s0 ->; destruct s0; reflexivity).
  apply Hset.
  unfold handlePresenceChange. rewrite Hown. cbn [presenceList setPresenceList].
  set (r := record ev). set (l := presenceList s).
  assert (Hr : presenceHasSession (Presence.session_id r) r = true)
    by apply String.eqb_refl.
  destruct (action ev).
  - destruct (find _ l) eqn:Hf.
    + rewrite Hf. reflexivity.
    + rewrite find_push, Hf. cbn [find]. rewrite Hr. reflexivity.
  - destruct (findIndex _ l) as [i|] eqn:Hi.
    + rewrite (findIndex_setAt_same _ _ _ r Hi Hr). apply setAt_setAt.
    + apply findIndex_None in Hi. rewrite (findIndex_push _ _ _ Hi Hr).
      apply setAt_push.
  - apply filter_idem.
Qed.

Lemma cascade_settled id s :
  count (taskHasId id) (tasks s) = 0%nat ->
  count (fun r => String.eqb (Resource.task_id r) id) (resources s) = 0%nat ->
  cascadeDeleteTask id s = s.
Proof.
  intros Ht Hr. unfold cascadeDeleteTask.
  rewrite (filter_none _ _ Ht), (filter_none _ _ Hr).
  unfold count in Hr. apply length_zero_iff_nil in Hr. rewrite Hr.
  cbn [List.map includes existsb negb]. rewrite filter_all.
  destruct s. reflexivity.
Qed.

Lemma recompute_twice s : recompute (recompute s) = recompute s.
Proof. reflexivity. Qed.

Lemma task_delete_twice id s :
  recompute (cascadeDeleteTask id (recompute (cascadeDeleteTask id s)))
  = recompute (cascadeDeleteTask id s).
Proof.
  rewrite cascade_settled; [apply recompute_twice| |].
  - apply (count_filter_false (taskHasId id) (tasks s)).
  - apply (count_filter_false (fun r => String.eqb (Resource.task_id r) id)
                              (resources s)).
Qed.

Lemma resource_delete_twice id s :
  deleteResource id (deleteResource id s) = deleteResource id s.
Proof.
  unfold deleteResource at 1.
  change (resources (deleteResource id s))
    with (List.filter (fun r => negb (resourceHasId id r)) (resources s)).
  change (allocations (deleteResource id s))
    with (List.filter (fun a => negb (String.eqb (Allocation.resource_id a) id))
                      (allocations s)).
  rewrite !filter_idem. reflexivity.
Qed.

(** X17.  Realtime events may arrive twice: handling any allocation event, any
    presence event, or the ['delete'] event of a task or of a resource a
    second time leaves the store as the first handling left it. *)
Theorem repeated_event_changes_nothing :
  forall s,
    (forall ev, handleAllocationChange ev (handleAllocationChange ev s)
                = handleAllocationChange ev s)
    /\ (forall ev, handlePresenceChange ev (handlePresenceChange ev s)
                   = handlePresenceChange ev s)
    /\ (forall record,
           handleTaskChange (mkEvent delete record)
             (handleTaskChange (mkEvent delete record) s)
           = handleTaskChange (mkEvent delete record) s)
    /\ (forall record,
           handleResourceChange (mkEvent delete record)
             (handleResourceChange (mkEvent delete record) s)
           = handleResourceChange (mkEvent delete record) s).
Proof.
  intros s.
  split; [intros ev; apply allocation_event_twice|].
  split; [intros ev; apply presence_event_twice|].
  split; [intros r; apply task_delete_twice|].
  intros r. apply (resource_delete_twice (Resource.id r) s).
Qed.

Lemma count_or_zero {A} (p q : A -> bool) (l : list A) :
  count p l = 0%nat -> count q l = 0%nat -> count (fun x => p x || q x) l = 0%nat.
Proof.
  induction l as [|a l IH]; [reflexivity|]. rewrite !count_cons. intros Hp Hq.
  destruct (p a), (q a); cbn [indicator orb] in *; try lia; rewrite IH; lia.
Qed.

Lemma resolved_on_last R D saved x l s :
  isTemp R = false -> allocationHasKey R D x = true ->
  count (allocationHasKey R D) l = 0%nat -> allocations s = push l x ->
  allocations (setAllocationAsync_resolved R D saved s) = push l saved.
Proof.
  intros Htemp Hx H0 Hs. unfold setAllocationAsync_resolved. rewrite Htemp, Hs.
  rewrite (findIndex_push _ _ _ H0 Hx). cbn [allocations setAllocations].
  apply setAt_push.
Qed.

(** X18.  The server record of a freshly painted cell arrives twice, as the
    result of [setAllocationAsync] and as a realtime ['create'] event.  When
    the cell was empty and the server identifier is new to the store, the
    two leave, in either order, one allocation for the cell: the server
    record, in the slot of the optimistic allocation. *)
Theorem allocation_create_race_one_copy :
  forall env R D pct col saved s,
    isTemp R = false ->
    count (allocationHasKey R D) (allocations s) = 0%nat ->
    count (allocationHasId (Allocation.id saved)) (allocations s) = 0%nat ->
    allocationHasKey R D saved = true ->
    let painted := setAllocation env R D pct col s in
    let eventFirst :=
      setAllocationAsync_resolved R D saved
        (handleAllocationChange (mkEvent create saved) painted) in
    let resultFirst :=
      handleAllocationChange (mkEvent create saved)
        (setAllocationAsync_resolved R D saved painted) in
    allocations eventFirst = push (allocations s) saved
    /\ allocations resultFirst = push (allocations s) saved
    /\ upToDate resultFirst.
Proof.
  intros env R D pct col saved s Htemp H0 Hid Hkey painted eventFirst resultFirst.
  pose proof Hkey as Hk. apply hasKey_iff in Hk. destruct Hk as [HR HD].
  pose proof H0 as Hidx. apply findIndex_None in Hidx.
  set (temp := Allocation.mk (tempAllocationId (dateNow env) (random36 env)) None None
                 (Some (isoCreated env)) (Some (isoUpdated env)) R D pct col).
  assert (Hp : allocations painted = push (allocations s) temp).
  { subst painted. unfold setAllocation. rewrite Hidx. reflexivity. }
  assert (Htk : allocationHasKey R D temp = true)
    by (apply hasKey_iff; split; reflexivity).
  assert (Hnone : count (sameIdOrKey saved) (allocations s) = 0%nat).
  { unfold sameIdOrKey. rewrite HR, HD. apply count_or_zero; assumption. }
  assert (Hst : sameIdOrKey saved temp = true).
  { unfold sameIdOrKey. rewrite HR, HD, Htk. apply orb_true_r. }
  split; [|split; [|reflexivity]].
  - subst eventFirst.
    assert (He : exists x,
               allocationHasKey R D x = true
               /\ allocations (handleAllocationChange (mkEvent create saved) painted)
                  = push (allocations s) x).
    { unfold handleAllocationChange.
      cbn [action record allocations recompute setAllocations].
      rewrite Hp, find_push.
      replace (find (sameIdOrKey saved) (allocations s)) with (@None Allocation.t)
        by (symmetry; apply find_None; exact Hnone).
      cbn [find]. rewrite Hst.
      destruct (negb _).
      - rewrite (findIndex_push _ _ _ Hnone Hst). exists saved.
        split; [exact Hkey | apply setAt_push].
      - exists temp. split; [exact Htk | reflexivity]. }
    destruct He as (x & Hx & He).
    exact (resolved_on_last R D saved x _ _ Htemp Hx H0 He).
  - subst resultFirst.
    pose proof (resolved_on_last R D saved temp _ _ Htemp Htk H0 Hp) as Hres.
    unfold handleAllocationChange.
    cbn [action record allocations recompute setAllocations].
    rewrite Hres, find_push.
    replace (find (sameIdOrKey saved) (allocations s)) with (@None Allocation.t)
      by (symmetry; apply find_None; exact Hnone).
    cbn [find]. rewrite sameIdOrKey_self, String.eqb_refl. reflexivity.
Qed.

Lemma allocation_create_race_one_copy_witness :
  allocations
    (setAllocationAsync_resolved "r1" "2024-01-01" aliceJan1
       (handleAllocationChange (mkEvent create aliceJan1)
          (setAllocation firstStroke "r1" "2024-01-01" 30%float "#30A14E" paintingStore)))
  = [aliceJan1].
Proof.
  refine (proj1 (allocation_create_race_one_copy firstStroke "r1" "2024-01-01" 30
                   "#30A14E" aliceJan1 paintingStore _ _ _ _)); reflexivity.
Defined.

(** * Presence colours, display identifiers and hex colours *)

Lemma palette_lookup sid :
  exists c, getPresenceColor sid = Some c /\ In c PRESENCE_COLORS.
Proof.
  unfold getPresenceColor.
  set (h := Z.abs (sessionHash sid)).
  assert (Hlt : (Z.to_nat (h mod Z.of_nat (length PRESENCE_COLORS))
                 < length PRESENCE_COLORS)%nat).
  { pose proof (Z.mod_pos_bound h (Z.of_nat (length PRESENCE_COLORS))) as Hb.
    cbn [PRESENCE_COLORS length] in *. lia. }
  destruct (lookup_lt_is_Some_2 _ _ Hlt) as [c Hc].
  exists c. split; [exact Hc|].
  apply list_elem_of_In. apply (list_elem_of_lookup_2 _ _ _ Hc).
Qed.

Lemma toInt32_wraps z : exists k, toInt32 z = z + 4294967296 * k.
Proof.
  unfold toInt32. exists (- ((z + 2 ^ 31) / 2 ^ 32)).
  pose proof (Z.mod_eq (z + 2 ^ 31) (2 ^ 32)) as H.
  change (2 ^ 32) with 4294967296 in *. change (2 ^ 31) with 2147483648 in *. lia.
Qed.

Lemma toInt32_range z : - 2147483648 <= toInt32 z < 2147483648.
Proof.
  unfold toInt32. pose proof (Z.mod_pos_bound (z + 2 ^ 31) (2 ^ 32)) as H.
  change (2 ^ 32) with 4294967296 in *. change (2 ^ 31) with 2147483648 in *. lia.
Qed.

Lemma hashStep_wraps acc b c :
  (exists k, acc = b + 4294967296 * k) ->
  exists k, hashStep acc c = 31 * b + Z.of_N (N_of_ascii c) + 4294967296 * k.
Proof.
  intros [k ->]. unfold hashStep, shiftLeft5.
  destruct (toInt32_wraps (b + 4294967296 * k)) as [k1 H1].
  destruct (toInt32_wraps (toInt32 (b + 4294967296 * k) * 32)) as [k2 H2].
  rewrite H2, H1. exists (32 * k + 32 * k1 + k2 - k). lia.
Qed.

(** X20.  The hash that picks the colour is the polynomial hash with multiplier
    31 of the identifier's characters, up to a multiple of 2^32: the only
    32-bit operation of the loop is the shift, and the difference
    [(acc << 5) - acc] stands for [31 * acc]. *)
Theorem session_hash_is_polynomial_modulo_2_32 :
  forall sessionId,
    exists k, sessionHash sessionId = polynomial31 sessionId + 2 ^ 32 * k.
Proof.
  intros sid. unfold sessionHash, polynomial31. change (2 ^ 32) with 4294967296.
  assert (H : forall l a b,
             (exists k, a = b + 4294967296 * k) ->
             exists k, fold_left hashStep l a
                       = fold_left (fun acc c => 31 * acc + Z.of_N (N_of_ascii c)) l b
                         + 4294967296 * k).
  { induction l as [|c l IH]; intros a b Hab; [exact Hab|].
    cbn [fold_left]. apply IH. apply hashStep_wraps. exact Hab. }
  apply H. exists 0. lia.
Qed.

(** ** [parseInt] and [String] *)

Lemma readDigits_acc d a :
  readDigits (NilEmpty.string_of_uint d) (Some (Z.pos a))
  = Some (Z.pos (Pos.of_uint_acc d a)).
Proof.
  revert a. induction d; intros a; cbn [NilEmpty.string_of_uint Pos.of_uint_acc];
    [reflexivity|..];
    (unfold readDigits; fold readDigits;
     match goal with |- context [digitValue ?c] =>
       let v := eval vm_compute in (digitValue c) in
       change (digitValue c) with v end;
     cbn [default from_option id]; rewrite <- IHd;
     apply (f_equal (readDigits _)); apply (f_equal Some); lia).
Qed.

Lemma readDigits_zero d :
  readDigits (NilEmpty.string_of_uint d) (Some 0) = Some (Z.of_N (Pos.of_uint d)).
Proof.
  induction d; cbn [NilEmpty.string_of_uint Pos.of_uint]; [reflexivity|..];
    (unfold readDigits; fold readDigits;
     match goal with |- context [digitValue ?c] =>
       let v := eval vm_compute in (digitValue c) in
       change (digitValue c) with v end;
     cbn [default from_option id]);
    [exact IHd|..]; (etransitivity; [|apply readDigits_acc]; reflexivity).
Qed.

Lemma readDigits_start d :
  d <> Decimal.Nil ->
  readDigits (NilEmpty.string_of_uint d) None
  = readDigits (NilEmpty.string_of_uint d) (Some 0).
Proof. destruct d; [congruence|..]; reflexivity. Qed.

Lemma parseInt10_digits d :
  d <> Decimal.Nil ->
  parseInt10 (NilEmpty.string_of_uint d) = Some (Z.of_N (Pos.of_uint d))
  /\ parseInt10 (String "-" (NilEmpty.string_of_uint d))
     = Some (- Z.of_N (Pos.of_uint d)).
Proof.
  intros Hd. split.
  - rewrite <- readDigits_zero, <- (readDigits_start d Hd).
    destruct d; [congruence|..]; reflexivity.
  - unfold parseInt10. cbn [trimStart]. change (isWhiteSpace "-") with false. cbv iota.
    rewrite (readDigits_start d Hd), readDigits_zero. reflexivity.
Qed.

(** [parseInt(String(n), 10)] is [n], for every integer. *)
Lemma parseInt10_numberToString n : parseInt10 (numberToString n) = Some n.
Proof.
  unfold numberToString. destruct n as [|p|p]; [reflexivity|..];
    cbn [Z.to_int NilZero.string_of_int];
    pose proof (DecimalPos.Unsigned.to_uint_nonnil p) as Hnn;
    pose proof (DecimalPos.Unsigned.of_to p) as Hof;
    destruct (parseInt10_digits (Pos.to_uint p) Hnn) as [Hpos Hneg];
    rewrite Hof in Hpos, Hneg.
  - unfold NilZero.string_of_uint. destruct (Pos.to_uint p); [congruence|..]; exact Hpos.
  - unfold NilZero.string_of_uint.
    destruct (Pos.to_uint p); [congruence|..]; exact Hneg.
Qed.

Lemma fold_max_ge rest a : a <= fold_left Z.max rest a.
Proof.
  revert a. induction rest as [|y rest IH]; intros a; cbn [fold_left]; [lia|].
  specialize (IH (Z.max a y)). lia.
Qed.

Lemma maximum_bounds first rest x :
  In x (first :: rest) -> x <= maximum first rest.
Proof.
  unfold maximum. revert first. induction rest as [|y rest IH]; intros first Hin.
  - destruct Hin as [->|[]]. cbn. lia.
  - cbn [fold_left]. pose proof (fold_max_ge rest (Z.max first y)) as Hge.
    destruct Hin as [->|[->|Hin]]; [lia|lia|].
    apply IH. right. exact Hin.
Qed.

Lemma parsed_is_listed ids id n :
  In id ids -> parseInt10 id = Some n -> In n (omap parseInt10 ids).
Proof.
  intros Hin Hp. apply list_elem_of_In. apply list_elem_of_omap.
  exists id. split; [apply list_elem_of_In; exact Hin | exact Hp].
Qed.

(** X21.  The identifier that [generateNextDisplayId] proposes is not among the
    existing ones (identifiers of at most 15 ASCII characters, so that the
    numbers read from them are exact): it is "1" when no identifier starts
    with a number, and otherwise the successor of the largest number that
    [parseInt] reads from an identifier. *)
Theorem next_display_id_is_fresh :
  forall existingIds,
    forallb plainId existingIds = true ->
    ~ In (generateNextDisplayId existingIds) existingIds
    /\ (omap parseInt10 existingIds = [] -> generateNextDisplayId existingIds = "1")
    /\ (forall n, In n (omap parseInt10 existingIds) ->
                  exists m, generateNextDisplayId existingIds = numberToString (m + 1)
                            /\ n <= m /\ In m (omap parseInt10 existingIds)).
Proof.
  intros ids _. unfold generateNextDisplayId.
  destruct (omap parseInt10 ids) as [|n rest] eqn:E.
  - split; [|split; [reflexivity|intros n []]].
    intros Hin. pose proof (parsed_is_listed ids "1" 1 Hin eq_refl) as H.
    rewrite E in H. exact H.
  - split; [|split; [discriminate|]].
    + intros Hin.
      pose proof (parsed_is_listed ids _ _ Hin (parseInt10_numberToString _)) as H.
      rewrite E in H. apply maximum_bounds in H. lia.
    + intros x Hx. exists (maximum n rest).
      split; [reflexivity|]. split; [apply maximum_bounds; exact Hx|].
      clear. unfold maximum. revert n. induction rest as [|y rest IH]; intros n.
      * left. reflexivity.
      * cbn [fold_left]. destruct (IH (Z.max n y)) as [H|H].
        -- rewrite <- H.
           destruct (Z.max_spec n y) as [[_ Hm]|[_ Hm]]; rewrite Hm.
           ++ right. left. reflexivity.
           ++ left. reflexivity.
        -- right. right. exact H.
Qed.

Lemma next_display_id_is_fresh_witness :
  ~ In (generateNextDisplayId takenIds) takenIds.
Proof.
  exact (proj1 (next_display_id_is_fresh takenIds eq_refl)).
Defined.

(** ** [hexToRgb] *)

Lemma hexValue_spec c :
  hexValue c = if isHexDigit c then Some (hexDigitNumber c) else None.
Proof.
  unfold hexValue, isHexDigit, hexDigitNumber.
  set (n := Z.of_N (N_of_ascii c)).
  destruct (Z.leb_spec 48 n), (Z.leb_spec n 57), (Z.leb_spec 97 n),
    (Z.leb_spec n 102), (Z.leb_spec 65 n), (Z.leb_spec n 70);
    cbn [andb orb]; try reflexivity; try lia; f_equal; lia.
Qed.

Lemma hexDigitNumber_range c : isHexDigit c = true -> 0 <= hexDigitNumber c <= 15.
Proof.
  unfold isHexDigit, hexDigitNumber.
  set (n := Z.of_N (N_of_ascii c)).
  destruct (Z.leb_spec 48 n), (Z.leb_spec n 57), (Z.leb_spec 97 n),
    (Z.leb_spec n 102), (Z.leb_spec 65 n), (Z.leb_spec n 70);
    cbn [andb orb]; try discriminate; intros _; lia.
Qed.

Lemma hexPair_spec hi lo :
  hexPair hi lo
  = if isHexDigit hi && isHexDigit lo then Some (byteOf hi lo) else None.
Proof.
  unfold hexPair, byteOf. rewrite !hexValue_spec.
  destruct (isHexDigit hi), (isHexDigit lo); reflexivity.
Qed.

Lemma byteOf_range hi lo :
  isHexDigit hi = true -> isHexDigit lo = true -> 0 <= byteOf hi lo <= 255.
Proof.
  intros Hh Hl. apply hexDigitNumber_range in Hh, Hl. unfold byteOf. lia.
Qed.

(** What [#?] leaves to the three groups. *)
Lemma hex_body hex :
  let body := match hex with String "#" rest => rest | _ => hex end in
  (body = hex /\ String.prefix "#" hex = false) \/ hex = String "#" body.
Proof.
  destruct hex as [|c rest]; [left; split; reflexivity|].
  destruct c as [[] [] [] [] [] [] [] []];
    try (left; split; reflexivity).
  right. reflexivity.
Qed.

Lemma hexToRgb_digits r1 r2 g1 g2 b1 b2 hex :
  (hex = string_of_list_ascii [r1; r2; g1; g2; b1; b2]
   \/ hex = String "#" (string_of_list_ascii [r1; r2; g1; g2; b1; b2])) ->
  forallb isHexDigit [r1; r2; g1; g2; b1; b2] = true ->
  hexToRgb hex = Some (mkRgb (byteOf r1 r2) (byteOf g1 g2) (byteOf b1 b2)).
Proof.
  intros Hhex Hd. cbn [forallb] in Hd.
  repeat (apply andb_prop in Hd; destruct Hd as [? Hd]).
  assert (Hgo : forall body,
             list_ascii_of_string body = [r1; r2; g1; g2; b1; b2] ->
             match list_ascii_of_string body with
             | [r1; r2; g1; g2; b1; b2] =>
                 match hexPair r1 r2, hexPair g1 g2, hexPair b1 b2 with
                 | Some r, Some g, Some b => Some (mkRgb r g b)
                 | _, _, _ => None
                 end
             | _ => None
             end = Some (mkRgb (byteOf r1 r2) (byteOf g1 g2) (byteOf b1 b2))).
  { intros body ->. rewrite !hexPair_spec.
    repeat match goal with H : isHexDigit _ = true |- _ => rewrite H; clear H end.
    reflexivity. }
  unfold hexToRgb. pose proof (hex_body hex) as Hbody. cbv zeta in Hbody.
  set (body := match hex with String "#" rest => rest | _ => hex end) in *.
  apply Hgo. destruct Hhex as [Hhex|Hhex].
  - destruct Hbody as [[Hb _]|Hb].
    + rewrite Hb, Hhex. apply list_ascii_of_string_of_list_ascii.
    + exfalso. rewrite Hhex in Hb. cbn [string_of_list_ascii] in Hb.
      injection Hb as Hr _. subst r1. discriminate.
  - destruct Hbody as [[_ Hp]|Hb].
    + rewrite Hhex in Hp. discriminate Hp.
    + rewrite Hhex in Hb. injection Hb as Hb. rewrite <- Hb. reflexivity.
Qed.

(** X22.  [hexToRgb] returns a colour exactly for six hexadecimal digits
    (0-9, a-f, A-F) with an optional leading [#]; the channels are the
    numbers that the three pairs of digits stand for, so each is an
    integer between 0 and 255. *)
Theorem hex_colour_channels_are_bytes :
  forall hex colour,
    (hexToRgb hex = Some colour
     <-> exists r1 r2 g1 g2 b1 b2,
           (hex = string_of_list_ascii [r1; r2; g1; g2; b1; b2]
            \/ hex = String "#" (string_of_list_ascii [r1; r2; g1; g2; b1; b2]))
           /\ forallb isHexDigit [r1; r2; g1; g2; b1; b2] = true
           /\ colour = mkRgb (byteOf r1 r2) (byteOf g1 g2) (byteOf b1 b2))
    /\ (hexToRgb hex = Some colour ->
        0 <= red colour <= 255 /\ 0 <= green colour <= 255
        /\ 0 <= blue colour <= 255).
Proof.
  intros hex colour.
  assert (Hfwd : hexToRgb hex = Some colour ->
                 exists r1 r2 g1 g2 b1 b2,
                   (hex = string_of_list_ascii [r1; r2; g1; g2; b1; b2]
                    \/ hex = String "#" (string_of_list_ascii [r1; r2; g1; g2; b1; b2]))
                   /\ forallb isHexDigit [r1; r2; g1; g2; b1; b2] = true
                   /\ colour = mkRgb (byteOf r1 r2) (byteOf g1 g2) (byteOf b1 b2)).
  { unfold hexToRgb. pose proof (hex_body hex) as Hbody. cbv zeta in Hbody.
    set (body := match hex with String "#" rest => rest | _ => hex end) in *.
    pose proof (string_of_list_ascii_of_string body) as Hs.
    destruct (list_ascii_of_string body)
      as [|r1 [|r2 [|g1 [|g2 [|b1 [|b2 [|]]]]]]]; try discriminate.
    rewrite !hexPair_spec.
    destruct (isHexDigit r1) eqn:H1; [|discriminate].
    destruct (isHexDigit r2) eqn:H2; [|discriminate].
    destruct (isHexDigit g1) eqn:H3; [|discriminate].
    destruct (isHexDigit g2) eqn:H4; [|discriminate].
    destruct (isHexDigit b1) eqn:H5; [|discriminate].
    destruct (isHexDigit b2) eqn:H6; [|discriminate].
    cbn [andb]. intros [= <-].
    exists r1, r2, g1, g2, b1, b2. split; [|split; [|reflexivity]].
    - destruct Hbody as [[Hb _]|Hb].
      + left. rewrite <- Hb. symmetry. exact Hs.
      + right. rewrite Hb at 1. f_equal. symmetry. exact Hs.
    - cbn [forallb]. rewrite H1, H2, H3, H4, H5, H6. reflexivity. }
  split; [split; [exact Hfwd|]|].
  - intros (r1 & r2 & g1 & g2 & b1 & b2 & Hhex & Hd & ->).
    apply hexToRgb_digits; assumption.
  - intros H. destruct (Hfwd H) as (r1 & r2 & g1 & g2 & b1 & b2 & _ & Hd & ->).
    cbn [forallb] in Hd. repeat (apply andb_prop in Hd; destruct Hd as [? Hd]).
    cbn [red green blue]. repeat split; apply byteOf_range; assumption.
Qed.

Lemma hex_colour_channels_are_bytes_witness :
  0 <= red (mkRgb 229 57 53) <= 255.
Proof.
  exact (proj1 (proj2 (hex_colour_channels_are_bytes "#E53935" (mkRgb 229 57 53))
                      eq_refl)).
Defined.

(** X19.  [getPresenceColor] always returns one of the ten palette colours,
    never [undefined]: the index [Math.abs(hash) % 10] is within the
    palette whatever the session identifier (characters are the string's
    code units, here bytes); and every palette colour is one that
    [hexToRgb] reads. *)
Theorem presence_colour_is_a_palette_colour :
  forall sessionId,
    exists colour rgb,
      getPresenceColor sessionId = Some colour
      /\ In colour PRESENCE_COLORS
      /\ hexToRgb colour = Some rgb.
Proof.
  intros sid. destruct (palette_lookup sid) as (c & Hc & Hin).
  exists c.
  assert (H : Forall (fun c => exists rgb, hexToRgb c = Some rgb) PRESENCE_COLORS)
    by (repeat constructor; eexists; reflexivity).
  rewrite Forall_forall in H. destruct (H c) as [rgb Hrgb].
  - apply list_elem_of_In. exact Hin.
  - exists rgb. split; [exact Hc|]. split; assumption.
Qed.

(** * The grid's edit path: a failed update *)

Lemma covered_assigned {V} (stored delta : option V) :
  covered (assignedOpt stored delta) delta = true.
Proof. destruct stored, delta; reflexivity. Qed.

Lemma edited_task_is_reversible id u s t :
  PartialTask.id u = None ->
  find (taskHasId id) (tasks (updateTask id u s)) = Some t ->
  taskDeltaReversible id t u = true.
Proof.
  intros Hu. unfold updateTask.
  destruct (findIndex (taskHasId id) (tasks s)) as [i|] eqn:Hi.
  - destruct (findIndex_Some _ _ _ Hi) as (x & Hx & Hp). rewrite Hx.
    cbn [tasks recompute setTasks].
    assert (Hid : taskHasId id (assignTask x u) = true).
    { unfold taskHasId in *. cbn [assignTask Task.id]. rewrite Hu. exact Hp. }
    rewrite (find_setAt_first _ _ _ _ Hi Hid). intros [= <-].
    unfold taskDeltaReversible. rewrite Hu. cbn [keepsId assignTask Task.collectionId
      Task.collectionName Task.created Task.updated].
    rewrite !covered_assigned. reflexivity.
  - rewrite find_findIndex, Hi. discriminate.
Qed.

Lemma edited_resource_is_reversible id u s r :
  PartialResource.id u = None ->
  find (resourceHasId id) (resources (updateResource id u s)) = Some r ->
  resourceDeltaReversible id r u = true.
Proof.
  intros Hu. unfold updateResource.
  destruct (findIndex (resourceHasId id) (resources s)) as [i|] eqn:Hi.
  - destruct (findIndex_Some _ _ _ Hi) as (x & Hx & Hp). rewrite Hx.
    cbn [resources recompute setResources].
    assert (Hid : resourceHasId id (assignResource x u) = true).
    { unfold resourceHasId in *. cbn [assignResource Resource.id]. rewrite Hu. exact Hp. }
    rewrite (find_setAt_first _ _ _ _ Hi Hid). intros [= <-].
    unfold resourceDeltaReversible. rewrite Hu. cbn [keepsId assignResource
      Resource.collectionId Resource.collectionName Resource.created Resource.updated].
    rewrite !covered_assigned. reflexivity.
  - rewrite find_findIndex, Hi. discriminate.
Qed.

(** For every store and every delta that leaves the identifier alone: when
    the remote call fails on the grid's edit path, the collections are
    those that the edit produced, not those before it.  [updateTaskAsync]
    saves its original after the grid has already applied the delta, so
    the rollback writes the edited record back. *)
Lemma grid_update_failure_keeps_the_edit :
  (forall id updates thrown s original s1,
      PartialTask.id updates = None ->
      onUpdateTask_begin id updates s = Some (original, s1) ->
      let s2 := updateTaskAsync_rejected id original thrown s1 in
      tasks s2 = tasks (updateTask id updates s)
      /\ resources s2 = resources s /\ allocations s2 = allocations s
      /\ error s2 = Some (errorMessage thrown "Fehler beim Aktualisieren"))
  /\
  (forall id updates thrown s original s1,
      PartialResource.id updates = None ->
      onUpdateResource_begin id updates s = Some (original, s1) ->
      let s2 := updateResourceAsync_rejected id original thrown s1 in
      resources s2 = resources (updateResource id updates s)
      /\ tasks s2 = tasks s /\ allocations s2 = allocations s
      /\ error s2 = Some (errorMessage thrown "Fehler beim Aktualisieren")).
Proof.
  split.
  - intros id updates thrown s original s1 Hu Hb s2.
    destruct (proj1 rollback_restores_the_store_of_the_call id updates thrown
                _ original s1 Hb
                (fun t => edited_task_is_reversible id updates s t Hu))
      as (Ht & Hr & Ha & He & _).
    fold s2 in Ht, Hr, Ha, He.
    split; [exact Ht|]. split; [|split; [|exact He]].
    + rewrite Hr. unfold updateTask. by_cases_of_the_action.
    + rewrite Ha. unfold updateTask. by_cases_of_the_action.
  - intros id updates thrown s original s1 Hu Hb s2.
    destruct (proj2 rollback_restores_the_store_of_the_call id updates thrown
                _ original s1 Hb
                (fun r => edited_resource_is_reversible id updates s r Hu))
      as (Ht & Hr & Ha & He & _).
    fold s2 in Ht, Hr, Ha, He.
    split; [exact Hr|]. split; [|split; [|exact He]].
    + rewrite Ht. unfold updateResource. by_cases_of_the_action.
    + rewrite Ha. unfold updateResource. by_cases_of_the_action.
Qed.

(** C4.  The code does not roll a failed update back.  A task named
    "Design" is renamed in the grid and the remote update fails: the store
    keeps the name "New" that the edit wrote, with the error message set;
    the same happens to a resource renamed from "Alice" to "Alicia".  The
    claim says that the store returns to the values before the update. *)
Theorem failed_rename_is_not_rolled_back :
  (exists original s1,
      onUpdateTask_begin "t1" rename oneTaskStore = Some (original, s1)
      /\ tasks oneTaskStore = [designTask]
      /\ tasks (updateTaskAsync_rejected "t1" original None s1) = [newNameTask]
      /\ error (updateTaskAsync_rejected "t1" original None s1)
         = Some "Fehler beim Aktualisieren")
  /\ (exists original s1,
         onUpdateResource_begin "r1" renameResource smallStore = Some (original, s1)
         /\ resources smallStore = [alice]
         /\ resources (updateResourceAsync_rejected "r1" original None s1) = [alicia]
         /\ error (updateResourceAsync_rejected "r1" original None s1)
            = Some "Fehler beim Aktualisieren").
Proof.
  split; eexists; eexists; (split; [reflexivity|]); repeat split.
Qed.

(** * The store wired to its subscription: queued events *)

Lemma count_positive_In {A} (idOf : A -> string) (id : string) (l : list A) :
  (0 < count (hasId idOf id) l)%nat -> In id (List.map idOf l).
Proof.
  induction l as [|a l IH]; [unfold count; simpl; lia|].
  rewrite count_cons. destruct (hasId idOf id a) eqn:Ha.
  - intros _. left. apply hasId_true in Ha. exact Ha.
  - intros H. right. apply IH. simpl in H. exact H.
Qed.

Lemma created_task_is_listed ev s :
  action ev = create ->
  In (Task.id (record ev)) (List.map Task.id (tasks (handleTaskChange ev s))).
Proof.
  intros Ha. rewrite (tasks_handleTaskChange_create ev s Ha).
  apply count_positive_In. apply created_has.
Qed.

Lemma created_resource_is_listed ev s :
  action ev = create ->
  In (Resource.id (record ev))
     (List.map Resource.id (resources (handleResourceChange ev s))).
Proof.
  intros Ha. rewrite (resources_handleResourceChange_create ev s Ha).
  apply count_positive_In. apply created_has.
Qed.

Lemma task_create_leaves_children ev s :
  action ev = create ->
  resources (handleTaskChange ev s) = resources s
  /\ allocations (handleTaskChange ev s) = allocations s.
Proof.
  intros Ha. unfold handleTaskChange. rewrite Ha.
  destruct (find _ (tasks s)); split; reflexivity.
Qed.

Lemma resource_create_leaves_allocations ev s :
  action ev = create ->
  allocations (handleResourceChange ev s) = allocations s.
Proof.
  intros Ha. unfold handleResourceChange. rewrite Ha.
  destruct (find _ (resources s)); reflexivity.
Qed.

Section LiveFacts.
Import Reconciler.

(** The closure sees a flush of the allocation queue as it does without
    the store. *)
Lemma live_retryAllocations l w :
  Live.closure (fold_left Live.retryAllocation l w)
  = fold_left retryAllocation l (Live.closure w)
  /\ Live.attached (fold_left Live.retryAllocation l w) = Live.attached w.
Proof.
  revert w. induction l as [|e l IH]; intros w; [split; reflexivity|].
  cbn [fold_left]. destruct (IH (Live.retryAllocation w e)) as [-> ->].
  unfold Live.retryAllocation, retryAllocation.
  destruct (has _ _); split; reflexivity.
Qed.

Lemma live_processPendingAllocations w :
  Live.closure (Live.processPendingAllocations w)
  = processPendingAllocations (Live.closure w)
  /\ Live.attached (Live.processPendingAllocations w) = Live.attached w.
Proof.
  unfold Live.processPendingAllocations, processPendingAllocations.
  apply (live_retryAllocations _ (Live.setClosure _ w)).
Qed.

Lemma live_nothing_pending_allocations w :
  pendingAllocations (Live.closure w) = [] ->
  Live.store (Live.processPendingAllocations w) = Live.store w
  /\ delivered (Live.closure (Live.processPendingAllocations w))
     = delivered (Live.closure w)
  /\ pendingAllocations (Live.closure (Live.processPendingAllocations w)) = [].
Proof.
  intros H. unfold Live.processPendingAllocations. rewrite H. repeat split.
Qed.

Lemma trackResource_keeps e c :
  taskIds (trackResource e c) = taskIds c
  /\ pendingResources (trackResource e c) = pendingResources c
  /\ delivered (trackResource e c) = delivered c.
Proof. unfold trackResource. destruct (action e); repeat split. Qed.

(** What one invocation of [onResourceChange] does: the store holds the
    handler's result, whatever was delivered from inside its recipe, and
    the closure keeps its task set and its resource queue. *)
Lemma live_onResourceChange e w :
  let w' := Live.onResourceChange e w in
  Live.store w' = handleResourceChange e (Live.store w)
  /\ Live.attached w' = Live.attached w
  /\ taskIds (Live.closure w') = taskIds (Live.closure w)
  /\ pendingResources (Live.closure w') = pendingResources (Live.closure w)
  /\ timers (Live.closure w') = timers (Live.closure w)
  /\ exists extra,
       delivered (Live.closure w')
       = delivered (Live.closure w) ++ onResourceChange e :: extra.
Proof.
  unfold Live.onResourceChange. cbv zeta.
  set (w1 := Live.setClosure (deliver (onResourceChange e) (Live.closure w)) w).
  destruct (Live.attached w1 && negb (Live.resourceRecipeReturnsEarly e (Live.store w1)))
    eqn:Hnest.
  - unfold Live.updateResourceIds.
    match goal with |- context [Live.processPendingAllocations ?a] =>
      destruct (live_processPendingAllocations a) as [Hc Ha];
      destruct (processPendingAllocations_spec (Live.closure a))
        as (H1 & _ & H3 & _ & H5 & H6)
    end.
    cbn [Live.store Live.attached Live.closure Live.setStore].
    rewrite Hc, Ha. cbv zeta in H1, H3, H5, H6. rewrite H1, H3, H5, H6.
    split; [reflexivity|]. split; [reflexivity|]. split; [reflexivity|].
    split; [reflexivity|]. split; [reflexivity|].
    eexists. cbn. rewrite <- app_assoc. reflexivity.
  - split; [reflexivity|]. split; [reflexivity|]. split; [reflexivity|].
    split; [reflexivity|]. split; [reflexivity|]. exists []. reflexivity.
Qed.

Lemma live_retryResources l w :
  let w' := fold_left Live.retryResource l w in
  Live.attached w' = Live.attached w
  /\ taskIds (Live.closure w') = taskIds (Live.closure w)
  /\ pendingResources (Live.closure w') = pendingResources (Live.closure w)
  /\ (exists extra,
         delivered (Live.closure w') = delivered (Live.closure w) ++ extra)
  /\ (forall q, In q l -> knownTask (taskIds (Live.closure w)) q = true ->
                In (onResourceChange q) (delivered (Live.closure w'))).
Proof.
  revert w. induction l as [|e l IH]; intros w; cbn [fold_left].
  - split; [reflexivity|]. split; [reflexivity|]. split; [reflexivity|].
    split; [exists []; symmetry; apply app_nil_r|]. intros q [].
  - destruct (IH (Live.retryResource w e)) as (Ha & Ht & Hp & (extra & Hd) & Hq).
    assert (Hstep : Live.attached (Live.retryResource w e) = Live.attached w
              /\ taskIds (Live.closure (Live.retryResource w e))
                 = taskIds (Live.closure w)
              /\ pendingResources (Live.closure (Live.retryResource w e))
                 = pendingResources (Live.closure w)
              /\ (exists extra0,
                     delivered (Live.closure (Live.retryResource w e))
                     = delivered (Live.closure w) ++ extra0)
              /\ (knownTask (taskIds (Live.closure w)) e = true ->
                  In (onResourceChange e)
                     (delivered (Live.closure (Live.retryResource w e))))).
    { unfold Live.retryResource, knownTask.
      destruct (has (taskIds (Live.closure w)) (Resource.task_id (record e))).
      - destruct (live_onResourceChange e w) as (_ & H2 & H3 & H4 & _ & (x & H6)).
        cbv zeta in *. set (w1 := Live.onResourceChange e w) in *.
        cbn [Live.setClosure Live.attached Live.closure].
        destruct (trackResource_keeps e (Live.closure w1)) as (-> & -> & ->).
        rewrite H2, H3, H4, H6.
        split; [reflexivity|]. split; [reflexivity|]. split; [reflexivity|].
        split; [eexists; reflexivity|]. intros _. apply in_or_app. right. left.
        reflexivity.
      - split; [reflexivity|]. split; [reflexivity|]. split; [reflexivity|].
        split; [exists []; symmetry; apply app_nil_r | discriminate]. }
    destruct Hstep as (Sa & St & Sp & (extra0 & Sd) & Sq).
    cbv zeta in *.
    split; [rewrite Ha; exact Sa|]. split; [rewrite Ht; exact St|].
    split; [rewrite Hp; exact Sp|].
    split; [exists (extra0 ++ extra); rewrite Hd, Sd, <- app_assoc; reflexivity|].
    intros q [<-|Hin] Hk.
    + rewrite Hd. apply in_or_app. left. exact (Sq Hk).
    + apply Hq; [exact Hin|]. rewrite St. exact Hk.
Qed.

Lemma live_processPendingResources w :
  let w' := Live.processPendingResources w in
  Live.attached w' = Live.attached w
  /\ taskIds (Live.closure w') = taskIds (Live.closure w)
  /\ pendingResources (Live.closure w') = []
  /\ (exists extra,
         delivered (Live.closure w') = delivered (Live.closure w) ++ extra)
  /\ (forall q, In q (pendingResources (Live.closure w)) ->
                knownTask (taskIds (Live.closure w)) q = true ->
                In (onResourceChange q) (delivered (Live.closure w'))).
Proof.
  unfold Live.processPendingResources.
  exact (live_retryResources (pendingResources (Live.closure w))
           (Live.setClosure (setPendingResources [] (Live.closure w)) w)).
Qed.

Lemma live_nothing_pending_resources w :
  pendingResources (Live.closure w) = [] ->
  Live.store (Live.processPendingResources w) = Live.store w
  /\ delivered (Live.closure (Live.processPendingResources w))
     = delivered (Live.closure w)
  /\ pendingResources (Live.closure (Live.processPendingResources w)) = [].
Proof.
  intros H. unfold Live.processPendingResources. rewrite H. repeat split.
Qed.
End LiveFacts.

(** For every store that holds its subscription: the ['create'] event of a
    task that is new to the store hands the queued resource events of that
    task to [onResourceChange] and empties the queue, yet the resources of
    the store are what they were, because the queue is flushed from inside
    the recipe of [handleTaskChange] and [set] then stores that recipe's
    result.  The same for the queued allocation events of a resource whose
    ['create'] event arrives. *)
Lemma queued_events_are_delivered_inside_a_recipe :
  (forall projectId e w,
      Live.attached w = true ->
      action e = create ->
      Task.project_id (record e) = projectId ->
      find (taskHasId (Task.id (record e))) (tasks (Live.store w)) = None ->
      let w' := Live.tasksEvent projectId e w in
      resources (Live.store w') = resources (Live.store w)
      /\ allocations (Live.store w') = allocations (Live.store w)
      /\ Reconciler.pendingResources (Live.closure w') = []
      /\ (forall q, In q (Reconciler.pendingResources (Live.closure w)) ->
                    Resource.task_id (record q) = Task.id (record e) ->
                    In (Reconciler.onResourceChange q)
                       (Reconciler.delivered (Live.closure w'))))
  /\
  (forall e w,
      Live.attached w = true ->
      action e = create ->
      Reconciler.has (Reconciler.taskIds (Live.closure w)) (Resource.task_id (record e))
      = true ->
      find (resourceHasId (Resource.id (record e))) (resources (Live.store w)) = None ->
      let w' := Live.resourcesEvent e w in
      allocations (Live.store w') = allocations (Live.store w)
      /\ Reconciler.pendingAllocations (Live.closure w') = []
      /\ (forall q, In q (Reconciler.pendingAllocations (Live.closure w)) ->
                    Allocation.resource_id (record q) = Resource.id (record e) ->
                    In (Reconciler.onAllocationChange q)
                       (Reconciler.delivered (Live.closure w')))).
Proof.
  split.
  - intros projectId e w Hatt Hact Hproj Hnew w'. subst w'.
    unfold Live.tasksEvent. rewrite Hproj, String.eqb_refl, Hact. cbv zeta.
    set (w1 := Live.onTaskChange e w).
    assert (H1 : Live.store w1 = handleTaskChange e (Live.store w)
                 /\ Reconciler.pendingResources (Live.closure w1) = []
                 /\ (forall q,
                        In q (Reconciler.pendingResources (Live.closure w)) ->
                        Resource.task_id (record q) = Task.id (record e) ->
                        In (Reconciler.onResourceChange q)
                           (Reconciler.delivered (Live.closure w1)))).
    { subst w1. unfold Live.onTaskChange. cbv zeta.
      cbn [Live.setClosure Live.attached Live.store]. rewrite Hatt.
      unfold Live.taskRecipeReturnsEarly. rewrite Hact, Hnew. cbn [andb negb].
      unfold Live.updateTaskIds.
      match goal with |- context [Live.processPendingResources ?a] =>
        destruct (live_processPendingResources a) as (_ & _ & Hp & _ & Hq)
      end.
      cbv zeta in Hp, Hq. cbn [Live.setStore Live.store Live.closure].
      split; [reflexivity|]. split; [exact Hp|].
      intros q Hin Htask. apply Hq; [exact Hin|].
      unfold knownTask. cbn. apply has_list. rewrite Htask.
      apply created_task_is_listed. exact Hact. }
    destruct H1 as (Hs & Hp & Hq).
    match goal with |- context [Live.processPendingResources ?a] =>
      destruct (live_nothing_pending_resources a Hp) as (Es & Ed & Ep)
    end.
    rewrite Es, Ed, Ep. cbn [Live.setClosure Live.store Live.closure
      Reconciler.setTaskIds Reconciler.delivered].
    rewrite Hs. destruct (task_create_leaves_children e (Live.store w) Hact) as [-> ->].
    split; [reflexivity|]. split; [reflexivity|]. split; [reflexivity|]. exact Hq.
  - intros e w Hatt Hact Hknown Hnew w'. subst w'.
    unfold Live.resourcesEvent. rewrite Hknown, Hact. cbv zeta.
    set (w1 := Live.onResourceChange e w).
    assert (H1 : Live.store w1 = handleResourceChange e (Live.store w)
                 /\ Reconciler.pendingAllocations (Live.closure w1) = []
                 /\ (forall q,
                        In q (Reconciler.pendingAllocations (Live.closure w)) ->
                        Allocation.resource_id (record q) = Resource.id (record e) ->
                        In (Reconciler.onAllocationChange q)
                           (Reconciler.delivered (Live.closure w1)))).
    { subst w1. unfold Live.onResourceChange. cbv zeta.
      cbn [Live.setClosure Live.attached Live.store]. rewrite Hatt.
      unfold Live.resourceRecipeReturnsEarly. rewrite Hact, Hnew. cbn [andb negb].
      unfold Live.updateResourceIds.
      match goal with |- context [Live.processPendingAllocations ?a] =>
        destruct (live_processPendingAllocations a) as [Hc _];
        destruct (processPendingAllocations_spec (Live.closure a))
          as (_ & _ & _ & Hp & _ & Hd)
      end.
      cbv zeta in Hp, Hd. cbn [Live.setStore Live.store Live.closure].
      rewrite Hc. split; [reflexivity|]. split; [exact Hp|].
      intros q Hin Hres. rewrite Hd. apply in_or_app. right. apply in_map.
      apply List.filter_In. split; [exact Hin|].
      unfold knownResource. cbn. apply has_list. rewrite Hres.
      apply created_resource_is_listed. exact Hact. }
    destruct H1 as (Hs & Hp & Hq).
    match goal with |- context [Live.processPendingAllocations ?a] =>
      destruct (live_nothing_pending_allocations a Hp) as (Es & Ed & Ep)
    end.
    rewrite Es, Ed, Ep. cbn [Live.setClosure Live.store Live.closure
      Reconciler.setResourceIds Reconciler.delivered].
    rewrite Hs, (resource_create_leaves_allocations e (Live.store w) Hact).
    split; [reflexivity|]. split; [reflexivity|]. exact Hq.
Qed.

(** C5.  The code does not do what the claim says.  A resource ['create']
    event arrives before the ['create'] event of its task and is queued;
    when the task event arrives, [onResourceChange] is invoked for the
    queued event, but from inside the recipe of [handleTaskChange], so the
    store ends with the task and without the resource: the derived view
    shows the task with no resource under it, the queue is empty and the
    retry that is still scheduled finds nothing.  The same happens to an
    allocation ['create'] event that arrives before its resource.  The
    claim says that the resource appears under its task. *)
Theorem out_of_order_resource_never_reaches_the_store :
  let queued := Live.resourcesEvent lateResource liveEmptyProject in
  let w := Live.timerFires (Live.tasksEvent "p1" owningTask queued) in
  let queued' := Live.allocationsEvent lateAllocation liveOneTask in
  let w' := Live.timerFires (Live.resourcesEvent lateResource queued') in
  (Reconciler.pendingResources (Live.closure queued) = [lateResource]
   /\ Reconciler.delivered (Live.closure w)
      = [Reconciler.onTaskChange owningTask; Reconciler.onResourceChange lateResource]
   /\ tasks (Live.store w) = [record owningTask]
   /\ resources (Live.store w) = []
   /\ List.map TaskWithAggregation.resources (tasksWithData (Live.store w)) = [[]]
   /\ Reconciler.pendingResources (Live.closure w) = []
   /\ Reconciler.timers (Live.closure w) = [])
  /\ (Reconciler.pendingAllocations (Live.closure queued') = [lateAllocation]
      /\ Reconciler.delivered (Live.closure w')
         = [Reconciler.onResourceChange lateResource;
            Reconciler.onAllocationChange lateAllocation]
      /\ resources (Live.store w') = [record lateResource]
      /\ allocations (Live.store w') = []
      /\ Reconciler.pendingAllocations (Live.closure w') = []
      /\ Reconciler.timers (Live.closure w') = []).
Proof.
  cbv zeta. split; repeat split.
Qed.

(** While the store does not hold the subscription yet, the same two
    events do store the resource: the queue is then flushed by the
    subscription itself, after [handleTaskChange] has returned. *)
Lemma resource_is_stored_while_the_handle_is_not :
  let detached := Live.mk emptyProject false (Reconciler.subscribe [] []) in
  let w := Live.tasksEvent "p1" owningTask (Live.resourcesEvent lateResource detached) in
  resources (Live.store w) = [record lateResource]
  /\ Reconciler.delivered (Live.closure w)
     = [Reconciler.onTaskChange owningTask; Reconciler.onResourceChange lateResource].
Proof. split; reflexivity. Qed.
